(** * A shell emulator over a zip-backed virtual file system

    Shallow embedding of [emulator.py] (class [ShellEmulator]) and the
    properties its specification states about it.

    Modelling conventions.
    - A Python [str] is a Rocq [string]; a character is a code point below
      256.  [print(x)] appends the line [x] to the field [stdout].
    - The content of a file is a [string] of bytes.  [open(path, 'r')]
      decodes it as UTF-8, the encoding Python takes on a POSIX host, and
      raises [UnicodeDecodeError] on bytes that are not UTF-8.
    - [os.path] is [posixpath]: the separator is [/] and a backslash is an
      ordinary character of a file name.
    - The host file system is a finite map from canonical locations (the
      list of the names on the way down from the host root) to nodes; there
      are no symbolic links (the specification excludes them).
    - A method of [ShellEmulator] is a function from the state of the object
      and of the world to an outcome: it returns, raises or exits.
    - The archive at [vfs_path] and the JSON file at [log_path] are kept
      apart from the host map, as two fields of the world: the host map
      holds every other file of the host, and these two are files of their
      own, neither of them in the working area. *)

From Stdlib Require Import Ascii.
From stdpp Require Import base option list strings gmap sorting.

Local Open Scope stdpp_scope.

(** ** Python string methods *)

Module PyStr.

Definition slash : ascii := "/"%char.
Definition backslash : ascii := "\"%char.
Definition LF : ascii := "010"%char.
Definition CR : ascii := "013"%char.

(** [c.isspace()] for the code points below 256. *)
Definition is_space (c : ascii) : bool :=
  match c with
  | "009" | "010" | "011" | "012" | "013"
  | "028" | "029" | "030" | "031" | " "
  | "133" | "160" => true
  | _ => false
  end%char.

(** [c in chars] *)
Fixpoint contains (chars : string) (c : ascii) : bool :=
  match chars with
  | EmptyString => false
  | String d chars' => bool_decide (d = c) || contains chars' c
  end.

(** [s.startswith(p)] *)
Fixpoint startswith (s p : string) : bool :=
  match p, s with
  | EmptyString, _ => true
  | String a p', String b s' => bool_decide (a = b) && startswith s' p'
  | String _ _, EmptyString => false
  end.

(** [s.endswith(p)] *)
Fixpoint endswith (s p : string) : bool :=
  bool_decide (s = p)
  || match s with
     | EmptyString => false
     | String _ s' => endswith s' p
     end.

(** [s[n:]] *)
Fixpoint slice_from (n : nat) (s : string) : string :=
  match n, s with
  | 0, _ => s
  | S n', String _ s' => slice_from n' s'
  | S _, EmptyString => EmptyString
  end.

Fixpoint lstrip_with (p : ascii → bool) (s : string) : string :=
  match s with
  | EmptyString => EmptyString
  | String c s' => if p c then lstrip_with p s' else s
  end.

Fixpoint rstrip_with (p : ascii → bool) (s : string) : string :=
  match s with
  | EmptyString => EmptyString
  | String c s' =>
      match rstrip_with p s' with
      | EmptyString => if p c then EmptyString else String c EmptyString
      | r => String c r
      end
  end.

(** [s.lstrip(chars)], [s.rstrip(chars)], [s.strip(chars)] *)
Definition lstrip (chars s : string) : string := lstrip_with (contains chars) s.
Definition rstrip (chars s : string) : string := rstrip_with (contains chars) s.
Definition strip (chars s : string) : string := rstrip chars (lstrip chars s).

(** [s.rstrip()], [s.strip()]: white space *)
Definition rstrip_ws (s : string) : string := rstrip_with is_space s.
Definition strip_ws (s : string) : string :=
  rstrip_with is_space (lstrip_with is_space s).

(** [s.split(sep)] for a separator of one character *)
Fixpoint split (sep : ascii) (s : string) : list string :=
  match s with
  | EmptyString => [EmptyString]
  | String c s' =>
      if bool_decide (c = sep) then EmptyString :: split sep s'
      else match split sep s' with
           | w :: ws => String c w :: ws
           | [] => [String c EmptyString]
           end
  end.

(** [s.split()]: the maximal runs of characters that are not white space *)
Fixpoint split_ws (s : string) : list string :=
  match s with
  | EmptyString => []
  | String c s' =>
      if is_space c then split_ws s'
      else match s' with
           | EmptyString => [String c EmptyString]
           | String c' _ =>
               if is_space c' then String c EmptyString :: split_ws s'
               else match split_ws s' with
                    | w :: ws => String c w :: ws
                    | [] => [String c EmptyString]
                    end
           end
  end.

(** [s.replace(a, b)] for single characters *)
Fixpoint replace (a b : ascii) (s : string) : string :=
  match s with
  | EmptyString => EmptyString
  | String c s' => String (if bool_decide (c = a) then b else c) (replace a b s')
  end.

(** [c in s] *)
Definition has_char (c : ascii) (s : string) : bool := contains s c.

(** [sep.join(l)] *)
Fixpoint join (sep : string) (l : list string) : string :=
  match l with
  | [] => EmptyString
  | [x] => x
  | x :: l' => x +:+ sep +:+ join sep l'
  end.

(** [c * n] *)
Fixpoint repeat_char (c : ascii) (n : nat) : string :=
  match n with
  | 0 => EmptyString
  | S n' => String c (repeat_char c n')
  end.

(** [x or y] on strings *)
Definition or_else (x y : string) : string :=
  match x with EmptyString => y | _ => x end.

(** The line boundaries of [str.splitlines] among the code points below
    256. *)
Definition is_linebreak (c : ascii) : bool :=
  match c with
  | "010" | "011" | "012" | "013" | "028" | "029" | "030" | "133" => true
  | _ => false
  end%char.

(** [s.splitlines()]: the lines without their boundaries; [\r\n] is one
    boundary, and a boundary at the end opens no further line. *)
Fixpoint splitlines (s : string) : list string :=
  match s with
  | EmptyString => []
  | String c s' =>
      if is_linebreak c then
        match s' with
        | String c' s'' =>
            if bool_decide (c = CR) && bool_decide (c' = LF)
            then EmptyString :: splitlines s''
            else EmptyString :: splitlines s'
        | EmptyString => [EmptyString]
        end
      else match splitlines s' with
           | l :: ls => String c l :: ls
           | [] => [String c EmptyString]
           end
  end.

(** [c.isprintable()] for the code points below 256. *)
Definition is_printable (c : ascii) : bool :=
  let n := nat_of_ascii c in
  (32 <=? n) && (n <? 127) || (161 <=? n) && negb (n =? 173).

Definition quote : ascii := "'"%char.
Definition double_quote : ascii := "034"%char.

Definition hex_digit (n : nat) : ascii :=
  match String.get n "0123456789abcdef" with
  | Some c => c
  | None => "0"%char
  end.

(** [format(n, '02x')] for [n] below 256. *)
Definition hex2 (n : nat) : string :=
  String (hex_digit (n / 16)) (String (hex_digit (n mod 16)) EmptyString).

Fixpoint str_nat_fuel (fuel n : nat) (acc : string) : string :=
  match fuel with
  | 0 => acc
  | S fuel' =>
      let acc := String (hex_digit (n mod 10)) acc in
      if n <? 10 then acc else str_nat_fuel fuel' (n / 10) acc
  end.

(** [str(n)] for a natural number; it has at most [S n] digits. *)
Definition str_nat (n : nat) : string := str_nat_fuel (S n) n EmptyString.

(** One character inside [repr(s)], the string being written between
    [q]. *)
Definition repr_char (q c : ascii) : string :=
  if bool_decide (c = backslash) then String backslash (String backslash EmptyString)
  else if bool_decide (c = q) then String backslash (String q EmptyString)
  else if bool_decide (c = "009"%char) then String backslash "t"
  else if bool_decide (c = LF) then String backslash "n"
  else if bool_decide (c = CR) then String backslash "r"
  else if is_printable c then String c EmptyString
  else String backslash ("x" +:+ hex2 (nat_of_ascii c)).

Fixpoint repr_chars (q : ascii) (s : string) : string :=
  match s with
  | EmptyString => EmptyString
  | String c s' => repr_char q c +:+ repr_chars q s'
  end.

(** [repr(s)]: between single quotes, or between double quotes when [s]
    has a single quote and no double quote. *)
Definition repr (s : string) : string :=
  let q := if has_char quote s && negb (has_char double_quote s)
           then double_quote else quote in
  String q (repr_chars q s +:+ String q EmptyString).

End PyStr.

(** ** [posixpath] *)

Module PosixPath.
Import PyStr.

(** [os.path.join(a, b)] *)
Definition join (a b : string) : string :=
  if startswith b "/" then b
  else if bool_decide (a = "") || endswith a "/" then a +:+ b
  else a +:+ "/" +:+ b.

(** [os.path.join(a, b, c)] *)
Definition join3 (a b c : string) : string := join (join a b) c.

(** The loop of [normpath] over the components. *)
Definition normpath_step (initial_slashes : nat) (new_comps : list string)
    (comp : string) : list string :=
  if bool_decide (comp = "") || bool_decide (comp = ".") then new_comps
  else if negb (bool_decide (comp = ".."))
          || (bool_decide (initial_slashes = 0) && bool_decide (new_comps = []))
          || bool_decide (last new_comps = Some "..")
       then new_comps ++ [comp]
       else removelast new_comps.

(** [os.path.normpath(path)] *)
Definition normpath (path : string) : string :=
  if bool_decide (path = "") then "."
  else
    let initial_slashes :=
      if startswith path "/" then
        if startswith path "//" && negb (startswith path "///") then 2 else 1
      else 0 in
    let comps := foldl (normpath_step initial_slashes) [] (split slash path) in
    or_else (repeat_char slash initial_slashes +:+ PyStr.join "/" comps) ".".

(** [p[:i], p[i:]] for [i = p.rfind('/') + 1] *)
Fixpoint rsplit_slash (p : string) : string * string :=
  match p with
  | EmptyString => (EmptyString, EmptyString)
  | String c p' =>
      let '(h, t) := rsplit_slash p' in
      if bool_decide (c = slash) then (String c h, t)
      else match h with
           | EmptyString => (EmptyString, String c t)
           | _ => (String c h, t)
           end
  end.

Definition all_slashes (s : string) : bool :=
  bool_decide (s = repeat_char slash (String.length s)).

(** [os.path.split(p)] *)
Definition split (p : string) : string * string :=
  let '(head, tail) := rsplit_slash p in
  if negb (bool_decide (head = "")) && negb (all_slashes head)
  then (rstrip "/" head, tail)
  else (head, tail).

(** [os.path.dirname(p)] *)
Definition dirname (p : string) : string := fst (split p).

End PosixPath.

(** ** Outcomes of Python code: return, raise, [sys.exit] *)

Inductive exn : Set :=
  | TypeError
  | IndexError
  | RecursionError
  | FileNotFoundError
  | FileExistsError
  | NotADirectoryError
  | IsADirectoryError
  | SameFileError
  | UnicodeDecodeError (object : string) (start stop : nat) (reason : string).

Global Instance exn_eq_dec : EqDecision exn.
Proof. solve_decision. Defined.

Inductive outcome (S A : Type) : Type :=
  | Returns (a : A) (s : S)
  | Raises (e : exn) (s : S)
  | Exits (code : nat) (s : S).
Global Arguments Returns {S A} a s.
Global Arguments Raises {S A} e s.
Global Arguments Exits {S A} code s.

(** A computation over a state [S]. *)
Definition M (S A : Type) : Type := S → outcome S A.

Global Instance M_ret {S} : MRet (M S) := λ A a s, Returns a s.
Global Instance M_bind {S} : MBind (M S) := λ A B f m s,
  match m s with
  | Returns a s' => f a s'
  | Raises e s' => Raises e s'
  | Exits c s' => Exits c s'
  end.

Definition raise {S A} (e : exn) : M S A := λ s, Raises e s.
Definition sys_exit {S A} (code : nat) : M S A := λ s, Exits code s.
Definition gets {S A} (f : S → A) : M S A := λ s, Returns (f s) s.
Definition modify {S} (f : S → S) : M S unit := λ s, Returns () (f s).

(** [try: m except Exception as e: h e] ([SystemExit] is not an
    [Exception]). *)
Definition try_except {S A} (m : M S A) (h : exn → M S A) : M S A := λ s,
  match m s with
  | Raises e s' => h e s'
  | o => o
  end.

(** The computation returned. *)
Definition returned {S A} (o : outcome S A) : bool :=
  match o with
  | Returns _ _ => true
  | _ => false
  end.

(** The state an outcome ends in. *)
Definition final {S A} (o : outcome S A) : S :=
  match o with
  | Returns _ s | Raises _ s | Exits _ s => s
  end.

(** ** The host file system *)

Module HostFs.
Import PyStr.

Inductive node : Set :=
  | File (data : string)
  | Dir.

Global Instance node_eq_dec : EqDecision node.
Proof. solve_decision. Defined.

(** The host root always exists and is a directory. *)
Definition stat (fs : gmap (list string) node) (l : list string) : option node :=
  match l with
  | [] => Some Dir
  | _ => fs !! l
  end.

(** One component of a path name: the place reached so far must be a
    directory; an empty component and [.] stay, [..] goes up. *)
Definition namei_step (fs : gmap (list string) node)
    (cur : option (list string)) (comp : string) : option (list string) :=
  l ← cur;
  match stat fs l with
  | Some Dir =>
      if bool_decide (comp = "") || bool_decide (comp = ".") then Some l
      else if bool_decide (comp = "..") then Some (removelast l)
      else Some (l ++ [comp])
  | _ => None
  end.

(** The location a path name denotes; the last component need not exist.
    Every path the emulator builds is absolute; a relative one is taken
    from the host root. *)
Definition namei (fs : gmap (list string) node) (path : string)
    : option (list string) :=
  if bool_decide (path = "") then None
  else foldl (namei_step fs) (Some []) (split slash path).

(** [os.stat(path)], [None] when it fails. *)
Definition os_stat (fs : gmap (list string) node) (path : string) : option node :=
  namei fs path ≫= stat fs.

(** [os.path.exists], [os.path.isdir], [os.path.isfile] *)
Definition exists_ (fs : gmap (list string) node) (path : string) : bool :=
  bool_decide (is_Some (os_stat fs path)).
Definition isdir (fs : gmap (list string) node) (path : string) : bool :=
  bool_decide (os_stat fs path = Some Dir).
Definition isfile (fs : gmap (list string) node) (path : string) : bool :=
  match os_stat fs path with
  | Some (File _) => true
  | _ => false
  end.

(** One component of a path name that denotes nothing: the walk stops with
    [ENOTDIR] at a regular file it would have to go through, and with
    [ENOENT] where there is nothing. *)
Definition namei_error_step (fs : gmap (list string) node)
    (cur : exn + list string) (comp : string) : exn + list string :=
  match cur with
  | inl e => inl e
  | inr l =>
      match stat fs l with
      | Some Dir =>
          if bool_decide (comp = "") || bool_decide (comp = ".") then inr l
          else if bool_decide (comp = "..") then inr (removelast l)
          else inr (l ++ [comp])
      | Some (File _) => inl NotADirectoryError
      | None => inl FileNotFoundError
      end
  end.

(** The [OSError] of a system call on a path name that has no node. *)
Definition lookup_error (fs : gmap (list string) node) (path : string) : exn :=
  if bool_decide (path = "") then FileNotFoundError
  else match foldl (namei_error_step fs) (inr []) (split slash path) with
       | inl e => e
       | inr _ => FileNotFoundError
       end.

(** [open(path, 'rb')] followed by reads: the bytes of the file. *)
Definition open_read (path : string) : M (gmap (list string) node) string := λ fs,
  match os_stat fs path with
  | Some (File data) => Returns data fs
  | Some Dir => Raises IsADirectoryError fs
  | None => Raises (lookup_error fs path) fs
  end.

(** [0x80 <= b < 0xC0] *)
Definition is_continuation (b : ascii) : bool :=
  (128 <=? nat_of_ascii b) && (nat_of_ascii b <? 192).

(** Why the UTF-8 decoder stops at the bytes [String b rest], which do not
    start with a character below 256: the number of bytes the error
    spans, and its reason.  A well-formed character above [U+00FF] has no
    place in the strings of this model; the model stops at it too, with a
    reason of its own. *)
Definition utf8_stop (b : ascii) (rest : string) : nat * string :=
  let n := nat_of_ascii b in
  let beyond := "character above U+00FF" in
  if (n <? 194) || (245 <=? n) then (1, "invalid start byte")
  else
    match rest with
    | EmptyString => (1, "unexpected end of data")
    | String b2 rest2 =>
        let n2 := nat_of_ascii b2 in
        if n <? 224 then
          if negb (is_continuation b2) then (1, "invalid continuation byte")
          else (2, beyond)
        else
          let out_of_range :=
            if n <? 240 then (if n2 <? 160 then n =? 224 else n =? 237)
            else (if n2 <? 144 then n =? 240 else n =? 244) in
          if negb (is_continuation b2) || out_of_range
          then (1, "invalid continuation byte")
          else
            match rest2 with
            | EmptyString => (2, "unexpected end of data")
            | String b3 rest3 =>
                if negb (is_continuation b3) then (2, "invalid continuation byte")
                else if n <? 240 then (3, beyond)
                else
                  match rest3 with
                  | EmptyString => (3, "unexpected end of data")
                  | String b4 _ =>
                      if negb (is_continuation b4)
                      then (3, "invalid continuation byte")
                      else (4, beyond)
                  end
            end
    end.

(** [bytes.decode('utf-8')] on what is left of [object] from the position
    [pos] on: the text, or the [UnicodeDecodeError] of the first bytes that
    are not UTF-8. *)
Fixpoint utf8_decode_from (object : string) (pos : nat) (bytes : string)
    : exn + string :=
  match bytes with
  | EmptyString => inr EmptyString
  | String b rest =>
      let n := nat_of_ascii b in
      if n <? 128 then
        match utf8_decode_from object (S pos) rest with
        | inr text => inr (String b text)
        | inl e => inl e
        end
      else
        match rest with
        | String b2 rest2 =>
            if ((n =? 194) || (n =? 195)) && is_continuation b2 then
              match utf8_decode_from object (S (S pos)) rest2 with
              | inr text =>
                  inr (String (ascii_of_nat (64 * (n - 192) + (nat_of_ascii b2 - 128)))
                         text)
              | inl e => inl e
              end
            else
              let '(width, reason) := utf8_stop b rest in
              inl (UnicodeDecodeError object pos (pos + width) reason)
        | EmptyString =>
            let '(width, reason) := utf8_stop b rest in
            inl (UnicodeDecodeError object pos (pos + width) reason)
        end
  end.

Definition utf8_decode (bytes : string) : exn + string :=
  utf8_decode_from bytes 0 bytes.

(** [open(path, 'r')] and the characters read from it, before the
    translation of line ends.  The model decodes the file at once, as
    [f.read()] does and as [f.readline()] does on a file that comes in one
    chunk; on a longer file [readline] decodes chunk by chunk, and meets
    bytes that are not UTF-8 only when it comes to their chunk. *)
Definition open_text (path : string) : M (gmap (list string) node) string :=
  data ← open_read path;
  match utf8_decode data with
  | inr text => mret text
  | inl e => raise e
  end.

(** What text mode makes of the characters read: [\r\n] and [\r] become
    [\n]. *)
Fixpoint universal_newlines (data : string) : string :=
  match data with
  | EmptyString => EmptyString
  | String c data' =>
      if bool_decide (c = CR) then
        String LF
          match data' with
          | String c' data'' =>
              if bool_decide (c' = LF) then universal_newlines data''
              else universal_newlines data'
          | EmptyString => EmptyString
          end
      else String c (universal_newlines data')
  end.

(** [open(path, 'r')], [f.read()] *)
Definition read_text (path : string) : M (gmap (list string) node) string :=
  text ← open_text path; mret (universal_newlines text).

(** Creating or truncating the file at a location, and writing [data]. *)
Definition write_at (l : list string) (data : string)
    : M (gmap (list string) node) unit := λ fs,
  match stat fs l with
  | Some Dir => Raises IsADirectoryError fs
  | Some (File _) => Returns () (<[l := File data]> fs)
  | None =>
      if bool_decide (stat fs (removelast l) = Some Dir)
      then Returns () (<[l := File data]> fs)
      else Raises FileNotFoundError fs
  end.

(** Creating a directory at a location. *)
Definition mkdir_at (l : list string) : M (gmap (list string) node) unit := λ fs,
  match stat fs l with
  | Some _ => Raises FileExistsError fs
  | None =>
      if bool_decide (stat fs (removelast l) = Some Dir)
      then Returns () (<[l := Dir]> fs)
      else Raises FileNotFoundError fs
  end.

(** [open(path, 'wb')], one write of [data], close. *)
Definition open_write (path data : string) : M (gmap (list string) node) unit :=
  λ fs,
  match namei fs path with
  | None => Raises (lookup_error fs path) fs
  | Some l => write_at l data fs
  end.

(** [os.mkdir(path)]; trailing slashes are allowed. *)
Definition mkdir (path : string) : M (gmap (list string) node) unit := λ fs,
  let path' := if PosixPath.all_slashes path then path else rstrip "/" path in
  match namei fs path' with
  | None => Raises (lookup_error fs path') fs
  | Some l => mkdir_at l fs
  end.

(** [os.makedirs(name, exist_ok=exist_ok)]; the recursion is on a proper
    prefix of [name], so [String.length name] is fuel enough. *)
Fixpoint makedirs_fuel (fuel : nat) (exist_ok : bool) (name : string)
    : M (gmap (list string) node) unit :=
  match fuel with
  | 0 => raise RecursionError
  | S fuel' =>
      let '(head, tail) := PosixPath.split name in
      let '(head, tail) :=
        if bool_decide (tail = "") then PosixPath.split head else (head, tail) in
      let make : M (gmap (list string) node) unit :=
        try_except (mkdir name)
          (λ e, fs ← gets id;
                if negb exist_ok || negb (isdir fs name) then raise e
                else mret ()) in
      fs ← gets id;
      if negb (bool_decide (head = "")) && negb (bool_decide (tail = ""))
         && negb (exists_ fs head)
      then
        try_except (makedirs_fuel fuel' exist_ok head)
          (λ e, if bool_decide (e = FileExistsError) then mret () else raise e);;
        if bool_decide (tail = ".") then mret () else make
      else make
  end.

Definition makedirs (exist_ok : bool) (name : string)
    : M (gmap (list string) node) unit :=
  makedirs_fuel (S (String.length name)) exist_ok name.

(** [os.path.samefile], [False] when either [stat] fails. *)
Definition samefile (fs : gmap (list string) node) (a b : string) : bool :=
  exists_ fs a && exists_ fs b && bool_decide (namei fs a = namei fs b).

(** [shutil.copyfile(src, dst)] *)
Definition copyfile (src dst : string) : M (gmap (list string) node) unit :=
  fs ← gets id;
  if samefile fs src dst then raise SameFileError
  else
    data ← open_read src;
    try_except (open_write dst data)
      (λ e, fs' ← gets id;
            if bool_decide (e = IsADirectoryError) && negb (exists_ fs' dst)
            then raise FileNotFoundError
            else raise e).

(** [shutil.rmtree(path)] on an existing directory. *)
Definition rmtree (path : string) : M (gmap (list string) node) unit := λ fs,
  match namei fs path with
  | Some l =>
      match stat fs l with
      | Some Dir =>
          Returns () (filter (λ kn : list string * node, ¬ l `prefix_of` kn.1) fs)
      | Some (File _) => Raises NotADirectoryError fs
      | None => Raises FileNotFoundError fs
      end
  | None => Raises (lookup_error fs path) fs
  end.

(** The name of [k] inside the directory [d], when [k] is a child of [d]. *)
Definition child_name (d k : list string) : option string :=
  if bool_decide (take (length d) k = d) then
    match drop (length d) k with
    | [c] => Some c
    | _ => None
    end
  else None.

(** [os.scandir]: the entries of a directory, in the order of the map. *)
Definition scandir (fs : gmap (list string) node) (d : list string)
    : list (string * node) :=
  omap (λ kn : list string * node, (λ c, (c, kn.2)) <$> child_name d kn.1)
       (map_to_list fs).

Definition dirnames (fs : gmap (list string) node) (d : list string) : list string :=
  omap (λ cn : string * node, if cn.2 is Dir then Some cn.1 else None) (scandir fs d).
Definition filenames (fs : gmap (list string) node) (d : list string) : list string :=
  omap (λ cn : string * node, if cn.2 is File _ then Some cn.1 else None) (scandir fs d).

(** The directories at or below [d]. *)
Definition subdirs (fs : gmap (list string) node) (d : list string)
    : list (list string) :=
  d :: omap (λ kn : list string * node,
               if kn.2 is Dir then
                 if bool_decide (d `prefix_of` kn.1) && negb (bool_decide (kn.1 = d))
                 then Some kn.1 else None
               else None)
            (map_to_list fs).

(** [os.walk(top)]: one triple [(root, dirs, files)] per directory at or
    below [top]; nothing when [top] is not a directory.  The order in
    which a directory is read is not specified by the library; the model
    takes that of the map. *)
Definition walk (fs : gmap (list string) node) (top : string)
    : list (string * list string * list string) :=
  match namei fs top with
  | Some d =>
      if bool_decide (stat fs d = Some Dir) then
        (λ k, (foldl PosixPath.join top (drop (length d) k),
               dirnames fs k, filenames fs k)) <$> subdirs fs d
      else []
  | None => []
  end.

(** A proper name of a directory entry. *)
Definition valid_name (c : string) : bool :=
  negb (bool_decide (c = "")) && negb (bool_decide (c = "."))
  && negb (bool_decide (c = "..")) && negb (has_char slash c).

(** A well-formed file system: every entry lies in a directory, and names
    are proper names. *)
Definition wf (fs : gmap (list string) node) : Prop :=
  map_Forall (λ (k : list string) (_ : node),
    k ≠ [] ∧ stat fs (removelast k) = Some Dir
    ∧ Forall (λ c, valid_name c = true) k) fs.

(** [os.path.relpath(path, start)], the process being at the host root. *)
Definition abspath (p : string) : string := PosixPath.normpath (PosixPath.join "/" p).

Definition relpath (path start : string) : string :=
  let start_list := filter (λ x, x ≠ "") (split slash (abspath start)) in
  let path_list := filter (λ x, x ≠ "") (split slash (abspath path)) in
  let '(start_rest, path_rest, _) := max_prefix start_list path_list in
  let rel_list := replicate (length start_rest) ".." ++ path_rest in
  match rel_list with
  | [] => "."
  | x :: l => foldl PosixPath.join x l
  end.

End HostFs.

(** ** Zip archives

    [zipfile] and [shutil.make_archive] belong to the Python library; the
    model keeps what they do to names and contents.  An archive is the list
    of its members; a member whose name ends in [/] is a directory. *)

Module Zip.
Import PyStr HostFs.

Record member : Set := Member { filename : string; content : string }.

Global Instance member_eq_dec : EqDecision member.
Proof. solve_decision. Defined.

(** [ZipInfo.is_dir] *)
Definition is_dir (m : member) : bool := endswith (filename m) "/".

(** The parts of a member name that [ZipFile._extract_member] keeps: empty
    parts, [.] and [..] are dropped, so that an absolute name becomes
    relative and no member leaves the target directory. *)
Definition arcname_parts (name : string) : list string :=
  filter (λ x, x ∉ [""; "."; ".."]) (split slash name).

(** [os.makedirs] below the location [base]: every missing directory on the
    way down the names. *)
Fixpoint makedirs_from (base names : list string) : M (gmap (list string) node) unit :=
  match names with
  | [] => mret ()
  | c :: names' =>
      fs ← gets id;
      match stat fs (base ++ [c]) with
      | None => mkdir_at (base ++ [c])
      | Some Dir => mret ()
      | Some (File _) => raise FileExistsError
      end;;
      makedirs_from (base ++ [c]) names'
  end.

Definition makedirs_at (l : list string) : M (gmap (list string) node) unit :=
  makedirs_from [] l.

(** [ZipFile._extract_member(member, targetpath)], the target directory
    being at [root]. *)
Definition extract_member (root : list string) (m : member)
    : M (gmap (list string) node) unit :=
  let target := root ++ arcname_parts (filename m) in
  let upperdirs := removelast target in
  fs ← gets id;
  (if bool_decide (stat fs upperdirs = None) then makedirs_at upperdirs
   else mret ());;
  if is_dir m then
    fs ← gets id;
    if bool_decide (stat fs target = Some Dir) then mret () else mkdir_at target
  else write_at target (content m).

(** [for zipinfo in members: self._extract_member(zipinfo, path)] *)
Fixpoint extract_members (root : list string) (members : list member)
    : M (gmap (list string) node) unit :=
  match members with
  | [] => mret ()
  | m :: members' => extract_member root m;; extract_members root members'
  end.

(** [ZipFile.extractall(path)] *)
Definition extractall (members : list member) (path : string)
    : M (gmap (list string) node) unit := λ fs,
  match namei fs path with
  | Some root => extract_members root members fs
  | None => Raises (lookup_error fs path) fs
  end.

(** The member [zf.write] adds for the entry at [root ++ rel]. *)
Definition member_of (rel : list string) (n : node) : member :=
  match n with
  | Dir => Member (PyStr.join "/" rel +:+ "/") ""
  | File data => Member (PyStr.join "/" rel) data
  end.

(** [shutil.make_archive(base, 'zip', root_dir)]: one member per directory
    and per file below [root_dir], named relative to it. *)
Definition archive_members (fs : gmap (list string) node) (root : list string)
    : list member :=
  omap (λ kn : list string * node,
          if bool_decide (root `prefix_of` kn.1) && negb (bool_decide (kn.1 = root))
          then Some (member_of (drop (length root) kn.1) kn.2)
          else None)
       (map_to_list fs).

Definition make_archive (fs : gmap (list string) node) (root_dir : string)
    : option (list member) :=
  root ← namei fs root_dir;
  if bool_decide (stat fs root = Some Dir) then Some (archive_members fs root)
  else None.

End Zip.

(** ** [class ShellEmulator] *)

Module Shell.
Import PyStr HostFs.

(** An entry of the session log. *)
Record LogEntry : Set := {
  timestamp : string;
  user : string;
  action : string
}.

(** The fields of the object, then the world it acts on. *)
Record State : Type := {
  username : string;
  hostname : string;
  vfs_path : string;
  log_path : string;
  startup_script : string;
  vfs_path_extracted : option string;   (* [None] is Python's [None] *)
  files : list string;
  current_path : string;
  log : list LogEntry;
  host : gmap (list string) node;       (* the host, but for the next two files *)
  archive : option (list Zip.member);   (* the file at [vfs_path], when a zip *)
  log_file : list LogEntry;             (* the JSON array at [log_path] *)
  stdout : list string                  (* the lines printed so far *)
}.

Definition set_vfs_path_extracted (v : option string) (st : State) : State :=
  {| username := username st; hostname := hostname st; vfs_path := vfs_path st;
     log_path := log_path st; startup_script := startup_script st;
     vfs_path_extracted := v; files := files st;
     current_path := current_path st; log := log st; host := host st;
     archive := archive st; log_file := log_file st; stdout := stdout st |}.

Definition set_files (v : list string) (st : State) : State :=
  {| username := username st; hostname := hostname st; vfs_path := vfs_path st;
     log_path := log_path st; startup_script := startup_script st;
     vfs_path_extracted := vfs_path_extracted st; files := v;
     current_path := current_path st; log := log st; host := host st;
     archive := archive st; log_file := log_file st; stdout := stdout st |}.

Definition set_current_path (v : string) (st : State) : State :=
  {| username := username st; hostname := hostname st; vfs_path := vfs_path st;
     log_path := log_path st; startup_script := startup_script st;
     vfs_path_extracted := vfs_path_extracted st; files := files st;
     current_path := v; log := log st; host := host st;
     archive := archive st; log_file := log_file st; stdout := stdout st |}.

Definition set_log (v : list LogEntry) (st : State) : State :=
  {| username := username st; hostname := hostname st; vfs_path := vfs_path st;
     log_path := log_path st; startup_script := startup_script st;
     vfs_path_extracted := vfs_path_extracted st; files := files st;
     current_path := current_path st; log := v; host := host st;
     archive := archive st; log_file := log_file st; stdout := stdout st |}.

Definition set_host (v : gmap (list string) node) (st : State) : State :=
  {| username := username st; hostname := hostname st; vfs_path := vfs_path st;
     log_path := log_path st; startup_script := startup_script st;
     vfs_path_extracted := vfs_path_extracted st; files := files st;
     current_path := current_path st; log := log st; host := v;
     archive := archive st; log_file := log_file st; stdout := stdout st |}.

Definition set_archive (v : option (list Zip.member)) (st : State) : State :=
  {| username := username st; hostname := hostname st; vfs_path := vfs_path st;
     log_path := log_path st; startup_script := startup_script st;
     vfs_path_extracted := vfs_path_extracted st; files := files st;
     current_path := current_path st; log := log st; host := host st;
     archive := v; log_file := log_file st; stdout := stdout st |}.

Definition set_log_file (v : list LogEntry) (st : State) : State :=
  {| username := username st; hostname := hostname st; vfs_path := vfs_path st;
     log_path := log_path st; startup_script := startup_script st;
     vfs_path_extracted := vfs_path_extracted st; files := files st;
     current_path := current_path st; log := log st; host := host st;
     archive := archive st; log_file := v; stdout := stdout st |}.

Definition set_stdout (v : list string) (st : State) : State :=
  {| username := username st; hostname := hostname st; vfs_path := vfs_path st;
     log_path := log_path st; startup_script := startup_script st;
     vfs_path_extracted := vfs_path_extracted st; files := files st;
     current_path := current_path st; log := log st; host := host st;
     archive := archive st; log_file := log_file st; stdout := v |}.

(** [print(x)] *)
Definition print (x : string) : M State unit :=
  modify (λ st, set_stdout (stdout st ++ [x]) st).

(** A computation on the host file system, run inside the session. *)
Definition on_host {A} (m : M (gmap (list string) node) A) : M State A := λ st,
  match m (host st) with
  | Returns a fs => Returns a (set_host fs st)
  | Raises e fs => Raises e (set_host fs st)
  | Exits c fs => Exits c (set_host fs st)
  end.

(** [for x in l: body x] *)
Fixpoint for_ {A} (l : list A) (body : A → M State unit) : M State unit :=
  match l with
  | [] => mret ()
  | x :: l' => body x;; for_ l' body
  end.

(** [str(e)] for an [OSError] raised on the file [filename], which it
    shows as [repr(filename)], and for a [UnicodeDecodeError]. *)
Definition str_exn (e : exn) (filename : string) : string :=
  match e with
  | IsADirectoryError => "[Errno 21] Is a directory: " +:+ repr filename
  | FileNotFoundError => "[Errno 2] No such file or directory: " +:+ repr filename
  | NotADirectoryError => "[Errno 20] Not a directory: " +:+ repr filename
  | FileExistsError => "[Errno 17] File exists: " +:+ repr filename
  | UnicodeDecodeError object start stop reason =>
      if bool_decide (stop = S start) then
        "'utf-8' codec can't decode byte 0x"
        +:+ hex2 (nat_of_ascii (default "000"%char (String.get start object)))
        +:+ " in position " +:+ str_nat start +:+ ": " +:+ reason
      else
        "'utf-8' codec can't decode bytes in position " +:+ str_nat start
        +:+ "-" +:+ str_nat (stop - 1) +:+ ": " +:+ reason
  | _ => ""
  end.

(** [read_vfs] *)
Definition read_vfs : M State unit :=
  modify (set_files []);;
  st ← gets id;
  match vfs_path_extracted st with
  | None => raise TypeError
  | Some base =>
      for_ (walk (host st) base) (λ '(root, dirs, fls),
        for_ dirs (λ dir,
          let full_dir_path := PosixPath.join root dir in
          let relative_path := relpath full_dir_path base in
          modify (λ st, set_files
            (files st ++ ["/" +:+ replace slash slash relative_path +:+ "/"]) st));;
        for_ fls (λ file,
          let full_path := PosixPath.join root file in
          let relative_path := relpath full_path base in
          modify (λ st, set_files
            (files st ++ ["/" +:+ replace slash slash relative_path]) st)))
  end.

(** [load_vfs]; [tmp] is the directory [tempfile.mkdtemp()] makes. *)
Definition load_vfs (tmp : string) : M State unit :=
  st ← gets id;
  match archive st with
  | None => print "Invalid VFS archive.";; sys_exit 1
  | Some members =>
      on_host (mkdir tmp);;
      on_host (Zip.extractall members tmp);;
      modify (set_vfs_path_extracted (Some tmp));;
      read_vfs
  end.

(** [log_action(action)]; [now] is [datetime.now().isoformat()]. *)
Definition log_action (now action : string) : M State unit :=
  st ← gets id;
  let entry := {| timestamp := now; user := username st; action := action |} in
  modify (set_log (log st ++ [entry]));;
  st ← gets id;
  modify (set_log_file (log st)).

(** [normalize_path(path)] *)
Definition normalize_path (st : State) (path : string) : string :=
  let path :=
    if negb (startswith path "/") then PosixPath.join (current_path st) path
    else path in
  replace backslash slash (PosixPath.normpath path).

(** [get_full_path(path)]; joining onto [None] is a [TypeError]. *)
Definition get_full_path (path : string) : M State string :=
  st ← gets id;
  match vfs_path_extracted st with
  | None => raise TypeError
  | Some root =>
      if startswith path "/" then mret (PosixPath.join root (lstrip "/" path))
      else mret (PosixPath.join3 root (lstrip "/" (current_path st)) path)
  end.

(** The body of the loop of [list_dir] over [self.files]. *)
Definition list_dir_add (normalized_path f : string) (contents : gset string)
    : gset string :=
  if startswith f normalized_path then
    let sub_path := strip "/" (slice_from (String.length normalized_path) f) in
    if has_char slash sub_path then
      {[ hd "" (split slash sub_path) +:+ "/" ]} ∪ contents
    else if negb (bool_decide (sub_path = "")) then
      if endswith f "/" then {[ sub_path +:+ "/" ]} ∪ contents
      else {[ sub_path ]} ∪ contents
    else contents
  else contents.

(** [sorted(contents)]: strings compare by code points. *)
Definition sorted (contents : gset string) : list string :=
  merge_sort String.le (elements contents).

(** [list_dir(args)] *)
Definition list_dir (args : list string) : M State unit :=
  st ← gets id;
  let path := match args with [] => current_path st | a :: _ => a end in
  let normalized_path := normalize_path st path in
  let normalized_path :=
    if negb (endswith normalized_path "/") then normalized_path +:+ "/"
    else normalized_path in
  let contents :=
    foldl (λ contents f, list_dir_add normalized_path f contents) ∅ (files st) in
  for_ (sorted contents) print.

(** [change_dir(args)] *)
Definition change_dir (args : list string) : M State unit :=
  match args with
  | [] => mret ()
  | new_path :: _ =>
      st ← gets id;
      if bool_decide (new_path = "..") then
        if negb (bool_decide (current_path st = "/")) then
          modify (set_current_path
            (or_else (PosixPath.dirname (rstrip "/" (current_path st))) "/"))
        else mret ()
      else
        let potential_path := normalize_path st new_path in
        let potential_path :=
          if negb (endswith potential_path "/") then potential_path +:+ "/"
          else potential_path in
        if existsb (λ f, bool_decide (f = potential_path) || startswith f potential_path)
                   (files st)
        then
          modify (set_current_path (rstrip "/" potential_path));;
          st ← gets id;
          if bool_decide (current_path st = "") then modify (set_current_path "/")
          else mret ()
        else print ("cd: no such file or directory: " +:+ new_path)
  end.

(** [copy_file(args)] *)
Definition copy_file (args : list string) : M State unit :=
  match args with
  | [src; dest] =>
      st ← gets id;
      let src := normalize_path st src in
      let dest := normalize_path st dest in
      full_src_path ← get_full_path src;
      full_dest_path ← get_full_path dest;
      st ← gets id;
      if negb (exists_ (host st) full_src_path) then
        print ("cp: cannot stat '" +:+ src +:+ "': No such file or directory")
      else if isdir (host st) full_src_path then
        print ("cp: omitting directory '" +:+ src +:+ "'")
      else
        on_host (makedirs true (PosixPath.dirname full_dest_path));;
        on_host (copyfile full_src_path full_dest_path);;
        read_vfs
  | _ => print "cp: requires source and destination."
  end.

(** [f.readline()] on the text that is left, in text mode: a line ends at
    [\n], [\r\n] or [\r], each read as [\n].  Returns the line and the
    rest. *)
Fixpoint readline (text : string) : string * string :=
  match text with
  | EmptyString => (EmptyString, EmptyString)
  | String c text' =>
      if bool_decide (c = LF) then (String LF EmptyString, text')
      else if bool_decide (c = CR) then
        (String LF EmptyString,
         match text' with
         | String c' text'' => if bool_decide (c' = LF) then text'' else text'
         | EmptyString => text'
         end)
      else let '(line, rest) := readline text' in (String c line, rest)
  end.

(** [for _ in range(n): line = f.readline(); if not line: break;
    print(line.rstrip())] *)
Fixpoint head_loop (n : nat) (text : string) : M State unit :=
  match n with
  | 0 => mret ()
  | S n' =>
      let '(line, rest) := readline text in
      if bool_decide (line = "") then mret ()
      else print (rstrip_ws line);; head_loop n' rest
  end.

(** [head_file(args)] *)
Definition head_file (args : list string) : M State unit :=
  match args with
  | [] => print "head: missing file operand."
  | arg0 :: _ =>
      st ← gets id;
      let file := normalize_path st arg0 in
      full_file_path ← get_full_path file;
      st ← gets id;
      if negb (exists_ (host st) full_file_path) then
        print ("head: cannot open '" +:+ arg0 +:+ "': No such file or directory")
      else
        try_except
          (text ← on_host (open_text full_file_path); head_loop 10 text)
          (λ e, print ("head: error reading '" +:+ arg0 +:+ "': "
                       +:+ str_exn e full_file_path))
  end.

(** [clear_screen()]: the terminal is not part of the state. *)
Definition clear_screen : M State unit := mret ().

(** [cleanup()]; [os.path.exists(None)] is a [TypeError]. *)
Definition cleanup : M State unit :=
  st ← gets id;
  match vfs_path_extracted st with
  | None => raise TypeError
  | Some dir =>
      if exists_ (host st) dir then
        match Zip.make_archive (host st) dir with
        | Some members => modify (set_archive (Some members))
        | None => raise NotADirectoryError
        end;;
        on_host (rmtree dir);;
        modify (set_vfs_path_extracted None)
      else mret ()
  end.

(** [execute_command(command_line)]; [now] is the reading of the clock by
    the one call of [log_action] that a call makes. *)
Definition execute_command (now command_line : string) : M State unit :=
  if bool_decide (strip_ws command_line = "") then mret ()
  else
    match split_ws (strip_ws command_line) with
    | [] => raise IndexError
    | cmd :: args =>
        (if bool_decide (cmd = "ls") then list_dir args
         else if bool_decide (cmd = "cd") then change_dir args
         else if bool_decide (cmd = "exit") then
           log_action now "exit";; cleanup;; sys_exit 0
         else if bool_decide (cmd = "cp") then copy_file args
         else if bool_decide (cmd = "head") then head_file args
         else if bool_decide (cmd = "clear") then clear_screen
         else print (cmd +:+ ": command not found"));;
        log_action now command_line
    end.



(** One command of a script or of the prompt.  [clock n] is what
    [datetime.now().isoformat()] gives at the reading that comes when the
    log has [n] entries: a command reads the clock once, for the entry it
    appends. *)
Definition execute_command_at (clock : nat → string) (command_line : string)
    : M State unit :=
  st ← gets id;
  execute_command (clock (length (log st))) command_line.

(** [run_startup_script()] *)
Definition run_startup_script (clock : nat → string) : M State unit :=
  st ← gets id;
  match vfs_path_extracted st with
  | None => raise TypeError
  | Some root =>
      let script_full_path := PosixPath.join root (startup_script st) in
      if isfile (host st) script_full_path then
        text ← on_host (read_text script_full_path);
        let commands := splitlines text in
        for_ commands (execute_command_at clock)
      else mret ()
  end.


(** [prompt()] *)
Definition prompt (st : State) : string :=
  username st +:+ "@" +:+ hostname st +:+ ":" +:+ current_path st +:+ "$ ".

(** [tearDown()]: no method gives the object an attribute [emulator], so
    [hasattr(self, 'emulator')] is [False]. *)
Definition tearDown : M State unit := mret ().

(** [run()].  [input(self.prompt())] shows the prompt on the terminal and
    gives the lines of [typed], one per call; then the input is at its end
    and [input] raises [EOFError] (or the user interrupts at the prompt:
    [KeyboardInterrupt] has the same handler). *)
Definition run (clock : nat → string) (typed : list string) : M State unit :=
  for_ typed (execute_command_at clock);;
  print (String LF "Exiting shell.");;
  st ← gets id;
  log_action (clock (length (log st))) "exit";;
  cleanup;;
  sys_exit 0.

End Shell.

(** ** [class TestShellEmulator]: the fixtures *)

Module Tests.
Import PyStr HostFs Shell.



(** [tearDown()], once [setUp] has made [self.emulator]: [cleanup] runs
    when [vfs_path_extracted] is neither [None] nor empty. *)
Definition tearDown : M State unit :=
  st ← gets id;
  match vfs_path_extracted st with
  | Some dir => if bool_decide (dir = "") then mret () else cleanup
  | None => mret ()
  end.

End Tests.

(** ** A sample session

    The archive of the test suite: [file1.txt] with twelve lines, the
    directories [home/] and [home/user/], and [startup.sh]; the host also
    has [/etc/passwd], outside the working area [/tmp/vfs]. *)

Module Sample.
Import PyStr HostFs Shell.

Definition nl : string := String LF "".

Definition file1 : string :=
  "Line 1" +:+ nl +:+ "Line 2" +:+ nl +:+ "Line 3" +:+ nl +:+ "Line 4" +:+ nl
  +:+ "Line 5" +:+ nl +:+ "Line 6" +:+ nl +:+ "Line 7" +:+ nl +:+ "Line 8" +:+ nl
  +:+ "Line 9" +:+ nl +:+ "Line 10" +:+ nl +:+ "Line 11" +:+ nl +:+ "Line 12" +:+ nl.

Definition host0 : gmap (list string) node :=
  <[ ["tmp"] := Dir ]>
    (<[ ["etc"] := Dir ]> (<[ ["etc"; "passwd"] := File ("root:x:0:0" +:+ nl) ]> ∅)).

Definition archive0 : list Zip.member :=
  [ Zip.Member "file1.txt" file1;
    Zip.Member "home/" "";
    Zip.Member "home/user/" "";
    Zip.Member "startup.sh" ("ls" +:+ nl) ].

Definition fresh : State :=
  {| username := "test_user"; hostname := "test_computer";
     vfs_path := "vfs_test.zip"; log_path := "log.json";
     startup_script := "startup.sh";
     vfs_path_extracted := None; files := []; current_path := "/"; log := [];
     host := host0; archive := Some archive0; log_file := []; stdout := [] |}.

(** The session once [load_vfs] has run. *)
Definition session : State :=
  Eval vm_compute in final (load_vfs "/tmp/vfs" fresh).

(** The session once [cleanup] has run. *)
Definition closed : State := Eval vm_compute in final (cleanup session).

End Sample.

(** ** Notions the properties are stated with *)

Section notions.
Import PyStr HostFs Zip Shell.

(** [VfsIndex.Exists]: the path is an entry of the index or a directory
    prefix of one. *)
Definition index_exists (index : list string) (path : string) : Prop :=
  ∃ f, f ∈ index ∧ (f = path ∨ ∃ rest, f = path +:+ rest).

(** The path [cd] looks up: the normalized argument, ending in [/]. *)
Definition cd_target (st : State) (new_path : string) : string :=
  let n := normalize_path st new_path in
  if endswith n "/" then n else n +:+ "/".

(** The computation called [sys.exit]. *)
Definition exits {S A} (o : outcome S A) : bool :=
  match o with
  | Exits _ _ => true
  | _ => false
  end.

(** [sys.exit] is never called by [m]. *)
Definition no_exit {S A} (m : M S A) : Prop := ∀ s, exits (m s) = false.

(** A run of [m] returns or raises, and takes a state to one related to it
    by [R]. *)
Definition respects (R : relation State) {A} (m : M State A) : Prop :=
  ∀ st, R st (final (m st)) ∧ exits (m st) = false.

(** The log, its file and the user name are as before. *)
Definition same_log : relation State := λ s s',
  log s' = log s ∧ log_file s' = log_file s ∧ username s' = username s.

(** [s] has nothing but white space. *)
Fixpoint whitespace_only (s : string) : bool :=
  match s with
  | EmptyString => true
  | String c s' => is_space c && whitespace_only s'
  end.

(** The entry [log_action] makes. *)
Definition entry (now : string) (st : State) (act : string) : LogEntry :=
  {| timestamp := now; user := username st; action := act |}.

(** C2, as it is stated: the run adds one entry, whose action is the
    line. *)
Definition logs_verbatim (now line : string) (st : State) : Prop :=
  ∃ e, log (final (execute_command now line st)) = log st ++ [e]
       ∧ action e = line.

(** The lines of a text, as text mode delivers them: each ends with a
    newline, but for a last line that has no terminator. *)
Fixpoint file_lines (text : string) : list string :=
  match text with
  | EmptyString => []
  | String c text' =>
      if bool_decide (c = LF) then String LF "" :: file_lines text'
      else if bool_decide (c = CR) then
        match text' with
        | String c' text'' =>
            if bool_decide (c' = LF) then String LF "" :: file_lines text''
            else String LF "" :: file_lines text'
        | EmptyString => [String LF ""]
        end
      else match file_lines text' with
           | [] => [String c ""]
           | l :: ls => String c l :: ls
           end
  end.




(** The sample session with one more file, whose second line is a byte
    that is not UTF-8. *)
Definition with_binary : State :=
  set_host (<[ ["tmp"; "vfs"; "bad.bin"] :=
                 File ("ok" +:+ Sample.nl +:+ String "255" Sample.nl) ]>
              (host Sample.session)) Sample.session.

(** The sample session with a start-up script of one byte that is not
    UTF-8. *)
Definition with_binary_script : State :=
  set_host (<[ ["tmp"; "vfs"; "startup.sh"] := File (String "160" "") ]>
              (host Sample.session)) Sample.session.

(** The exception a computation raised. *)
Definition raised {S A} (o : outcome S A) : option exn :=
  match o with
  | Raises e _ => Some e
  | _ => None
  end.

(** [str(e)] of the error of a decoding that failed. *)
Definition error_text (r : exn + string) : string :=
  match r with
  | inl e => str_exn e ""
  | inr _ => ""
  end.

(** C10, as it is stated: whatever the source, [cp] onto a destination
    that is an existing directory raises out of [execute_command]; nothing
    is printed and the index is not rebuilt. *)
Definition cp_onto_directory_escapes (now src dest : string) (st : State) : Prop :=
  ∀ full_dest,
    get_full_path (normalize_path st dest) st = Returns full_dest st →
    os_stat (host st) full_dest = Some Dir →
    ∃ e st',
      execute_command now ("cp " +:+ src +:+ " " +:+ dest) st = Raises e st'
      ∧ stdout st' = stdout st ∧ files st' = files st.

(** The first segment of a relative path. *)
Fixpoint first_segment (s : string) : string :=
  match s with
  | EmptyString => EmptyString
  | String c s' => if bool_decide (c = slash) then EmptyString
                   else String c (first_segment s')
  end.

(** What [List] keeps of the indexed path [f] under the directory [p]:
    nothing for [p] itself and for paths outside [p]; the first segment
    and a slash when a slash remains after the prefix; else the rest. *)
Definition child_entry (p f : string) : option string :=
  if startswith f p then
    let rest := slice_from (String.length p) f in
    if bool_decide (rest = "") then None
    else if has_char slash rest then Some (first_segment rest +:+ "/")
    else Some rest
  else None.

(** Two slashes in a row: an empty segment. *)
Fixpoint double_slash (s : string) : bool :=
  match s with
  | String a ((String b _) as s') =>
      (bool_decide (a = slash) && bool_decide (b = slash)) || double_slash s'
  | _ => false
  end.

(** An immediate child: one name, with a slash after it when it is a
    directory. *)
Definition immediate (x : string) : Prop :=
  ∃ name, name ≠ "" ∧ has_char slash name = false
          ∧ (x = name ∨ x = name +:+ "/").

(** The directory [ls] lists: the normalized first argument, or the
    current directory, ending in [/]. *)
Definition ls_target (st : State) (args : list string) : string :=
  let n := normalize_path st (match args with [] => current_path st | a :: _ => a end) in
  if endswith n "/" then n else n +:+ "/".

(** What is below [root'] so far is as in [T] below [root], and [root'] and
    the places above it are directories. *)
Definition extracting (T : gmap (list string) node) (root root' : list string)
    (fs : gmap (list string) node) : Prop :=
  (∀ k, stat fs (take k root') = Some Dir)
  ∧ (∀ rel n, rel ≠ [] → fs !! (root' ++ rel) = Some n → T !! (root ++ rel) = Some n).

(** A place on the way down to an entry of the archive. *)
Definition on_the_way (T : gmap (list string) node) (root root' : list string)
    (l : list string) : Prop :=
  (∃ k, l = take k root')
  ∨ (∃ rel, rel ≠ [] ∧ l = root' ++ rel ∧ T !! (root ++ rel) = Some Dir).

(** The host and the working area are as before. *)
Definition same_host : relation State := λ s s',
  host s' = host s ∧ vfs_path_extracted s' = vfs_path_extracted s.

(** The argument of [head \..\..\etc\passwd]. *)
Definition crafted : string := "\..\..\etc\passwd".

(** The components [normpath] keeps of an absolute path. *)
Definition clean (comps : list string) : Prop :=
  Forall (λ c, (c ∉ [""; "."; ".."]) ∧ has_char slash c = false) comps.

(** The commands of a script, run from the sample session. *)
Definition after (commands : list string) : State :=
  final (for_ commands (execute_command "2024-01-01T00:00:00") Sample.session).

(** The first word of a command line; empty for a blank line. *)
Definition first_word (line : string) : string :=
  hd "" (split_ws (strip_ws line)).

(** The current directory is an absolute path without backslashes. *)
Definition absolute_cwd (st : State) : Prop :=
  startswith (current_path st) "/" = true
  ∧ has_char backslash (current_path st) = false.

(** The host, the archive, the index and the working area are as
    before. *)
Definition same_area : relation State := λ s s',
  host s' = host s ∧ archive s' = archive s ∧ files s' = files s
  ∧ vfs_path_extracted s' = vfs_path_extracted s.

(** Every run of [m] from a state in [I] ends in a state in [I], however
    it ends. *)
Definition preserves (I : State → Prop) {A} (m : M State A) : Prop :=
  ∀ st, I st → I (final (m st)).

(** The actions of the entries of a log. *)
Definition actions (l : list LogEntry) : list string := action <$> l.

(** The line [run] prints when the input ends. *)
Definition farewell : string := String LF "Exiting shell.".

(** A clock for the examples: the reading with [n] entries in the log. *)
Definition sample_clock (n : nat) : string :=
  "2024-01-01T00:00:0" +:+ String (ascii_of_nat (48 + n `mod` 10)) "".

(** The outcome [o], with [f] applied to the state it ends in. *)
Definition map_final {A} (f : State → State) (o : outcome State A) : outcome State A :=
  match o with
  | Returns a s => Returns a (f s)
  | Raises e s => Raises e (f s)
  | Exits c s => Exits c (f s)
  end.


(** The path the index has for the entry at [rel] below the working
    area: [/], the names joined by [/], and one more [/] for a
    directory. *)
Definition index_entry (rel : list string) (n : node) : string :=
  match n with
  | Dir => "/" +:+ PyStr.join "/" rel +:+ "/"
  | File _ => "/" +:+ PyStr.join "/" rel
  end.

(** The paths [read_vfs] collects from one triple of [os.walk]: of the
    directories, then of the files. *)
Definition triple_entries (base : string) (t : string * list string * list string)
    : list string :=
  let '(root, dirs, fls) := t in
  ((λ dir, "/" +:+ replace slash slash (relpath (PosixPath.join root dir) base) +:+ "/")
     <$> dirs)
  ++ ((λ file, "/" +:+ replace slash slash (relpath (PosixPath.join root file) base))
        <$> fls).

(** The paths [read_vfs] collects. *)
Definition index_list (fs : gmap (list string) node) (base : string) : list string :=
  walk fs base ≫= triple_entries base.

(** What [cd] takes for a directory at the names [comps] below the working
    area at [d]: a directory of the host there; for the working area
    itself (no names), that it holds something. *)
Definition listed_directory (fs : gmap (list string) node) (d comps : list string)
    : Prop :=
  match comps with
  | [] => ∃ rel n, rel ≠ [] ∧ fs !! (d ++ rel) = Some n
  | _ => fs !! (d ++ comps) = Some Dir
  end.


(** The path of the directory at the names [comps] with a [/] at its end,
    as [ls] and [cd] compare it with the paths of the index. *)
Definition dir_path (comps : list string) : string :=
  match comps with
  | [] => "/"
  | _ => "/" +:+ PyStr.join "/" comps +:+ "/"
  end.

(** The line [ls] prints for the entry named [c]. *)
Definition listed_name (c : string) (n : node) : string :=
  match n with
  | Dir => c +:+ "/"
  | File _ => c
  end.



(** What [exit] does, and what [run] does at the end of the input after
    its farewell line. *)
Definition leave (now : string) : M State unit :=
  log_action now "exit";; cleanup;; sys_exit 0.


(** The sample session after a copy. *)
Definition copied : State :=
  Eval vm_compute in
    final (execute_command "2024-01-01T00:00:00" "cp /file1.txt /home/user/copy.txt"
             Sample.session).


End notions.

(** * Properties *)

(** ** The model against the library and the test suite *)

Section library_checks.
Import PyStr PosixPath.

Example normpath_cases :
  normpath "//a/../..//b/./c/" = "//b/c" ∧ normpath "///a" = "/a"
  ∧ normpath "" = "." ∧ normpath "//" = "//" ∧ normpath "/../x" = "/x"
  ∧ normpath "a/../../b" = "../b" ∧ normpath "/\..\..\etc" = "/\..\..\etc".
Proof. repeat split; reflexivity. Qed.

Example join_cases :
  join "/" "a" = "/a" ∧ join "/a" "b" = "/a/b" ∧ join "/a/" "" = "/a/"
  ∧ join "/tmp/x" "" = "/tmp/x/" ∧ join "" "a" = "a" ∧ join "/a" "/b" = "/b".
Proof. repeat split; reflexivity. Qed.

Example dirname_cases :
  dirname "//a" = "//" ∧ dirname "/a/b" = "/a" ∧ dirname "/a" = "/"
  ∧ dirname "" = "" ∧ dirname "/a/b/" = "/a/b" ∧ dirname "a" = "".
Proof. repeat split; reflexivity. Qed.

Example strip_and_split_cases :
  rstrip_ws ("a " +:+ String "009" (String "031" (String LF ""))) = "a"
  ∧ split_ws "  cp  /a   b " = ["cp"; "/a"; "b"]
  ∧ strip "/" "//a/b//" = "a/b"
  ∧ PyStr.split slash "/a//b/" = [""; "a"; ""; "b"; ""]
  ∧ lstrip "/" "//../x" = "../x".
Proof. repeat split; reflexivity. Qed.

Example relpath_cases :
  HostFs.relpath "/tmp/vfs/home/user" "/tmp/vfs" = "home/user"
  ∧ HostFs.relpath "/tmp/vfs" "/tmp/vfs" = "."
  ∧ HostFs.relpath "/etc" "/tmp/vfs" = "../../etc".
Proof. repeat split; reflexivity. Qed.

Example splitlines_cases :
  splitlines "" = [] ∧ splitlines (String LF "") = [""]
  ∧ splitlines ("a" +:+ String LF (String LF "b")) = ["a"; ""; "b"]
  ∧ splitlines ("a" +:+ String CR (String LF "b")) = ["a"; "b"]
  ∧ splitlines ("a" +:+ String LF (String CR "")) = ["a"; ""]
  ∧ splitlines ("a" +:+ String "012" ("b" +:+ String LF "")) = ["a"; "b"]
  ∧ HostFs.universal_newlines
      ("a" +:+ String CR (String LF ("b" +:+ String CR ("c" +:+ String LF ""))))
    = "a" +:+ String LF ("b" +:+ String LF ("c" +:+ String LF ""))
  ∧ HostFs.universal_newlines (String CR (String CR (String LF "")))
    = String LF (String LF "").
Proof. by vm_compute. Qed.

Example repr_cases :
  repr ("/tmp/vfs/home") = "'/tmp/vfs/home'"
  ∧  repr ("a'b") = String "034" "a'b" +:+ (String "034" "")
  ∧  repr ("a" +:+ (String "034" "b")) = "'a" +:+ (String "034" "b'")
  ∧  repr ("a'" +:+ (String "034" "b")) = "'a\'" +:+ (String "034" "b'")
  ∧  repr ("a\b") = "'a\\b'"
  ∧  repr ("a" +:+ (String "010" "b" +:+ (String "009" (String "013" "")))) = "'a\nb\t\r'"
  ∧  repr (String "000" (String "031" (String "127" (String "128" (String "160" (String "173" (String "255" (String "233" "")))))))) = "'\x00\x1f\x7f\x80\xa0\xad" +:+ (String "255" (String "233" "'"))
  ∧  repr ("") = "''".
Proof. by vm_compute. Qed.

Example utf8_decode_errors :
  error_text (HostFs.utf8_decode ("ok" +:+ (String "010" (String "255" (String "010" "")))))
    = "'utf-8' codec can't decode byte 0xff in position 3: invalid start byte"
  ∧  error_text (HostFs.utf8_decode (String "160" ""))
    = "'utf-8' codec can't decode byte 0xa0 in position 0: invalid start byte"
  ∧  error_text (HostFs.utf8_decode (String "195" ""))
    = "'utf-8' codec can't decode byte 0xc3 in position 0: unexpected end of data"
  ∧  error_text (HostFs.utf8_decode (String "195" "("))
    = "'utf-8' codec can't decode byte 0xc3 in position 0: invalid continuation byte"
  ∧  error_text (HostFs.utf8_decode (String "226" (String "130" "")))
    = "'utf-8' codec can't decode bytes in position 0-1: unexpected end of data"
  ∧  error_text (HostFs.utf8_decode (String "226" (String "130" "(")))
    = "'utf-8' codec can't decode bytes in position 0-1: invalid continuation byte"
  ∧  error_text (HostFs.utf8_decode (String "226" "(" +:+ (String "161" "")))
    = "'utf-8' codec can't decode byte 0xe2 in position 0: invalid continuation byte"
  ∧  error_text (HostFs.utf8_decode (String "224" (String "128" (String "128" ""))))
    = "'utf-8' codec can't decode byte 0xe0 in position 0: invalid continuation byte"
  ∧  error_text (HostFs.utf8_decode (String "237" (String "160" (String "128" ""))))
    = "'utf-8' codec can't decode byte 0xed in position 0: invalid continuation byte"
  ∧  error_text (HostFs.utf8_decode (String "240" (String "144" "")))
    = "'utf-8' codec can't decode bytes in position 0-1: unexpected end of data"
  ∧  error_text (HostFs.utf8_decode (String "240" (String "128" (String "128" (String "128" "")))))
    = "'utf-8' codec can't decode byte 0xf0 in position 0: invalid continuation byte"
  ∧  error_text (HostFs.utf8_decode (String "244" (String "144" (String "128" (String "128" "")))))
    = "'utf-8' codec can't decode byte 0xf4 in position 0: invalid continuation byte"
  ∧  error_text (HostFs.utf8_decode (String "245" ""))
    = "'utf-8' codec can't decode byte 0xf5 in position 0: invalid start byte"
  ∧  error_text (HostFs.utf8_decode (String "192" (String "128" "")))
    = "'utf-8' codec can't decode byte 0xc0 in position 0: invalid start byte"
  ∧  error_text (HostFs.utf8_decode (String "240" (String "159" (String "152" ""))))
    = "'utf-8' codec can't decode bytes in position 0-2: unexpected end of data"
  ∧  error_text (HostFs.utf8_decode (String "240" (String "159" (String "152" "("))))
    = "'utf-8' codec can't decode bytes in position 0-2: invalid continuation byte"
  ∧  error_text (HostFs.utf8_decode ("aaaaaaaaaaaa" +:+ (String "226" (String "130" "("))))
    = "'utf-8' codec can't decode bytes in position 12-13: invalid continuation byte"
  ∧  error_text (HostFs.utf8_decode ("aaaaaaaaaaaaaaaaaaaaaaaaaaaaaaaaaaaaaaaaaaaaaaaaaaaaaaaaaaaaaaaaaaaaaaaaaaaaaaaaaaaaaaaaaaaaaaaaaaaa" +:+ (String "195" (String "169" (String "128" "")))))
    = "'utf-8' codec can't decode byte 0x80 in position 102: invalid start byte".
Proof. by vm_compute. Qed.

Example utf8_decode_text :
  HostFs.utf8_decode ("") = inr ("")
  ∧  HostFs.utf8_decode ("abc" +:+ (String "013" (String "010" ""))) = inr ("abc" +:+ (String "013" (String "010" "")))
  ∧  HostFs.utf8_decode ("caf" +:+ (String "195" (String "169" (String "010" "")))) = inr ("caf" +:+ (String "233" (String "010" "")))
  ∧  HostFs.utf8_decode (String "194" (String "128" (String "194" (String "160" (String "195" (String "191" (String "127" ""))))))) = inr (String "128" (String "160" (String "255" (String "127" "")))).
Proof. by vm_compute. Qed.

Example str_exn_cases :
  Shell.str_exn IsADirectoryError "/tmp/vfs/home"
  = "[Errno 21] Is a directory: '/tmp/vfs/home'"
  ∧ Shell.str_exn IsADirectoryError "/tmp/a'b"
    = "[Errno 21] Is a directory: " +:+ String "034" ("/tmp/a'b" +:+ String "034" "")
  ∧ Shell.str_exn NotADirectoryError "/tmp/a\b" = "[Errno 20] Not a directory: '/tmp/a\\b'".
Proof. by vm_compute. Qed.

Example lookup_error_cases :
  raised (HostFs.open_read "/etc/passwd/x" Sample.host0) = Some NotADirectoryError
  ∧ raised (HostFs.open_read "/etc/none/x" Sample.host0) = Some FileNotFoundError
  ∧ raised (HostFs.open_read "/etc/none" Sample.host0) = Some FileNotFoundError
  ∧ raised (HostFs.makedirs true "/etc/passwd/x" Sample.host0)
    = Some NotADirectoryError
  ∧ raised (HostFs.open_write "/etc/passwd/x" "data" Sample.host0)
    = Some NotADirectoryError.
Proof. split_and!; vm_compute; reflexivity. Qed.

End library_checks.

Section test_suite.
Import PyStr HostFs Shell.

(** [test_ls_command_root] *)
Example test_ls_command_root :
  stdout (after ["ls"]) = ["file1.txt"; "home/"; "startup.sh"].
Proof. vm_compute. reflexivity. Qed.

(** [test_cd_command_success] *)
Example test_cd_command_success : current_path (after ["cd home/user"]) = "/home/user".
Proof. vm_compute. reflexivity. Qed.

(** [test_cd_command_failure] *)
Example test_cd_command_failure :
  current_path (after ["cd /nonexistent"]) = "/"
  ∧ stdout (after ["cd /nonexistent"]) = ["cd: no such file or directory: /nonexistent"].
Proof. split; vm_compute; reflexivity. Qed.

(** [test_cp_command_success] *)
Example test_cp_command_success :
  "/home/user/documents/file2.txt"
  ∈ files (after ["cp /file1.txt /home/user/documents/file2.txt"]).
Proof. vm_compute. set_solver. Qed.

(** [test_head_command_success] *)
Example test_head_command_success :
  stdout (after ["cp /file1.txt /home/user/documents/file2.txt";
                 "head /home/user/documents/file2.txt"])
  = ["Line 1"; "Line 2"; "Line 3"; "Line 4"; "Line 5";
     "Line 6"; "Line 7"; "Line 8"; "Line 9"; "Line 10"].
Proof. vm_compute. reflexivity. Qed.

(** [test_head_command_failure] *)
Example test_head_command_failure :
  stdout (after ["head /nofile.txt"])
  = ["head: cannot open '/nofile.txt': No such file or directory"].
Proof. vm_compute. reflexivity. Qed.

(** [test_exit_command_log] *)
Example test_exit_command_log :
  action <$> log_file (after ["ls"; "exit"]) = ["ls"; "exit"]
  ∧ vfs_path_extracted (after ["ls"; "exit"]) = None.
Proof. split; vm_compute; reflexivity. Qed.

End test_suite.

(** ** Strings *)

Section string_facts.
Import PyStr.

Lemma app_cons (c : ascii) (s t : string) : String c s +:+ t = String c (s +:+ t).
Proof. reflexivity. Qed.

Lemma app_empty_l (s : string) : "" +:+ s = s.
Proof. reflexivity. Qed.

Lemma app_empty_r (s : string) : s +:+ "" = s.
Proof. induction s as [|c s IH]; [done|]. by rewrite app_cons, IH. Qed.

Lemma app_assoc_str (s t u : string) : (s +:+ t) +:+ u = s +:+ t +:+ u.
Proof. induction s as [|c s IH]; [done|]. by rewrite !app_cons, IH. Qed.

Lemma app_eq_empty (s t : string) : s +:+ t = "" → s = "" ∧ t = "".
Proof. destruct s; [done|]. by rewrite app_cons. Qed.

Lemma contains_slash (c : ascii) : contains "/" c = bool_decide (c = slash).
Proof.
  unfold contains. rewrite orb_false_r.
  apply bool_decide_ext. unfold slash. split; congruence.
Qed.

Lemma startswith_empty (s : string) : startswith s "" = true.
Proof. by destruct s. Qed.

Lemma startswith_app (s t : string) : startswith (s +:+ t) s = true.
Proof.
  induction s as [|c s IH]; [by destruct t|].
  rewrite app_cons. simpl. by rewrite bool_decide_eq_true_2, IH.
Qed.

Lemma startswith_inv (s p : string) :
  startswith s p = true → s = p +:+ slice_from (String.length p) s.
Proof.
  revert s. induction p as [|a p IH]; intros [|b s] H; simpl in *; try done.
  apply andb_true_iff in H as [Hab Hs]. apply bool_decide_eq_true in Hab as ->.
  rewrite app_cons. f_equal. by apply IH.
Qed.

Lemma slice_from_app (s t : string) : slice_from (String.length s) (s +:+ t) = t.
Proof. induction s as [|c s IH]; [by destruct t|]. by rewrite app_cons. Qed.

(** [endswith] against a single character looks at the last one only. *)
Lemma endswith_cons (a c : ascii) (s : string) :
  s ≠ "" → endswith (String a s) (String c "") = endswith s (String c "").
Proof.
  intros Hs. simpl. destruct s; [done|].
  rewrite bool_decide_eq_false_2; [done|congruence].
Qed.

Lemma endswith_app_r (s t : string) (c : ascii) :
  t ≠ "" → endswith (s +:+ t) (String c "") = endswith t (String c "").
Proof.
  intros Ht. induction s as [|a s IH]; [done|].
  rewrite app_cons, endswith_cons; [done|].
  intros [_ ?]%app_eq_empty. done.
Qed.

Lemma endswith_snoc (s : string) (c d : ascii) :
  endswith (s +:+ String d "") (String c "") = bool_decide (d = c).
Proof.
  rewrite endswith_app_r by done. simpl. rewrite orb_false_r.
  apply bool_decide_ext. split; congruence.
Qed.

Lemma rstrip_with_app_r (p : ascii → bool) (s t : string) :
  rstrip_with p t ≠ "" → rstrip_with p (s +:+ t) = s +:+ rstrip_with p t.
Proof.
  intros Ht. induction s as [|a s IH]; [done|].
  rewrite !app_cons. simpl. rewrite IH.
  destruct (s +:+ rstrip_with p t) eqn:E; [|done].
  by apply app_eq_empty in E as [_ ?].
Qed.

Lemma rstrip_with_no_match (p : ascii → bool) (s : string) :
  (∀ c, contains s c = true → p c = false) → rstrip_with p s = s.
Proof.
  induction s as [|a s IH]; intros H; [done|]. simpl.
  rewrite IH.
  - destruct s; [|done]. rewrite H; [done|]. simpl. by rewrite bool_decide_eq_true_2.
  - intros c Hc. apply H. simpl. by rewrite Hc, orb_true_r.
Qed.

Lemma rstrip_slash_id (s : string) : endswith s "/" = false → rstrip "/" s = s.
Proof.
  unfold rstrip. induction s as [|a s IH]; intros H; [done|].
  destruct s as [|b s].
  - assert (a ≠ slash) by (intros ->; done).
    cbn. rewrite orb_false_r, bool_decide_eq_false_2; [done|].
    unfold slash in *. congruence.
  - rewrite endswith_cons in H by done.
    change (rstrip_with (contains "/") (String a (String b s)))
      with (match rstrip_with (contains "/") (String b s) with
            | "" => if contains "/" a then "" else String a ""
            | r => String a r
            end).
    by rewrite IH.
Qed.

Lemma rstrip_slash_snoc (s : string) :
  rstrip "/" (s +:+ "/") = rstrip "/" s.
Proof.
  unfold rstrip. induction s as [|a s IH]; [done|].
  rewrite app_cons. cbn [rstrip_with]. by rewrite IH.
Qed.

Lemma has_char_app (c : ascii) (s t : string) :
  has_char c (s +:+ t) = has_char c s || has_char c t.
Proof.
  unfold has_char. induction s as [|a s IH]; [done|].
  rewrite app_cons. simpl. by rewrite IH, orb_assoc.
Qed.

Lemma repeat_char_snoc (c : ascii) (n : nat) :
  repeat_char c (S n) = repeat_char c n +:+ String c "".
Proof. induction n as [|n IH]; [done|]. simpl in *. by rewrite app_cons, <- IH. Qed.

Lemma length_app_str (s t : string) :
  String.length (s +:+ t) = String.length s + String.length t.
Proof. induction s as [|a s IH]; [done|]. rewrite app_cons. simpl. by rewrite IH. Qed.

End string_facts.

(** ** Paths *)

Section path_facts.
Import PyStr PosixPath.

Lemma rsplit_slash_no_slash (s : string) :
  has_char slash s = false → rsplit_slash s = ("", s).
Proof.
  unfold has_char. induction s as [|a s IH]; intros H; [done|].
  simpl in H. apply orb_false_iff in H as [Ha Hs]. simpl.
  rewrite (IH Hs). apply bool_decide_eq_false in Ha.
  rewrite bool_decide_eq_false_2; [done|congruence].
Qed.

Lemma rsplit_slash_app (p name : string) :
  has_char slash name = false →
  rsplit_slash (p +:+ "/" +:+ name) = (p +:+ "/", name).
Proof.
  intros Hn. induction p as [|a p IH].
  - rewrite !app_empty_l. change ("/" +:+ name) with (String slash name). simpl.
    by rewrite (rsplit_slash_no_slash _ Hn).
  - rewrite (app_cons a p). cbn [rsplit_slash]. rewrite IH.
    case_bool_decide; [done|]. by destruct p.
Qed.

Lemma repeat_slash_snoc_inv (p : string) (n : nat) :
  p +:+ "/" = repeat_char slash n → p = repeat_char slash (pred n).
Proof.
  revert n. induction p as [|a p IH]; intros [|n] H; try done.
  - rewrite app_empty_l in H. destruct n; [done|]. inversion H.
  - rewrite app_cons in H. cbn [repeat_char] in H. injection H as -> H.
    destruct n as [|n]; [by destruct p|].
    apply IH in H. cbn [pred] in *. by rewrite H.
Qed.

Lemma all_slashes_snoc (p : string) :
  all_slashes (p +:+ "/") = true → p = "" ∨ endswith p "/" = true.
Proof.
  unfold all_slashes. intros H%bool_decide_eq_true%repeat_slash_snoc_inv.
  destruct (pred _) as [|n]; [by left|right].
  rewrite H, repeat_char_snoc, endswith_snoc. by apply bool_decide_eq_true_2.
Qed.

(** The parent of [parent/name]. *)
Lemma dirname_child (parent name : string) :
  name ≠ "" → has_char slash name = false → endswith parent "/" = false →
  or_else (dirname (rstrip "/" (parent +:+ "/" +:+ name))) "/" = or_else parent "/".
Proof.
  intros Hne Hn Hp.
  assert (Hname : rstrip "/" name = name).
  { apply rstrip_with_no_match. intros c Hc. rewrite contains_slash.
    apply bool_decide_eq_false. intros ->. unfold has_char in Hn. congruence. }
  assert (rstrip "/" (parent +:+ "/" +:+ name) = parent +:+ "/" +:+ name) as ->.
  { unfold rstrip in *. rewrite <- app_assoc_str, rstrip_with_app_r; rewrite Hname; done. }
  unfold dirname, split. rewrite (rsplit_slash_app _ _ Hn).
  destruct (all_slashes (parent +:+ "/")) eqn:Hall.
  - apply all_slashes_snoc in Hall as [->|?]; [|congruence].
    rewrite andb_false_r. done.
  - rewrite andb_true_r.
    assert (parent +:+ "/" ≠ "") by (intros [_ ?]%app_eq_empty; done).
    rewrite bool_decide_eq_false_2 by done. simpl.
    by rewrite rstrip_slash_snoc, rstrip_slash_id.
Qed.

End path_facts.

(** ** The commands *)

Section shell_facts.
Import PyStr HostFs Shell.

Lemma run_bind {S A B} (m : M S A) (k : A → M S B) (s : S) :
  (m ≫= k) s
  = match m s with
    | Returns a s' => k a s'
    | Raises e s' => Raises e s'
    | Exits c s' => Exits c s'
    end.
Proof. reflexivity. Qed.

Lemma index_exists_existsb (index : list string) (path : string) :
  index_exists index path ↔
  existsb (λ f, bool_decide (f = path) || startswith f path) index = true.
Proof.
  rewrite existsb_exists. unfold index_exists. split.
  - intros (f & Hf & H). exists f. split; [by apply list_elem_of_In|].
    destruct H as [->|[rest ->]]; [by rewrite bool_decide_eq_true_2|].
    by rewrite startswith_app, orb_true_r.
  - intros (f & Hf & H). exists f. split; [by apply list_elem_of_In|].
    apply orb_true_iff in H as [H%bool_decide_eq_true|H%startswith_inv]; eauto.
Qed.

Lemma normpath_nonempty (p : string) : PosixPath.normpath p ≠ "".
Proof.
  unfold PosixPath.normpath. case_bool_decide; [done|].
  unfold or_else. by destruct (_ +:+ _).
Qed.

Lemma or_else_nonempty (x y : string) : y ≠ "" → or_else x y ≠ "".
Proof. by destruct x. Qed.

Lemma replace_eq_empty (a b : ascii) (s : string) : replace a b s = "" → s = "".
Proof. by destruct s. Qed.

Lemma normalize_path_nonempty (st : State) (p : string) : normalize_path st p ≠ "".
Proof. unfold normalize_path. intros H%replace_eq_empty. by apply normpath_nonempty in H. Qed.

End shell_facts.

Section cd.
Import PyStr HostFs Shell.

(** C8. [cd] without an argument changes nothing; [cd ..] changes nothing
    when the current directory is [/]; from [parent/name] it moves to
    [parent] ([/] when [parent] is empty); from [/a/b] it yields [/a]. *)
Theorem cd_parent (st : State) (parent name : string)
    (Hname : name ≠ "" ∧ has_char slash name = false)
    (Hparent : endswith parent "/" = false) :
  change_dir [] st = Returns () st
  ∧ change_dir [".."] (set_current_path "/" st)
    = Returns () (set_current_path "/" st)
  ∧ change_dir [".."] (set_current_path (parent +:+ "/" +:+ name) st)
    = Returns () (set_current_path (or_else parent "/") st)
  ∧ change_dir [".."] (set_current_path "/a/b" st)
    = Returns () (set_current_path "/a" st).
Proof.
  destruct Hname as [Hne Hslash]. split_and!; try reflexivity.
  unfold change_dir. rewrite run_bind. cbn [gets id current_path set_current_path].
  rewrite (bool_decide_eq_true_2 (".." = "..")) by done.
  rewrite bool_decide_eq_false_2.
  - cbn [negb]. unfold modify. by rewrite dirname_child.
  - destruct parent as [|c parent]; [|destruct parent].
    + rewrite app_empty_l. destruct name; [done|]. discriminate.
    + discriminate.
    + discriminate.
Qed.

Lemma cd_parent_witness :
  ("user" ≠ "" ∧ has_char slash "user" = false)
  ∧ endswith "/home" "/" = false
  ∧ change_dir [".."] (set_current_path "/home/user" Sample.session)
    = Returns () (set_current_path "/home" Sample.session).
Proof.
  assert (H1 : "user" ≠ "" ∧ has_char slash "user" = false)
    by (split; [discriminate|reflexivity]).
  assert (H2 : endswith "/home" "/" = false) by reflexivity.
  split; [exact H1|]. split; [exact H2|].
  exact (proj1 (proj2 (proj2 (cd_parent Sample.session "/home" "user" H1 H2)))).
Defined.

(** C7. For an argument other than [..]: when the normalized argument is
    not a directory of the index, [cd] prints
    [cd: no such file or directory: <argument>] and the current directory
    stays; when it is, the current directory becomes the normalized path
    (without trailing slashes: the root is [/]) and is never empty. *)
Theorem cd_checks_index (st : State) (new_path : string) (more : list string)
    (Hother : new_path ≠ "..") :
  (¬ index_exists (files st) (cd_target st new_path) →
     change_dir (new_path :: more) st
     = Returns () (set_stdout
         (stdout st ++ ["cd: no such file or directory: " +:+ new_path]) st)
     ∧ current_path (final (change_dir (new_path :: more) st)) = current_path st)
  ∧ (index_exists (files st) (cd_target st new_path) →
     ∃ cwd, change_dir (new_path :: more) st = Returns () (set_current_path cwd st)
       ∧ cwd ≠ ""
       ∧ cwd = or_else (rstrip "/" (normalize_path st new_path)) "/"
       ∧ (endswith (normalize_path st new_path) "/" = false →
          cwd = normalize_path st new_path)
       ∧ (normalize_path st new_path = "/" → cwd = "/")).
Proof.
  assert (Hrun : change_dir (new_path :: more) st
    = if existsb (λ f, bool_decide (f = cd_target st new_path)
                       || startswith f (cd_target st new_path)) (files st)
      then Returns () (set_current_path
             (or_else (rstrip "/" (cd_target st new_path)) "/") st)
      else Returns () (set_stdout
             (stdout st ++ ["cd: no such file or directory: " +:+ new_path]) st)).
  { unfold change_dir. rewrite run_bind. cbn [gets id].
    rewrite bool_decide_eq_false_2 by done.
    unfold cd_target.
    destruct (endswith (normalize_path st new_path) "/") eqn:E; cbn [negb];
      (destruct (existsb _ _); [|done]);
      rewrite run_bind; unfold modify; rewrite run_bind; cbn [gets id current_path set_current_path];
      (match goal with |- context [rstrip ?a ?b] => destruct (rstrip a b) end; done). }
  assert (Hstrip : rstrip "/" (cd_target st new_path)
                   = rstrip "/" (normalize_path st new_path)).
  { unfold cd_target. destruct (endswith _ _); [done|]. apply rstrip_slash_snoc. }
  split; intros H.
  - rewrite index_exists_existsb in H. apply not_true_is_false in H.
    rewrite Hrun, H. done.
  - apply index_exists_existsb in H. rewrite Hrun, H, Hstrip.
    eexists. split; [done|]. split_and!.
    + by apply or_else_nonempty.
    + done.
    + intros E. rewrite rstrip_slash_id by done.
      pose proof (normalize_path_nonempty st new_path). unfold or_else.
      by destruct (normalize_path _ _).
    + by intros ->.
Qed.

Lemma cd_checks_index_witness :
  "/nonexistent" ≠ ".."
  ∧ change_dir ["/nonexistent"] Sample.session
    = Returns () (set_stdout
        (stdout Sample.session ++ ["cd: no such file or directory: /nonexistent"])
        Sample.session)
  ∧ change_dir ["home/user"] Sample.session
    = Returns () (set_current_path "/home/user" Sample.session).
Proof.
  assert (H1 : "/nonexistent" ≠ "..") by discriminate.
  assert (H2 : "home/user" ≠ "..") by discriminate.
  split; [exact H1|]. split.
  - apply (proj1 (cd_checks_index Sample.session "/nonexistent" [] H1)).
    rewrite index_exists_existsb. by vm_compute.
  - destruct (proj2 (cd_checks_index Sample.session "home/user" [] H2))
      as (cwd & -> & _ & _ & -> & _); [|reflexivity|reflexivity].
    rewrite index_exists_existsb. by vm_compute.
Defined.

End cd.

(** ** What a computation leaves alone

    [respects R m]: a run of [m] returns or raises (it does not exit), and
    takes a state to one related to it by the preorder [R]. *)

Section no_exit.
Context {S : Type}.

Lemma no_exit_ret {A} (a : A) : no_exit (mret a : M S A).
Proof. by intros s. Qed.

Lemma no_exit_gets {A} (f : S → A) : no_exit (gets f).
Proof. by intros s. Qed.

Lemma no_exit_raise {A} (e : exn) : no_exit (raise e : M S A).
Proof. by intros s. Qed.

Lemma no_exit_bind {A B} (m : M S A) (k : A → M S B) :
  no_exit m → (∀ a, no_exit (k a)) → no_exit (m ≫= k).
Proof.
  intros Hm Hk s. rewrite run_bind. specialize (Hm s).
  destruct (m s); [apply Hk|done..].
Qed.

Lemma no_exit_try {A} (m : M S A) (h : exn → M S A) :
  no_exit m → (∀ e, no_exit (h e)) → no_exit (try_except m h).
Proof.
  intros Hm Hh s. unfold try_except. specialize (Hm s).
  destruct (m s); [done|apply Hh|done].
Qed.

End no_exit.

Ltac no_exit_step :=
  lazymatch goal with
  | |- no_exit (mret _) => apply no_exit_ret
  | |- no_exit (gets _) => apply no_exit_gets
  | |- no_exit (raise _) => apply no_exit_raise
  | |- no_exit (_ ≫= _) => apply no_exit_bind; [|intros ?]
  | |- no_exit (try_except _ _) => apply no_exit_try; [|intros ?]
  | |- no_exit (if ?b then _ else _) => destruct b
  | |- no_exit (match ?x with _ => _ end) => destruct x
  | |- no_exit (let '(_, _) := ?x in _) => destruct x
  end.

Section host_no_exit.
Import HostFs.

Lemma write_at_no_exit l data : no_exit (write_at l data).
Proof. intros fs. unfold write_at. by repeat case_match. Qed.

Lemma mkdir_at_no_exit l : no_exit (mkdir_at l).
Proof. intros fs. unfold mkdir_at. by repeat case_match. Qed.

Lemma open_read_no_exit path : no_exit (open_read path).
Proof. intros fs. unfold open_read. by repeat case_match. Qed.

Lemma open_text_no_exit path : no_exit (open_text path).
Proof.
  unfold open_text. repeat first [apply open_read_no_exit | no_exit_step].
Qed.

Lemma open_write_no_exit path data : no_exit (open_write path data).
Proof.
  intros fs. unfold open_write. case_match; [|done]. apply write_at_no_exit.
Qed.

Lemma mkdir_no_exit path : no_exit (mkdir path).
Proof. intros fs. unfold mkdir. case_match; [|done]. apply mkdir_at_no_exit. Qed.

Lemma rmtree_no_exit path : no_exit (rmtree path).
Proof. intros fs. unfold rmtree. by repeat case_match. Qed.

Lemma makedirs_fuel_no_exit fuel exist_ok name :
  no_exit (makedirs_fuel fuel exist_ok name).
Proof.
  revert name. induction fuel as [|fuel IH]; intros name; cbn [makedirs_fuel].
  - no_exit_step.
  - repeat first [apply IH | apply mkdir_no_exit | no_exit_step].
Qed.

Lemma makedirs_no_exit exist_ok name : no_exit (makedirs exist_ok name).
Proof. apply makedirs_fuel_no_exit. Qed.

Lemma copyfile_no_exit src dst : no_exit (copyfile src dst).
Proof.
  unfold copyfile.
  repeat first [apply open_read_no_exit | apply open_write_no_exit | no_exit_step].
Qed.

End host_no_exit.

Section respects.
Import Shell.
Context (R : relation State) `{!PreOrder R}.
Local Abbreviation respects := (respects R).

Lemma respects_ret {A} (a : A) : respects (mret a).
Proof. intros st. split; [reflexivity|done]. Qed.

Lemma respects_gets {A} (f : State → A) : respects (gets f).
Proof. intros st. split; [reflexivity|done]. Qed.

Lemma respects_raise {A} (e : exn) : respects (raise e : M State A).
Proof. intros st. split; [reflexivity|done]. Qed.

Lemma respects_modify (f : State → State) :
  (∀ st, R st (f st)) → respects (modify f).
Proof. intros H st. split; [apply H|done]. Qed.

Lemma respects_bind {A B} (m : M State A) (k : A → M State B) :
  respects m → (∀ a, respects (k a)) → respects (m ≫= k).
Proof.
  intros Hm Hk st. rewrite run_bind. destruct (Hm st) as [HR Hx].
  destruct (m st) as [a s'|e s'|c s']; cbn [final] in *; [|done..].
  destruct (Hk a s') as [HR' Hx']. split; [by etrans|done].
Qed.

Lemma respects_try {A} (m : M State A) (h : exn → M State A) :
  respects m → (∀ e, respects (h e)) → respects (try_except m h).
Proof.
  intros Hm Hh st. unfold try_except. destruct (Hm st) as [HR Hx].
  destruct (m st) as [a s'|e s'|c s']; cbn [final] in *; [done| |done].
  destruct (Hh e s') as [HR' Hx']. split; [by etrans|done].
Qed.

Lemma respects_on_host {A} (m : M (gmap (list string) HostFs.node) A) :
  (∀ st fs, R st (set_host fs st)) → no_exit m → respects (on_host m).
Proof.
  intros H Hm st. unfold on_host. specialize (Hm (host st)).
  destruct (m (host st)); [| |done]; split; done || apply H.
Qed.

Lemma respects_for {A} (l : list A) (body : A → M State unit) :
  (∀ x, respects (body x)) → respects (for_ l body).
Proof.
  intros H. induction l as [|x l IH]; cbn [for_].
  - apply respects_ret.
  - apply respects_bind; [apply H|]. intros _. apply IH.
Qed.

End respects.

Ltac respects_apply lem := first [apply lem; [apply _|..] | apply lem].

Ltac respects_step :=
  lazymatch goal with
  | |- respects _ (mret _) => respects_apply respects_ret
  | |- respects _ (gets _) => respects_apply respects_gets
  | |- respects _ (raise _) => respects_apply respects_raise
  | |- respects _ (_ ≫= _) => respects_apply respects_bind; [|intros ?]
  | |- respects _ (try_except _ _) => respects_apply respects_try; [|intros ?]
  | |- respects _ (Shell.for_ _ _) => respects_apply respects_for; intros ?
  | |- respects _ (Shell.on_host _) =>
      respects_apply respects_on_host;
      [intros ? ?
      |first [apply makedirs_no_exit | apply copyfile_no_exit | apply open_read_no_exit
             |apply open_text_no_exit | apply rmtree_no_exit | apply mkdir_no_exit]]
  | |- respects _ (modify _) => respects_apply respects_modify; intros ?
  | |- respects _ (Shell.print _) => respects_apply respects_modify; intros ?
  | |- respects _ (if ?b then _ else _) => destruct b
  | |- respects _ (match ?x with _ => _ end) => destruct x
  end.

(** ** Logging *)

Section logging.
Import PyStr HostFs Shell.

Global Instance same_log_preorder : PreOrder same_log.
Proof.
  split.
  - by intros s.
  - intros s1 s2 s3 (?&?&?) (?&?&?). unfold same_log. split_and!; congruence.
Qed.

Lemma read_vfs_same_log : respects same_log read_vfs.
Proof. unfold read_vfs. repeat respects_step; by unfold same_log. Qed.

Lemma get_full_path_same_log (p : string) : respects same_log (get_full_path p).
Proof. unfold get_full_path. repeat respects_step; by unfold same_log. Qed.

Lemma list_dir_same_log (args : list string) : respects same_log (list_dir args).
Proof. unfold list_dir. repeat respects_step; by unfold same_log. Qed.

Lemma change_dir_same_log (args : list string) : respects same_log (change_dir args).
Proof. unfold change_dir. repeat respects_step; by unfold same_log. Qed.

Lemma copy_file_same_log (args : list string) : respects same_log (copy_file args).
Proof.
  unfold copy_file.
  repeat first [apply get_full_path_same_log | apply read_vfs_same_log | respects_step];
    by unfold same_log.
Qed.

Lemma head_loop_same_log (n : nat) (text : string) :
  respects same_log (head_loop n text).
Proof.
  revert text. induction n as [|n IH]; intros text; cbn [head_loop].
  - respects_step.
  - repeat first [apply IH | respects_step]; by unfold same_log.
Qed.

Lemma head_file_same_log (args : list string) : respects same_log (head_file args).
Proof.
  unfold head_file.
  repeat first [apply get_full_path_same_log | apply head_loop_same_log | respects_step];
    by unfold same_log.
Qed.

Lemma cleanup_same_log : respects same_log cleanup.
Proof. unfold cleanup. repeat respects_step; by unfold same_log. Qed.

Lemma lstrip_ws_empty (s : string) :
  lstrip_with is_space s = "" ↔ whitespace_only s = true.
Proof.
  induction s as [|c s IH]; [done|]. cbn. destruct (is_space c); [done|].
  split; done.
Qed.

Lemma rstrip_ws_empty (s : string) :
  rstrip_with is_space s = "" ↔ whitespace_only s = true.
Proof.
  induction s as [|c s IH]; [done|]. cbn.
  destruct (rstrip_with is_space s) eqn:E.
  - destruct (is_space c); cbn; [by rewrite <- IH|]. split; done.
  - split; [done|]. intros [_ H]%andb_true_iff. by apply IH in H.
Qed.

Lemma lstrip_ws_head (s : string) :
  match lstrip_with is_space s with
  | String c _ => is_space c = false
  | EmptyString => True
  end.
Proof.
  induction s as [|c s IH]; [done|]. cbn. by destruct (is_space c) eqn:E.
Qed.

Lemma strip_ws_empty (s : string) : strip_ws s = "" ↔ whitespace_only s = true.
Proof.
  unfold strip_ws. rewrite rstrip_ws_empty, <- (lstrip_ws_empty s).
  pose proof (lstrip_ws_head s) as H.
  destruct (lstrip_with is_space s) as [|c t]; [done|].
  cbn. rewrite H. split; done.
Qed.

Lemma split_ws_nil (s : string) : split_ws s = [] → whitespace_only s = true.
Proof.
  induction s as [|c s IH]; [done|]. cbn.
  destruct (is_space c); [done|]. destruct s as [|c' s]; [done|].
  destruct (is_space c'); [done|]. by destruct (split_ws (String c' s)).
Qed.

Lemma rstrip_with_idem (p : ascii → bool) (s : string) :
  rstrip_with p (rstrip_with p s) = rstrip_with p s.
Proof.
  induction s as [|c s IH]; [done|]. cbn [rstrip_with].
  destruct (rstrip_with p s) as [|d r] eqn:E.
  - destruct (p c) eqn:Hc; [done|]. cbn. by rewrite Hc.
  - cbn [rstrip_with] in *. by rewrite IH.
Qed.

(** A line that is not blank has a first word: [parts[0]] never fails. *)
Lemma split_ws_strip_ws (s : string) :
  strip_ws s ≠ "" → split_ws (strip_ws s) ≠ [].
Proof.
  intros H E. apply split_ws_nil in E. unfold strip_ws in *.
  apply rstrip_ws_empty in E. by rewrite rstrip_with_idem in E.
Qed.

Lemma log_action_run (now act : string) (st : State) :
  log_action now act st
  = Returns () (set_log_file (log st ++ [entry now st act])
                  (set_log (log st ++ [entry now st act]) st)).
Proof. reflexivity. Qed.

(** C2, as the code has it.  A line of white space only does nothing.
    Any other line has a first word [cmd].  When [execute_command]
    returns, [cmd] is not [exit] and exactly one entry was appended, after
    the handler had run without touching the log; its action is the line,
    verbatim.  When it exits, [cmd] is [exit] and exactly one entry was
    appended, before [cleanup]; its action is the word [exit], whatever
    the line was.  When it raises, the handler of a command other than
    [exit] has logged nothing. *)
Theorem execute_command_logs (now line : string) (st : State) :
  if whitespace_only line then execute_command now line st = Returns () st
  else
    ∃ cmd args, split_ws (strip_ws line) = cmd :: args ∧
      match execute_command now line st with
      | Returns _ st' =>
          cmd ≠ "exit"
          ∧ (∃ st1, same_log st st1 ∧ log_action now line st1 = Returns () st')
          ∧ log st' = log st ++ [entry now st line]
          ∧ log_file st' = log st'
      | Exits code st' =>
          cmd = "exit" ∧ code = 0
          ∧ log st' = log st ++ [entry now st "exit"]
          ∧ log_file st' = log st'
      | Raises _ st' =>
          log st' = log st ++ (if bool_decide (cmd = "exit")
                               then [entry now st "exit"] else [])
      end.
Proof.
  destruct (whitespace_only line) eqn:Hw.
  { apply strip_ws_empty in Hw. unfold execute_command.
    by rewrite bool_decide_eq_true_2. }
  assert (Hne : strip_ws line ≠ "").
  { intros H%strip_ws_empty. congruence. }
  pose proof (split_ws_strip_ws _ Hne) as Hparts.
  destruct (split_ws (strip_ws line)) as [|cmd args] eqn:Hs; [done|].
  exists cmd, args. split; [done|].
  unfold execute_command. rewrite bool_decide_eq_false_2, Hs by done.
  destruct (decide (cmd = "exit")) as [->|Hcmd].
  - rewrite (bool_decide_eq_false_2 ("exit" = "ls")) by done.
    rewrite (bool_decide_eq_false_2 ("exit" = "cd")) by done.
    rewrite !(bool_decide_eq_true_2 ("exit" = "exit")) by done.
    rewrite !run_bind, log_action_run. cbv iota. rewrite run_bind.
    set (st2 := set_log_file _ _).
    destruct (cleanup_same_log st2) as [(Hl & Hf & _) Hx].
    destruct (cleanup st2) as [[] s'|e s'|c s']; cbn [final exits] in *; [|done..].
    unfold sys_exit. split_and!; try done. by rewrite Hf, Hl.
  - rewrite (bool_decide_eq_false_2 (cmd = "exit")) by done.
    set (h := if bool_decide (cmd = "ls") then _ else _).
    assert (Hh : respects same_log h).
    { subst h. repeat case_bool_decide;
        first [apply list_dir_same_log | apply change_dir_same_log
              |apply copy_file_same_log | apply head_file_same_log
              |unfold clear_screen; respects_step];
        by unfold same_log. }
    rewrite run_bind. destruct (Hh st) as [(Hl & Hf & Hu) Hx].
    destruct (h st) as [[] st1|e st1|c st1]; cbn [final exits] in *; [| |done].
    + rewrite log_action_run. split; [done|]. split.
      * exists st1. split; [done|]. by rewrite log_action_run.
      * cbn. unfold entry. by rewrite Hl, Hu.
    + by rewrite app_nil_r.
Qed.

(** [exit now] is logged as [exit]. *)
Lemma exit_not_logged_verbatim :
  ¬ logs_verbatim "2024-01-01T00:00:00" "exit now" Sample.session.
Proof.
  intros (e & He & Ha). vm_compute in He.
  injection He as <-. discriminate Ha.
Qed.

(** [cp] onto a directory raises before anything is logged. *)
Lemma cp_to_directory_not_logged :
  ¬ logs_verbatim "2024-01-01T00:00:00" "cp /file1.txt /home" Sample.session.
Proof. intros (e & He & Ha). vm_compute in He. discriminate He. Qed.

End logging.

(** ** [head] *)

Section head.
Import PyStr HostFs Shell.

Lemma set_stdout_id (st : State) : set_stdout (stdout st) st = st.
Proof. by destruct st. Qed.

Lemma file_lines_readline (text : string) :
  text ≠ "" →
  (readline text).1 ≠ ""
  ∧ file_lines text = (readline text).1 :: file_lines (readline text).2.
Proof.
  induction text as [|c text IH]; intros Hne; [done|].
  cbn [readline file_lines]. case_bool_decide; [done|].
  case_bool_decide.
  - destruct text as [|c' text]; [done|]. by case_bool_decide.
  - destruct text as [|c' text].
    + done.
    + destruct IH as [_ IH]; [done|]. rewrite IH.
      by destruct (readline (String c' text)).
Qed.

Lemma head_loop_run (n : nat) (text : string) (st : State) :
  head_loop n text st
  = Returns () (set_stdout
      (stdout st ++ (rstrip_ws <$> take n (file_lines text))) st).
Proof.
  revert text st. induction n as [|n IH]; intros text st; cbn [head_loop].
  { cbn. by rewrite app_nil_r, set_stdout_id. }
  destruct (decide (text = "")) as [->|Hne].
  { cbn. by rewrite app_nil_r, set_stdout_id. }
  destruct (file_lines_readline text Hne) as [Hline Hlines].
  rewrite Hlines. destruct (readline text) as [line rest]. cbn [fst snd] in *.
  rewrite bool_decide_eq_false_2 by done.
  rewrite run_bind. cbn [print modify]. rewrite IH.
  cbn [take fmap list_fmap stdout set_stdout]. by rewrite <- app_assoc.
Qed.




(** On a file that is not UTF-8, [head] prints the text of the
    [UnicodeDecodeError], and no line of the file. *)
Example head_undecodable :
  head_file ["/bad.bin"] with_binary
  = Returns () (set_stdout
      ["head: error reading '/bad.bin': 'utf-8' codec can't decode byte 0xff "
       +:+ "in position 3: invalid start byte"] with_binary).
Proof. vm_compute. reflexivity. Qed.

End head.

(** ** [cleanup] *)

Section cleanup.
Import PyStr HostFs Shell.

(** C4 fails on the code; this is what the code does.  Once [cleanup] has
    packed and removed the working area, [vfs_path_extracted] is [None],
    and a second [cleanup] raises [TypeError] from [os.path.exists(None)]:
    it writes no archive and changes no file, but it does not return. *)
Theorem second_cleanup_raises (st st1 : State) (dir : string)
    (Hlive : vfs_path_extracted st = Some dir)
    (Hdir : exists_ (host st) dir = true)
    (Hfirst : cleanup st = Returns () st1) :
  vfs_path_extracted st1 = None ∧ cleanup st1 = Raises TypeError st1.
Proof.
  unfold cleanup in Hfirst. rewrite run_bind in Hfirst. cbn [gets id] in Hfirst.
  rewrite Hlive, Hdir in Hfirst.
  destruct (Zip.make_archive (host st) dir) as [members|]; [|done].
  rewrite !run_bind in Hfirst. cbn [modify] in Hfirst.
  rewrite run_bind in Hfirst. unfold on_host in Hfirst.
  destruct (rmtree dir _) as [[] fs|e fs|c fs]; [|done..].
  cbn [modify] in Hfirst. injection Hfirst as <-.
  split; [done|]. unfold cleanup. rewrite run_bind. by cbn.
Qed.

Lemma second_cleanup_raises_witness :
  vfs_path_extracted Sample.session = Some "/tmp/vfs"
  ∧ exists_ (host Sample.session) "/tmp/vfs" = true
  ∧ cleanup Sample.session = Returns () Sample.closed
  ∧ cleanup Sample.closed = Raises TypeError Sample.closed.
Proof.
  assert (H1 : vfs_path_extracted Sample.session = Some "/tmp/vfs") by reflexivity.
  assert (H2 : exists_ (host Sample.session) "/tmp/vfs" = true) by (by vm_compute).
  assert (H3 : cleanup Sample.session = Returns () Sample.closed) by (by vm_compute).
  split; [exact H1|]. split; [exact H2|]. split; [exact H3|].
  exact (proj2 (second_cleanup_raises _ _ _ H1 H2 H3)).
Defined.

End cleanup.

(** ** [cp] *)

Section cp.
Import PyStr HostFs Shell.

Lemma set_host_id (st : State) : set_host (host st) st = st.
Proof. by destruct st. Qed.

Lemma get_full_path_inv (p full : string) (st st' : State) :
  get_full_path p st = Returns full st' →
  st' = st ∧ ∃ root, vfs_path_extracted st = Some root.
Proof.
  unfold get_full_path. rewrite run_bind. cbn [gets id].
  destruct (vfs_path_extracted st) as [root|]; [|done].
  destruct (startswith p "/"); intros [= <- <-]; eauto.
Qed.

Lemma get_full_path_live (p root : string) (st : State) :
  vfs_path_extracted st = Some root →
  ∃ full, get_full_path p st = Returns full st.
Proof.
  intros H. unfold get_full_path. rewrite run_bind. cbn [gets id]. rewrite H.
  destruct (startswith p "/"); eauto.
Qed.

(** C6.  [src] is the normalized source, as [cp] prints it.  When it
    denotes nothing on the host, [cp] prints the cannot-stat message; when
    it denotes a directory, the omitting-directory message; either way the
    index and every file are as before. *)
Theorem cp_bad_source (st : State) (src dest full : string)
    (Hfull : get_full_path (normalize_path st src) st = Returns full st)
    (Hbad : ∀ text, os_stat (host st) full ≠ Some (File text)) :
  ∃ st',
    copy_file [src; dest] st = Returns () st'
    ∧ stdout st' = stdout st ++
        [match os_stat (host st) full with
         | None => "cp: cannot stat '" +:+ normalize_path st src
                   +:+ "': No such file or directory"
         | Some _ => "cp: omitting directory '" +:+ normalize_path st src +:+ "'"
         end]
    ∧ files st' = files st ∧ host st' = host st
    ∧ st' = set_stdout (stdout st') st.
Proof.
  destruct (get_full_path_inv _ _ _ _ Hfull) as (_ & root & Hroot).
  destruct (get_full_path_live (normalize_path st dest) root st Hroot) as [fd Hfd].
  unfold copy_file. rewrite run_bind. cbn [gets id].
  rewrite run_bind, Hfull, run_bind, Hfd, run_bind. cbn [gets id].
  unfold exists_, isdir.
  destruct (os_stat (host st) full) as [[text|]|] eqn:E.
  - by destruct (Hbad text).
  - rewrite !bool_decide_eq_true_2 by done. cbn [negb].
    eexists. split; [reflexivity|]. done.
  - rewrite bool_decide_eq_false_2 by (by intros [? ?]). cbn [negb].
    eexists. split; [reflexivity|]. done.
Qed.

Lemma cp_bad_source_witness :
  get_full_path (normalize_path Sample.session "/nofile") Sample.session
    = Returns "/tmp/vfs/nofile" Sample.session
  ∧ (∀ text, os_stat (host Sample.session) "/tmp/vfs/nofile" ≠ Some (File text))
  ∧ ∃ st', copy_file ["/nofile"; "/home/x"] Sample.session = Returns () st'
      ∧ stdout st' = ["cp: cannot stat '/nofile': No such file or directory"]
      ∧ files st' = files Sample.session ∧ host st' = host Sample.session.
Proof.
  assert (H1 : get_full_path (normalize_path Sample.session "/nofile") Sample.session
               = Returns "/tmp/vfs/nofile" Sample.session) by reflexivity.
  assert (H2 : ∀ text, os_stat (host Sample.session) "/tmp/vfs/nofile"
                       ≠ Some (File text)) by (intros text; by vm_compute).
  split; [exact H1|]. split; [exact H2|].
  destruct (cp_bad_source Sample.session "/nofile" "/home/x" _ H1 H2)
    as (st' & Hrun & Hout & Hfiles & Hhost & _).
  exists st'. split; [exact Hrun|]. split; [|by split].
  rewrite Hout. by vm_compute.
Defined.

End cp.

(** ** [ls] *)

Section ls.
Import PyStr HostFs Shell.

Lemma first_segment_cons (c : ascii) (s : string) :
  first_segment (String c s)
  = if bool_decide (c = slash) then "" else String c (first_segment s).
Proof. reflexivity. Qed.

Lemma first_segment_hd_split (s : string) :
  hd "" (split slash s) = first_segment s.
Proof.
  induction s as [|c s IH]; [done|]. cbn [split first_segment].
  case_bool_decide; [done|]. rewrite <- IH. by destruct (split slash s).
Qed.

Lemma first_segment_no_slash (s : string) :
  has_char slash s = false → first_segment s = s.
Proof.
  unfold has_char. induction s as [|c s IH]; [done|]. cbn [contains first_segment].
  intros [Hc Hs]%orb_false_iff. apply bool_decide_eq_false in Hc.
  rewrite bool_decide_eq_false_2 by congruence. by rewrite IH.
Qed.

Lemma has_char_first_segment (s : string) :
  has_char slash (first_segment s) = false.
Proof.
  unfold has_char. induction s as [|c s IH]; [done|]. cbn [first_segment].
  case_bool_decide; [done|]. cbn [contains].
  rewrite IH, bool_decide_eq_false_2; [done|congruence].
Qed.

Lemma rstrip_slash_empty_first (r : string) :
  rstrip "/" r = "" → first_segment r = "".
Proof.
  destruct r as [|d r]; [done|]. unfold rstrip. cbn [rstrip_with first_segment].
  destruct (rstrip_with _ r); [|done].
  rewrite contains_slash. by case_bool_decide.
Qed.

Lemma first_segment_rstrip (s : string) :
  rstrip "/" s ≠ "" → first_segment (rstrip "/" s) = first_segment s.
Proof.
  unfold rstrip. induction s as [|c s IH]; [done|]. cbn [rstrip_with].
  destruct (rstrip_with (contains "/") s) as [|d x] eqn:E.
  - rewrite contains_slash. case_bool_decide; [done|]. intros _.
    cbn [first_segment]. rewrite bool_decide_eq_false_2 by done.
    by rewrite (rstrip_slash_empty_first s E).
  - intros _. rewrite !(first_segment_cons c). case_bool_decide; [done|].
    by rewrite IH.
Qed.

Lemma has_char_rstrip (c : ascii) (p : ascii → bool) (s : string) :
  has_char c (rstrip_with p s) = true → has_char c s = true.
Proof.
  unfold has_char. induction s as [|a s IH]; [done|]. cbn [rstrip_with contains].
  destruct (rstrip_with p s) as [|d x] eqn:E.
  - destruct (p a); [done|]. cbn [contains]. rewrite orb_false_r.
    intros ->. done.
  - cbn [contains] in *. intros [->|H]%orb_true_iff; [done|].
    by rewrite IH, orb_true_r.
Qed.

Lemma endswith_has_char (s : string) :
  endswith s "/" = true → has_char slash s = true.
Proof.
  unfold has_char. induction s as [|a s IH]; [done|].
  destruct s as [|b s].
  - cbn. rewrite !orb_false_r. intros H%bool_decide_eq_true.
    apply bool_decide_eq_true. by injection H.
  - rewrite endswith_cons by done. intros H. cbn [contains] in *.
    by rewrite IH, orb_true_r.
Qed.

Lemma endswith_inv (s : string) :
  endswith s "/" = true → ∃ s0, s = s0 +:+ "/".
Proof.
  induction s as [|a s IH]; [done|]. destruct s as [|b s].
  - cbn. rewrite orb_false_r. intros ->%bool_decide_eq_true. by exists "".
  - rewrite endswith_cons by done. intros [s0 ->]%IH. by exists (String a s0).
Qed.

Lemma double_slash_app (s0 r : string) :
  double_slash (s0 +:+ "/" +:+ r) = false → startswith r "/" = false.
Proof.
  induction s0 as [|a s0 IH].
  - rewrite app_empty_l. destruct r as [|b r]; [done|].
    change ("/" +:+ String b r) with (String slash (String b r)).
    cbn [double_slash startswith]. intros [H _]%orb_false_iff.
    rewrite bool_decide_eq_true_2 in H by done. cbn in H.
    apply bool_decide_eq_false in H.
    rewrite bool_decide_eq_false_2; [done|]. unfold slash in *. congruence.
  - rewrite app_cons. intros H. apply IH.
    destruct (s0 +:+ "/" +:+ r) eqn:E; [done|].
    cbn [double_slash] in H. by apply orb_false_iff in H as [_ ?].
Qed.

Lemma lstrip_slash_id (s : string) : startswith s "/" = false → lstrip "/" s = s.
Proof.
  destruct s as [|a s]; [done|]. unfold lstrip.
  cbn [startswith lstrip_with contains].
  destruct s; rewrite orb_false_r; cbn [startswith];
    rewrite andb_true_r; by intros ->.
Qed.

Lemma rstrip_starts (s : string) :
  s ≠ "" → startswith s "/" = false → rstrip "/" s ≠ "".
Proof.
  destruct s as [|a s]; [done|]. intros _. unfold rstrip.
  cbn [startswith rstrip_with contains].
  assert (startswith s "" = true) as -> by (by destruct s).
  rewrite andb_true_r, orb_false_r. intros ->.
  by destruct (rstrip_with _ s).
Qed.

(** The body of the loop adds the entry of [f], if any. *)
Lemma list_dir_add_entry (p f : string) (contents : gset string) :
  endswith p "/" = true → double_slash f = false →
  list_dir_add p f contents
  = match child_entry p f with
    | Some x => {[ x ]} ∪ contents
    | None => contents
    end.
Proof.
  intros [p0 ->]%endswith_inv Hf. unfold list_dir_add, child_entry.
  destruct (startswith f (p0 +:+ "/")) eqn:Hpre; [|done].
  apply startswith_inv in Hpre.
  set (rest := slice_from _ f) in *.
  assert (Hrest : startswith rest "/" = false).
  { rewrite Hpre, app_assoc_str in Hf. by apply double_slash_app in Hf. }
  unfold strip. rewrite (lstrip_slash_id _ Hrest).
  clearbody rest. destruct (decide (rest = "")) as [->|Hr]; [done|].
  rewrite (bool_decide_eq_false_2 (rest = "")) by done.
  pose proof (rstrip_starts rest Hr Hrest) as Hsub.
  destruct (has_char slash (rstrip "/" rest)) eqn:Hs.
  - rewrite (has_char_rstrip _ _ _ Hs), first_segment_hd_split.
    by rewrite first_segment_rstrip.
  - rewrite bool_decide_eq_false_2 by done. cbn [negb].
    assert (endswith f "/" = endswith rest "/") as ->.
    { rewrite Hpre at 1. by rewrite endswith_app_r. }
    destruct (endswith rest "/") eqn:He.
    + rewrite (endswith_has_char _ He), <- (first_segment_rstrip rest Hsub).
      by rewrite first_segment_no_slash.
    + rewrite rstrip_slash_id in * by done. by rewrite Hs.
Qed.

Lemma child_entry_immediate (p f x : string) :
  endswith p "/" = true → double_slash f = false →
  child_entry p f = Some x → immediate x.
Proof.
  intros [p0 ->]%endswith_inv Hf. unfold child_entry.
  destruct (startswith f (p0 +:+ "/")) eqn:Hpre; [|done].
  apply startswith_inv in Hpre. set (rest := slice_from _ f) in *.
  assert (Hrest : startswith rest "/" = false).
  { rewrite Hpre, app_assoc_str in Hf. by apply double_slash_app in Hf. }
  clearbody rest. case_bool_decide as Hr; [done|].
  destruct (has_char slash rest) eqn:Hs; intros [= <-].
  - exists (first_segment rest). split_and!; [|apply has_char_first_segment|by right].
    destruct rest as [|c rest']; [done|]. rewrite first_segment_cons.
    cbn [startswith] in Hrest.
    assert (startswith rest' "" = true) as Ht by (by destruct rest').
    rewrite Ht, andb_true_r in Hrest. apply bool_decide_eq_false in Hrest.
    rewrite bool_decide_eq_false_2; [done|]. unfold slash. congruence.
  - exists rest. split_and!; [done..|by left].
Qed.

Lemma for_print_run (l : list string) (st : State) :
  for_ l print st = Returns () (set_stdout (stdout st ++ l) st).
Proof.
  revert st. induction l as [|x l IH]; intros st; cbn [for_].
  - cbn. by rewrite app_nil_r, set_stdout_id.
  - rewrite run_bind. cbn [print modify]. rewrite IH.
    cbn [stdout set_stdout]. by rewrite <- app_assoc.
Qed.

Lemma list_dir_contents (p : string) (index : list string) (acc : gset string)
    (x : string) :
  endswith p "/" = true → Forall (λ f, double_slash f = false) index →
  x ∈ foldl (λ contents f, list_dir_add p f contents) acc index
  ↔ x ∈ acc ∨ ∃ f, f ∈ index ∧ child_entry p f = Some x.
Proof.
  intros Hp Hwf. revert acc.
  induction Hwf as [|f index Hf Hwf IH]; intros acc; cbn [foldl].
  - split; [by left|]. intros [?|(f & Hin & _)]; [done|]. by apply elem_of_nil in Hin.
  - rewrite IH, (list_dir_add_entry _ _ _ Hp Hf). split.
    + intros [Hx|(g & Hg & Hx)].
      * destruct (child_entry p f) as [y|] eqn:E; [|by left].
        apply elem_of_union in Hx as [->%elem_of_singleton|Hx]; [|by left].
        right. exists f. split; [left|done].
      * right. exists g. split; [by right|done].
    + intros [Hx|(g & Hg & Hx)].
      * left. destruct (child_entry p f); [|done]. apply elem_of_union. by right.
      * apply elem_of_cons in Hg as [->|Hg].
        -- left. rewrite Hx. apply elem_of_union. left. by apply elem_of_singleton.
        -- right. by exists g.
Qed.

Lemma ls_target_endswith (st : State) (args : list string) :
  endswith (ls_target st args) "/" = true.
Proof.
  unfold ls_target. destruct (endswith (normalize_path _ _) "/") eqn:E; [done|].
  rewrite endswith_snoc. by apply bool_decide_eq_true_2.
Qed.

(** C5.  When no indexed path has an empty segment, [ls] prints, one per
    line, exactly the entries of the indexed paths under the directory,
    each once, in increasing order of code points; every line is an
    immediate child: one name, followed by a slash when it stands for a
    directory. *)
Theorem ls_lists_children (st : State) (args : list string)
    (Hindex : Forall (λ f, double_slash f = false) (files st)) :
  ∃ listing,
    list_dir args st = Returns () (set_stdout (stdout st ++ listing) st)
    ∧ (∀ x, x ∈ listing ↔
            ∃ f, f ∈ files st ∧ child_entry (ls_target st args) f = Some x)
    ∧ StronglySorted String.le listing ∧ NoDup listing
    ∧ (∀ x, x ∈ listing → immediate x).
Proof.
  pose proof (ls_target_endswith st args) as Hp.
  set (contents := foldl (λ contents f, list_dir_add (ls_target st args) f contents)
                     ∅ (files st)).
  exists (sorted contents).
  assert (Hmem : ∀ x, x ∈ sorted contents ↔
            ∃ f, f ∈ files st ∧ child_entry (ls_target st args) f = Some x).
  { intros x. unfold sorted. rewrite merge_sort_Permutation, elem_of_elements.
    unfold contents. rewrite (list_dir_contents _ _ _ _ Hp Hindex).
    split; [intros [?|?]; [set_solver|done]|by right]. }
  split_and!.
  - unfold list_dir. rewrite run_bind. cbn [gets id]. rewrite for_print_run.
    do 3 f_equal. unfold contents, ls_target.
    by destruct (endswith (normalize_path _ _) "/").
  - done.
  - apply StronglySorted_merge_sort; apply _.
  - unfold sorted. rewrite merge_sort_Permutation. apply NoDup_elements.
  - intros x (f & Hf & Hx)%Hmem.
    eapply child_entry_immediate; [done| |done].
    by eapply Forall_forall in Hindex.
Qed.

Lemma ls_lists_children_witness :
  Forall (λ f, double_slash f = false) (files Sample.session)
  ∧ ∃ listing,
      list_dir [] Sample.session
      = Returns () (set_stdout (stdout Sample.session ++ listing) Sample.session)
      ∧ listing = ["file1.txt"; "home/"; "startup.sh"]
      ∧ StronglySorted String.le listing ∧ NoDup listing.
Proof.
  assert (H : Forall (λ f, double_slash f = false) (files Sample.session)).
  { repeat constructor. }
  split; [exact H|].
  destruct (ls_lists_children Sample.session [] H)
    as (listing & Hrun & _ & Hsorted & Hnodup & _).
  exists listing. split; [exact Hrun|]. split; [|by split].
  vm_compute in Hrun. by injection Hrun.
Defined.

End ls.

(** ** Path names on the host *)

Section namei_facts.
Import PyStr HostFs.
Context (fs : gmap (list string) node).

Lemma split_nonempty (s : string) : split slash s ≠ [].
Proof.
  destruct s as [|c s]; [done|]. cbn [split]. case_bool_decide; [done|].
  by destruct (split slash s).
Qed.

Lemma split_cons (c : ascii) (s : string) :
  split slash (String c s)
  = if bool_decide (c = slash) then "" :: split slash s
    else match split slash s with
         | w :: ws => String c w :: ws
         | [] => [String c ""]
         end.
Proof. reflexivity. Qed.

Lemma split_app (a b : string) :
  split slash (a +:+ String slash b) = split slash a ++ split slash b.
Proof.
  induction a as [|c a IH].
  - rewrite app_empty_l, split_cons. by rewrite bool_decide_eq_true_2.
  - rewrite app_cons, !(split_cons c), IH. case_bool_decide; [done|].
    pose proof (split_nonempty a). by destruct (split slash a).
Qed.

Lemma split_no_slash (t : string) : has_char slash t = false → split slash t = [t].
Proof.
  unfold has_char. induction t as [|c t IH]; [done|]. cbn [contains].
  intros [Hc Ht]%orb_false_iff. apply bool_decide_eq_false in Hc.
  rewrite split_cons, bool_decide_eq_false_2 by congruence. by rewrite IH.
Qed.

Lemma split_repeat_slash (j : nat) :
  split slash (repeat_char slash j) = replicate (S j) "".
Proof.
  induction j as [|j IH]; [done|]. cbn [repeat_char].
  rewrite split_cons, bool_decide_eq_true_2 by done. by rewrite IH.
Qed.

Lemma split_app_repeat_slash (d : string) (j : nat) :
  split slash (d +:+ repeat_char slash j) = split slash d ++ replicate j "".
Proof.
  destruct j as [|j]; [by rewrite app_empty_r, app_nil_r|].
  cbn [repeat_char]. by rewrite split_app, split_repeat_slash.
Qed.

Lemma rstrip_decomp (s : string) :
  ∃ j, s = rstrip "/" s +:+ repeat_char slash j.
Proof.
  unfold rstrip. induction s as [|c s [j IH]]; [by exists 0|].
  cbn [rstrip_with]. destruct (rstrip_with (contains "/") s) as [|d r] eqn:E.
  - rewrite app_empty_l in IH. rewrite contains_slash. case_bool_decide as Hc.
    + exists (S j). rewrite Hc, IH. done.
    + exists j. rewrite IH. done.
  - exists j. rewrite app_cons. by rewrite <- IH.
Qed.

Lemma all_slashes_repeat (j : nat) : PosixPath.all_slashes (repeat_char slash j) = true.
Proof.
  unfold PosixPath.all_slashes. apply bool_decide_eq_true_2. f_equal.
  induction j as [|j IH]; [done|]. cbn. by rewrite <- IH.
Qed.

Lemma rsplit_slash_decomp (p : string) :
  p = (PosixPath.rsplit_slash p).1 +:+ (PosixPath.rsplit_slash p).2
  ∧ has_char slash (PosixPath.rsplit_slash p).2 = false
  ∧ ((PosixPath.rsplit_slash p).1 = ""
     ∨ endswith (PosixPath.rsplit_slash p).1 "/" = true).
Proof.
  induction p as [|c p (IH1 & IH2 & IH3)]; [by split_and!; [..|left]|].
  cbn [PosixPath.rsplit_slash].
  destruct (PosixPath.rsplit_slash p) as [h t]. cbn [fst snd] in *.
  case_bool_decide as Hc.
  - cbn [fst snd]. split_and!; [by rewrite app_cons, <- IH1|done|right].
    destruct IH3 as [->|IH3]; [by rewrite Hc|].
    rewrite endswith_cons; [done|]. by intros ->.
  - destruct h as [|d h]; cbn [fst snd].
    + rewrite app_empty_l in *. split_and!; [by rewrite <- IH1| |by left].
      unfold has_char in *. cbn [contains]. rewrite IH2.
      rewrite bool_decide_eq_false_2; [done|congruence].
    + split_and!; [by rewrite app_cons, <- IH1|done|right].
      destruct IH3 as [?|IH3]; [done|]. by rewrite endswith_cons.
Qed.

(** Walking on from the place reached so far. *)
Lemma namei_step_inv (cur : option (list string)) (c : string) (l : list string) :
  namei_step fs cur c = Some l →
  ∃ l0, cur = Some l0 ∧ stat fs l0 = Some Dir.
Proof.
  destruct cur as [l0|]; [|done]. cbn. intros H. exists l0. split; [done|].
  by destruct (stat fs l0) as [[]|].
Qed.

Lemma namei_step_empty (l0 l : list string) :
  namei_step fs (Some l0) "" = Some l → l = l0.
Proof. cbn. destruct (stat fs l0) as [[]|]; [done| |done]. by intros [= <-]. Qed.

Lemma namei_step_empty_dir (l0 : list string) :
  stat fs l0 = Some Dir → namei_step fs (Some l0) "" = Some l0.
Proof. cbn. by intros ->. Qed.

Lemma walk_empty_comps (cur : option (list string)) (j : nat) (l : list string) :
  foldl (namei_step fs) cur (replicate j "") = Some l → cur = Some l.
Proof.
  revert cur. induction j as [|j IH]; intros cur; [done|]. cbn [replicate foldl].
  intros H. apply IH in H.
  destruct (namei_step_inv _ _ _ H) as (l0 & -> & _).
  by apply namei_step_empty in H as ->.
Qed.

Lemma namei_app_slash (a t : string) :
  has_char slash t = false →
  namei fs (a +:+ String slash t)
  = namei_step fs (foldl (namei_step fs) (Some []) (split slash a)) t.
Proof.
  intros Ht. unfold namei. rewrite bool_decide_eq_false_2.
  - by rewrite split_app, foldl_app, (split_no_slash t Ht).
  - intros [_ ?]%app_eq_empty. done.
Qed.

(** The place a path without its trailing slashes denotes. *)
Lemma namei_rstrip (s : string) (l : list string) :
  rstrip "/" s ≠ "" →
  foldl (namei_step fs) (Some []) (split slash s) = Some l →
  namei fs (rstrip "/" s) = Some l.
Proof.
  intros Hd H. destruct (rstrip_decomp s) as [j Hs].
  rewrite Hs, split_app_repeat_slash, foldl_app in H.
  apply walk_empty_comps in H. unfold namei.
  by rewrite bool_decide_eq_false_2.
Qed.

(** The directory of a path that denotes something is a directory. *)
Lemma os_stat_dirname (p : string) (n : node) :
  os_stat fs p = Some n → PosixPath.dirname p ≠ "" →
  os_stat fs (PosixPath.dirname p) = Some Dir.
Proof.
  unfold os_stat at 1. intros Hp Hd.
  destruct (namei fs p) as [l|] eqn:Hl; [|done]. clear Hp.
  unfold PosixPath.dirname, PosixPath.split in *.
  destruct (rsplit_slash_decomp p) as (Hpt & Ht & Hh).
  destruct (PosixPath.rsplit_slash p) as [h t]. cbn [fst snd] in *.
  destruct Hh as [->|[h0 ->]%endswith_inv]; [done|].
  rewrite Hpt, app_assoc_str in Hl.
  change ("/" +:+ t) with (String slash t) in Hl.
  rewrite (namei_app_slash _ _ Ht) in Hl.
  destruct (namei_step_inv _ _ _ Hl) as (l0 & Hwalk & Hdir).
  destruct (negb _ && negb _) eqn:Hcase; cbn [fst] in *.
  - rewrite rstrip_slash_snoc in *.
    unfold os_stat. by rewrite (namei_rstrip h0 l0 Hd Hwalk).
  - unfold os_stat.
    change (h0 +:+ "/") with (h0 +:+ String slash "").
    rewrite namei_app_slash, Hwalk by done.
    by rewrite (namei_step_empty_dir _ Hdir).
Qed.

(** [mkdir] strips trailing slashes; the path still denotes the same. *)
Lemma os_stat_mkdir_name (name : string) :
  os_stat fs name = Some Dir →
  ∃ l, namei fs (if PosixPath.all_slashes name then name else rstrip "/" name)
       = Some l ∧ stat fs l = Some Dir.
Proof.
  unfold os_stat. intros H. destruct (namei fs name) as [l|] eqn:Hl; [|done].
  exists l. split; [|done]. destruct (PosixPath.all_slashes name) eqn:Hall; [done|].
  unfold namei in Hl. case_bool_decide; [done|]. apply namei_rstrip; [|done].
  intros Hd. destruct (rstrip_decomp name) as [j Hj].
  rewrite Hd, app_empty_l in Hj. by rewrite Hj, all_slashes_repeat in Hall.
Qed.

End namei_facts.

(** ** [cp] onto a directory *)

Section cp_directory.
Import PyStr HostFs Shell.

Lemma dirname_empty : PosixPath.dirname "" = "".
Proof. reflexivity. Qed.

Lemma split_fst (p : string) : (PosixPath.split p).1 = PosixPath.dirname p.
Proof. reflexivity. Qed.

(** [os.makedirs(name, exist_ok=True)] on an existing directory does
    nothing. *)
Lemma makedirs_existing (fs : gmap (list string) node) (name : string) :
  os_stat fs name = Some Dir → makedirs true name fs = Returns () fs.
Proof.
  intros Hname. unfold makedirs. cbn [makedirs_fuel].
  assert (Hmake : try_except (mkdir name)
            (λ e, fs' ← gets id;
                  if negb true || negb (isdir fs' name) then raise e else mret ()) fs
          = Returns () fs).
  { unfold try_except, mkdir.
    destruct (os_stat_mkdir_name fs name Hname) as (l & -> & Hl).
    unfold mkdir_at. rewrite Hl, run_bind. cbn [gets id]. unfold isdir.
    by rewrite Hname, bool_decide_eq_true_2. }
  pose proof (split_fst name) as H1.
  destruct (PosixPath.split name) as [head tail] eqn:E1. cbn [fst] in H1.
  assert (Hhead : head ≠ "" → os_stat fs head = Some Dir).
  { intros ?. subst head. by eapply os_stat_dirname. }
  case_bool_decide as Htail.
  - pose proof (split_fst head) as H2.
    destruct (PosixPath.split head) as [head' tail'] eqn:E2. cbn [fst] in H2.
    rewrite run_bind. cbn [gets id].
    destruct (decide (head' = "")) as [->|Hne].
    { rewrite (bool_decide_eq_true_2 ("" = "")) by done. exact Hmake. }
    assert (os_stat fs head' = Some Dir) as Hh'.
    { subst head'. eapply os_stat_dirname; [|done]. apply Hhead.
      intros ->. by rewrite dirname_empty in Hne. }
    unfold exists_. rewrite Hh', (bool_decide_eq_true_2 (is_Some _)) by done.
    rewrite andb_false_r. exact Hmake.
  - rewrite run_bind. cbn [gets id].
    destruct (decide (head = "")) as [->|Hne].
    { rewrite (bool_decide_eq_true_2 ("" = "")) by done. exact Hmake. }
    unfold exists_. rewrite (Hhead Hne), (bool_decide_eq_true_2 (is_Some _)) by done.
    rewrite andb_false_r. exact Hmake.
Qed.

Lemma startswith_slash_app (a b : string) :
  startswith a "/" = true → startswith (a +:+ b) "/" = true.
Proof.
  destruct a as [|c a]; [done|]. rewrite app_cons. cbn [startswith].
  by rewrite !startswith_empty.
Qed.

Lemma join_absolute (a b : string) :
  startswith a "/" = true → startswith (PosixPath.join a b) "/" = true.
Proof.
  intros Ha. unfold PosixPath.join. destruct (startswith b "/") eqn:Hb; [done|].
  destruct (_ || _); by apply startswith_slash_app.
Qed.

Lemma get_full_path_absolute (st : State) (root p full : string) :
  vfs_path_extracted st = Some root → startswith root "/" = true →
  get_full_path p st = Returns full st → startswith full "/" = true.
Proof.
  intros Hroot Habs. unfold get_full_path. rewrite run_bind. cbn [gets id].
  rewrite Hroot. destruct (startswith p "/"); intros [= <-].
  - by apply join_absolute.
  - unfold PosixPath.join3. by do 2 apply join_absolute.
Qed.

Lemma dirname_absolute (p : string) :
  startswith p "/" = true → PosixPath.dirname p ≠ "".
Proof.
  intros Hp. unfold PosixPath.dirname, PosixPath.split.
  destruct (rsplit_slash_decomp p) as (Hpt & Ht & Hh).
  destruct (PosixPath.rsplit_slash p) as [h t]. cbn [fst snd] in *.
  assert (h ≠ "") as Hne.
  { intros ->. rewrite app_empty_l in Hpt. subst t.
    destruct p as [|c p]; [done|]. unfold has_char in Ht. cbn in Hp, Ht.
    destruct (bool_decide ("/"%char = c)) eqn:E; [|done].
    apply bool_decide_eq_true in E. subst c.
    by rewrite bool_decide_eq_true_2 in Ht. }
  rewrite bool_decide_eq_false_2 by done. cbn [negb andb].
  destruct (PosixPath.all_slashes h) eqn:Hall; cbn [negb fst]; [done|].
  intros Hd. destruct (rstrip_decomp h) as [j Hj].
  rewrite Hd, app_empty_l in Hj. by rewrite Hj, all_slashes_repeat in Hall.
Qed.

(** C10, as the code has it.  The working area being at an absolute
    path: when the source is a regular file and the destination an existing
    directory, [cp] raises [IsADirectoryError] from [shutil.copyfile], and
    so does [execute_command]; the state is as before: nothing was printed,
    the index was not rebuilt, nothing was logged. *)
Theorem cp_onto_directory_raises (st : State)
    (src dest root full_src full_dest text now line : string)
    (Hlive : vfs_path_extracted st = Some root)
    (Habs : startswith root "/" = true)
    (Hsrc : get_full_path (normalize_path st src) st = Returns full_src st)
    (Hdest : get_full_path (normalize_path st dest) st = Returns full_dest st)
    (Hfile : os_stat (host st) full_src = Some (File text))
    (Hdir : os_stat (host st) full_dest = Some Dir)
    (Hline : split_ws (strip_ws line) = ["cp"; src; dest]) :
  copy_file [src; dest] st = Raises IsADirectoryError st
  ∧ execute_command now line st = Raises IsADirectoryError st.
Proof.
  assert (Hcp : copy_file [src; dest] st = Raises IsADirectoryError st).
  { unfold copy_file. rewrite run_bind. cbn [gets id].
    rewrite run_bind, Hsrc, run_bind, Hdest, run_bind. cbn [gets id].
    unfold exists_, isdir. rewrite Hfile.
    rewrite bool_decide_eq_true_2, bool_decide_eq_false_2 by done. cbn [negb].
    rewrite run_bind. unfold on_host at 1.
    rewrite makedirs_existing, set_host_id.
    2:{ eapply os_stat_dirname; [done|]. apply dirname_absolute.
        by eapply get_full_path_absolute. }
    rewrite run_bind. unfold on_host, copyfile.
    rewrite run_bind. cbn [gets id].
    assert (samefile (host st) full_src full_dest = false) as ->.
    { unfold samefile. apply andb_false_iff. right. apply bool_decide_eq_false.
      intros E. unfold os_stat in *. rewrite E in Hfile. congruence. }
    rewrite run_bind. unfold open_read at 1. rewrite Hfile.
    unfold try_except, open_write.
    assert (Hex : exists_ (host st) full_dest = true).
    { unfold exists_. by rewrite Hdir, bool_decide_eq_true_2. }
    unfold os_stat in Hdir. destruct (namei (host st) full_dest) as [l|]; [|done].
    cbn in Hdir. unfold write_at. rewrite Hdir.
    rewrite run_bind. cbn [gets id]. rewrite Hex, andb_false_r.
    unfold raise. by rewrite set_host_id. }
  split; [done|].
  unfold execute_command. rewrite Hline.
  rewrite bool_decide_eq_false_2.
  2:{ intros E. rewrite E in Hline. done. }
  rewrite run_bind.
  rewrite (bool_decide_eq_false_2 ("cp" = "ls")) by done.
  rewrite (bool_decide_eq_false_2 ("cp" = "cd")) by done.
  rewrite (bool_decide_eq_false_2 ("cp" = "exit")) by done.
  rewrite (bool_decide_eq_true_2 ("cp" = "cp")) by done.
  by rewrite Hcp.
Qed.

Lemma cp_onto_directory_raises_witness :
  vfs_path_extracted Sample.session = Some "/tmp/vfs"
  ∧ startswith "/tmp/vfs" "/" = true
  ∧ get_full_path (normalize_path Sample.session "/file1.txt") Sample.session
    = Returns "/tmp/vfs/file1.txt" Sample.session
  ∧ get_full_path (normalize_path Sample.session "/home") Sample.session
    = Returns "/tmp/vfs/home" Sample.session
  ∧ os_stat (host Sample.session) "/tmp/vfs/file1.txt" = Some (File Sample.file1)
  ∧ os_stat (host Sample.session) "/tmp/vfs/home" = Some Dir
  ∧ split_ws (strip_ws "cp /file1.txt /home") = ["cp"; "/file1.txt"; "/home"]
  ∧ execute_command "2024-01-01T00:00:00" "cp /file1.txt /home" Sample.session
    = Raises IsADirectoryError Sample.session.
Proof.
  assert (H1 : vfs_path_extracted Sample.session = Some "/tmp/vfs") by reflexivity.
  assert (H2 : startswith "/tmp/vfs" "/" = true) by reflexivity.
  assert (H3 : get_full_path (normalize_path Sample.session "/file1.txt")
                 Sample.session
               = Returns "/tmp/vfs/file1.txt" Sample.session) by reflexivity.
  assert (H4 : get_full_path (normalize_path Sample.session "/home") Sample.session
               = Returns "/tmp/vfs/home" Sample.session) by reflexivity.
  assert (H5 : os_stat (host Sample.session) "/tmp/vfs/file1.txt"
               = Some (File Sample.file1)) by (vm_compute; reflexivity).
  assert (H6 : os_stat (host Sample.session) "/tmp/vfs/home" = Some Dir)
    by (vm_compute; reflexivity).
  assert (H7 : split_ws (strip_ws "cp /file1.txt /home")
               = ["cp"; "/file1.txt"; "/home"]) by reflexivity.
  split_and!; [exact H1|exact H2|exact H3|exact H4|exact H5|exact H6|exact H7|].
  exact (proj2 (cp_onto_directory_raises Sample.session _ _ _ _ _ _
                  "2024-01-01T00:00:00" _ H1 H2 H3 H4 H5 H6 H7)).
Defined.

(** [cp /nofile /home]: the destination is an existing directory, and the
    source is missing; [cp] prints its message and returns. *)
Lemma cp_missing_source_onto_directory :
  ¬ cp_onto_directory_escapes "2024-01-01T00:00:00" "/nofile" "/home" Sample.session.
Proof.
  intros H.
  destruct (H "/tmp/vfs/home") as (e & st' & Hrun & _);
    [reflexivity|vm_compute; reflexivity|].
  vm_compute in Hrun. discriminate Hrun.
Qed.

(** What [cp] does onto the existing directory [/home] when the source is
    missing, and onto [/home/user] when the source is a directory: it
    prints its message, returns, and the line is logged. *)
Example cp_onto_directory_messages :
  returned (execute_command "2024-01-01T00:00:00" "cp /nofile /home" Sample.session)
  = true
  ∧ stdout (final (execute_command "2024-01-01T00:00:00" "cp /nofile /home"
                     Sample.session))
    = ["cp: cannot stat '/nofile': No such file or directory"]
  ∧ actions (log (final (execute_command "2024-01-01T00:00:00" "cp /nofile /home"
                           Sample.session)))
    = ["cp /nofile /home"]
  ∧ returned (execute_command "2024-01-01T00:00:00" "cp /home /home/user"
                Sample.session)
    = true
  ∧ stdout (final (execute_command "2024-01-01T00:00:00" "cp /home /home/user"
                     Sample.session))
    = ["cp: omitting directory '/home'"]
  ∧ actions (log (final (execute_command "2024-01-01T00:00:00" "cp /home /home/user"
                           Sample.session)))
    = ["cp /home /home/user"].
Proof. split_and!; vm_compute; reflexivity. Qed.

End cp_directory.


(** ** The archive round trip *)

Section members.
Import PyStr HostFs Zip.

Lemma valid_name_inv (c : string) :
  valid_name c = true →
  (c ∉ [""; "."; ".."]) ∧ has_char slash c = false ∧ c ≠ "".
Proof.
  unfold valid_name. rewrite !andb_true_iff, !negb_true_iff, !bool_decide_eq_false.
  intros [[[? ?] ?] ?]. split_and!; [|done..].
  rewrite !elem_of_cons, elem_of_nil. intros [?|[?|[?|[]]]]; done.
Qed.

Lemma join_cons2 (x y : string) (l : list string) :
  PyStr.join "/" (x :: y :: l) = x +:+ String slash (PyStr.join "/" (y :: l)).
Proof. reflexivity. Qed.

Lemma join_nonempty (x : string) (l : list string) :
  x ≠ "" → PyStr.join "/" (x :: l) ≠ "".
Proof.
  intros Hx. destruct l as [|y l]; [done|]. rewrite join_cons2.
  by intros [? _]%app_eq_empty.
Qed.

Lemma split_join_cons (l : list string) (x : string) :
  Forall (λ c, has_char slash c = false) (x :: l) →
  split slash (PyStr.join "/" (x :: l)) = x :: l.
Proof.
  revert x. induction l as [|y l IH]; intros x Hv;
    inversion Hv as [|?? Hx Hv']; subst.
  - by apply split_no_slash.
  - by rewrite join_cons2, split_app, (split_no_slash x Hx), IH.
Qed.

Lemma split_join (rel : list string) :
  rel ≠ [] → Forall (λ c, has_char slash c = false) rel →
  split slash (PyStr.join "/" rel) = rel.
Proof. destruct rel; [done|]. intros _. apply split_join_cons. Qed.

Lemma endswith_join_cons (l : list string) (x : string) :
  Forall (λ c, valid_name c = true) (x :: l) →
  endswith (PyStr.join "/" (x :: l)) "/" = false.
Proof.
  revert x. induction l as [|y l IH]; intros x Hv;
    inversion Hv as [|?? Hx Hv']; subst.
  - apply valid_name_inv in Hx as (_ & Hx & _).
    destruct (endswith x "/") eqn:E; [|done].
    apply endswith_has_char in E. congruence.
  - inversion Hv' as [|?? Hy _]; subst. apply valid_name_inv in Hy as (_ & _ & Hy).
    rewrite join_cons2, endswith_app_r by done.
    rewrite endswith_cons by (by apply join_nonempty). by apply IH.
Qed.

Lemma endswith_join (rel : list string) :
  rel ≠ [] → Forall (λ c, valid_name c = true) rel →
  endswith (PyStr.join "/" rel) "/" = false.
Proof. destruct rel; [done|]. intros _. apply endswith_join_cons. Qed.

Lemma filter_valid (rel : list string) :
  Forall (λ c, valid_name c = true) rel →
  filter (λ x, x ∉ [""; "."; ".."]) rel = rel.
Proof.
  induction 1 as [|c rel Hc _ IH]; [done|].
  apply valid_name_inv in Hc as (Hc & _). by rewrite filter_cons_True, IH.
Qed.

Lemma arcname_parts_member (rel : list string) (n : node) :
  rel ≠ [] → Forall (λ c, valid_name c = true) rel →
  arcname_parts (filename (member_of rel n)) = rel.
Proof.
  intros Hne Hv. unfold arcname_parts.
  assert (Hs : Forall (λ c, has_char slash c = false) rel).
  { eapply Forall_impl; [done|]. by intros c (_ & ? & _)%valid_name_inv. }
  destruct n as [data|]; cbn [member_of filename].
  - by rewrite split_join, filter_valid.
  - change (PyStr.join "/" rel +:+ "/") with (PyStr.join "/" rel +:+ String slash "").
    rewrite split_app, split_join, filter_app, filter_valid by done.
    cbn [split]. rewrite filter_cons_False, filter_nil, app_nil_r; [done|].
    intros H. apply H. by left.
Qed.

Lemma is_dir_member (rel : list string) (n : node) :
  rel ≠ [] → Forall (λ c, valid_name c = true) rel →
  is_dir (member_of rel n) = bool_decide (n = Dir).
Proof.
  intros Hne Hv. unfold is_dir. destruct n as [data|]; cbn [member_of filename].
  - by rewrite endswith_join.
  - rewrite endswith_snoc. done.
Qed.

Lemma content_member_file (rel : list string) (data : string) :
  content (member_of rel (File data)) = data.
Proof. reflexivity. Qed.

End members.

Section wf_facts.
Import HostFs.

Lemma wf_lookup (fs : gmap (list string) node) (k : list string) (n : node) :
  wf fs → fs !! k = Some n →
  k ≠ [] ∧ stat fs (removelast k) = Some Dir ∧ Forall (λ c, valid_name c = true) k.
Proof. intros Hwf Hk. exact (map_Forall_lookup_1 _ _ _ _ Hwf Hk). Qed.

Lemma stat_lookup (fs : gmap (list string) node) (l : list string) :
  l ≠ [] → stat fs l = fs !! l.
Proof. by destruct l. Qed.

(** Whatever has something below it is a directory. *)
Lemma wf_ancestor (fs : gmap (list string) node) (l rel : list string) (n : node) :
  wf fs → rel ≠ [] → fs !! (l ++ rel) = Some n → stat fs l = Some Dir.
Proof.
  intros Hwf. revert n. induction rel as [|c rel IH] using rev_ind; [done|].
  intros n _ Hk. apply (wf_lookup _ _ _ Hwf) in Hk as (_ & Hp & _).
  rewrite app_assoc, removelast_last in Hp.
  destruct rel as [|d rel]; [by rewrite app_nil_r in Hp|].
  rewrite stat_lookup in Hp by (by destruct l). by eapply IH.
Qed.

Lemma wf_valid_names (fs : gmap (list string) node) (l rel : list string) (n : node) :
  wf fs → fs !! (l ++ rel) = Some n → Forall (λ c, valid_name c = true) rel.
Proof.
  intros Hwf Hk. apply (wf_lookup _ _ _ Hwf) in Hk as (_ & _ & Hv).
  by apply Forall_app in Hv as [_ ?].
Qed.

(** [rmtree] keeps the file system well formed. *)
Lemma wf_rmtree (fs : gmap (list string) node) (l : list string) :
  wf fs → wf (filter (λ kn : list string * node, ¬ l `prefix_of` kn.1) fs).
Proof.
  intros Hwf k n [Hk Hpre]%map_lookup_filter_Some. cbn in Hpre.
  destruct (wf_lookup _ _ _ Hwf Hk) as (Hne & Hp & Hv). split_and!; [done| |done].
  destruct (removelast k) as [|c p] eqn:E; [done|]. cbn in Hp |- *.
  apply map_lookup_filter_Some. split; [done|]. cbn. intros Hl. apply Hpre.
  rewrite (app_removelast_last "" Hne), E. by apply prefix_app_r.
Qed.

End wf_facts.

Section extraction.
Import PyStr HostFs Zip.

(** [T] is the file system the archive was made from, with the working area
    at [root]; the archive is extracted below [root']. *)
Context (T : gmap (list string) node) (root root' : list string).
Context (HT : wf T).
Local Abbreviation extracting := (extracting T root root').
Local Abbreviation on_the_way := (on_the_way T root root').

Lemma extracting_insert (fs : gmap (list string) node) (rel : list string) (n : node) :
  extracting fs → rel ≠ [] → T !! (root ++ rel) = Some n →
  extracting (<[root' ++ rel := n]> fs).
Proof.
  intros [Hanc Hsub] Hrel Hn. split.
  - intros k. specialize (Hanc k). destruct (take k root') as [|c l] eqn:E; [done|].
    cbn in Hanc |- *. rewrite lookup_insert_ne; [done|].
    intros Heq. apply (f_equal length) in Heq. rewrite <- E in Heq.
    rewrite length_app, length_take in Heq. destruct rel; [done|]. cbn in Heq. lia.
  - intros rel2 n2 Hrel2. destruct (decide (rel2 = rel)) as [->|Hne].
    + rewrite lookup_insert_eq. by intros [= <-].
    + rewrite lookup_insert_ne; [by apply Hsub|]. by intros ?%app_inv_head.
Qed.

Lemma extracting_root (fs : gmap (list string) node) :
  extracting fs → stat fs root' = Some Dir.
Proof. intros [Hanc _]. specialize (Hanc (length root')). by rewrite take_ge in Hanc. Qed.

Lemma on_the_way_stat (fs : gmap (list string) node) (l : list string) :
  extracting fs → on_the_way l → stat fs l = Some Dir ∨ stat fs l = None.
Proof.
  intros [Hanc Hsub] [[k ->]|(rel & Hrel & -> & Hn)]; [by left|].
  rewrite stat_lookup by (by destruct root', rel).
  destruct (fs !! (root' ++ rel)) as [n|] eqn:E; [|by right].
  left. apply Hsub in E; [|done]. congruence.
Qed.

Lemma makedirs_from_spec (names base : list string) (fs : gmap (list string) node) :
  extracting fs → stat fs base = Some Dir →
  (∀ k, 0 < k ≤ length names → on_the_way (base ++ take k names)) →
  ∃ fs', makedirs_from base names fs = Returns () fs'
         ∧ extracting fs' ∧ fs ⊆ fs' ∧ stat fs' (base ++ names) = Some Dir.
Proof.
  revert base fs. induction names as [|c names IH]; intros base fs Hfs Hbase Hway.
  { exists fs. by rewrite app_nil_r. }
  cbn [makedirs_from]. rewrite run_bind. cbn [gets id]. rewrite run_bind.
  assert (Hc : on_the_way (base ++ [c])).
  { apply (Hway 1). cbn. lia. }
  assert (Hrest : ∀ k, 0 < k ≤ length names →
            on_the_way ((base ++ [c]) ++ take k names)).
  { intros k Hk. rewrite <- app_assoc. apply (Hway (S k)). cbn. lia. }
  destruct (on_the_way_stat fs _ Hfs Hc) as [Hs|Hs]; rewrite Hs.
  - destruct (IH (base ++ [c]) fs Hfs Hs Hrest) as (fs' & Hrun & ? & ? & Hst).
    exists fs'. rewrite <- app_assoc in Hst. done.
  - unfold mkdir_at at 1. rewrite Hs, removelast_last, Hbase.
    rewrite bool_decide_eq_true_2 by done.
    destruct Hc as [[k Hk]|(rel & Hrel & Hl & Hn)].
    { destruct Hfs as [Hanc _]. rewrite Hk, Hanc in Hs. done. }
    assert (Hnew : extracting (<[base ++ [c] := Dir]> fs)).
    { rewrite Hl. by apply extracting_insert. }
    assert (Hst : stat (<[base ++ [c] := Dir]> fs) (base ++ [c]) = Some Dir).
    { rewrite stat_lookup by (by destruct base). apply lookup_insert_eq. }
    destruct (IH (base ++ [c]) _ Hnew Hst Hrest) as (fs' & Hrun & ? & Hsub & Hst').
    exists fs'. rewrite <- app_assoc in Hst'. split_and!; [done..| |done].
    etrans; [|done]. apply insert_subseteq.
    rewrite stat_lookup in Hs by (by destruct base). done.
Qed.

(** The places above an entry of [T] are on the way. *)
Lemma upper_on_the_way (rel0 : list string) (c : string) (n : node) (k : nat) :
  T !! (root ++ rel0 ++ [c]) = Some n →
  0 < k ≤ length (root' ++ rel0) → on_the_way (take k (root' ++ rel0)).
Proof.
  intros Hn Hk. rewrite length_app in Hk.
  destruct (decide (k ≤ length root')) as [Hle|Hgt].
  { left. exists k. by apply take_app_le. }
  right. exists (take (k - length root') rel0). split_and!.
  - intros E. apply (f_equal length) in E. rewrite length_take in E. cbn in E. lia.
  - rewrite take_app_ge by lia. done.
  - set (j := k - length root').
    assert (Hsplit : root ++ rel0 ++ [c] = (root ++ take j rel0) ++ (drop j rel0 ++ [c])).
    { by rewrite <- !app_assoc, (app_assoc (take j rel0)), take_drop. }
    rewrite Hsplit in Hn. apply wf_ancestor in Hn; [|done|by destruct (drop j rel0)].
    rewrite stat_lookup in Hn; [done|].
    intros [_ E]%app_eq_nil. apply (f_equal length) in E.
    rewrite length_take in E. cbn in E. lia.
Qed.

(** Extracting the member made for an entry of [T] puts the entry in
    place. *)
Lemma extract_member_spec (fs : gmap (list string) node) (rel : list string) (n : node) :
  extracting fs → rel ≠ [] → T !! (root ++ rel) = Some n →
  ∃ fs', extract_member root' (member_of rel n) fs = Returns () fs'
         ∧ extracting fs' ∧ fs ⊆ fs' ∧ fs' !! (root' ++ rel) = Some n.
Proof.
  intros Hfs Hrel Hn.
  pose proof (wf_valid_names _ _ _ _ HT Hn) as Hv.
  unfold extract_member. rewrite (arcname_parts_member _ _ Hrel Hv).
  rewrite (is_dir_member _ _ Hrel Hv), removelast_app by done.
  destruct rel as [|c rel0 _] using rev_ind; [done|]. rewrite removelast_last.
  rewrite run_bind. cbn [gets id]. rewrite run_bind.
  assert (Hup : ∃ fs1,
    (if bool_decide (stat fs (root' ++ rel0) = None)
     then makedirs_at (root' ++ rel0) else mret ()) fs = Returns () fs1
    ∧ extracting fs1 ∧ fs ⊆ fs1 ∧ stat fs1 (root' ++ rel0) = Some Dir).
  { case_bool_decide as Hs.
    - unfold makedirs_at.
      destruct (makedirs_from_spec (root' ++ rel0) [] fs Hfs eq_refl)
        as (fs1 & ? & ? & ? & ?); [|by exists fs1].
      intros k Hk. by eapply upper_on_the_way.
    - exists fs. split_and!; [done..|].
      destruct rel0 as [|d rel0].
      { rewrite app_nil_r. by apply extracting_root. }
      rewrite stat_lookup in * by (by destruct root').
      destruct (fs !! (root' ++ d :: rel0)) as [x|] eqn:E; [|done].
      destruct Hfs as [_ Hsub]. apply Hsub in E; [|done].
      rewrite app_assoc in Hn. apply wf_ancestor in Hn; [|done..].
      rewrite stat_lookup in Hn by (by destruct root). congruence. }
  destruct Hup as (fs1 & -> & Hfs1 & Hsub1 & Hup).
  assert (Htarget : stat fs1 (root' ++ rel0 ++ [c]) = fs1 !! (root' ++ rel0 ++ [c])).
  { apply stat_lookup. by destruct root', rel0. }
  assert (Hold : ∀ x, fs1 !! (root' ++ rel0 ++ [c]) = Some x → x = n).
  { intros x E. destruct Hfs1 as [_ Hs]. apply Hs in E; [congruence|by destruct rel0]. }
  assert (Hparent : removelast (root' ++ rel0 ++ [c]) = root' ++ rel0).
  { by rewrite app_assoc, removelast_last. }
  assert (Hins : ∀ fs2, fs2 = <[root' ++ rel0 ++ [c] := n]> fs1 →
            fs1 !! (root' ++ rel0 ++ [c]) = None ∨ fs1 !! (root' ++ rel0 ++ [c]) = Some n →
            extracting fs2 ∧ fs ⊆ fs2 ∧ fs2 !! (root' ++ rel0 ++ [c]) = Some n).
  { intros fs2 -> Hcur. split_and!.
    - apply extracting_insert; [done|by destruct rel0|done].
    - etrans; [done|]. destruct Hcur as [E|E]; [by apply insert_subseteq|].
      by rewrite insert_id.
    - apply lookup_insert_eq. }
  destruct n as [data|].
  - rewrite bool_decide_eq_false_2 by done. unfold write_at. rewrite Htarget.
    destruct (fs1 !! (root' ++ rel0 ++ [c])) as [[data'|]|] eqn:E.
    + eexists. split; [done|]. apply Hins; [done|]. right. f_equal. by apply Hold.
    + by specialize (Hold _ eq_refl).
    + rewrite Hparent, Hup, bool_decide_eq_true_2 by done.
      eexists. split; [done|]. apply Hins; [done|]. by left.
  - rewrite bool_decide_eq_true_2 by done. rewrite run_bind. cbn [gets id].
    rewrite Htarget. destruct (fs1 !! (root' ++ rel0 ++ [c])) as [x|] eqn:E.
    + rewrite (Hold x eq_refl), bool_decide_eq_true_2 by done.
      exists fs1. split_and!; [done..|]. by rewrite (Hold x eq_refl) in E.
    + rewrite bool_decide_eq_false_2 by done. unfold mkdir_at.
      rewrite Htarget, Hparent, Hup, bool_decide_eq_true_2 by done.
      eexists. split; [done|]. apply Hins; [done|]. by left.
Qed.

(** Extracting members made for entries of [T], in any order, puts each
    entry in place. *)
Lemma extract_members_spec (members : list member) (fs : gmap (list string) node) :
  extracting fs →
  Forall (λ m, ∃ rel n, rel ≠ [] ∧ T !! (root ++ rel) = Some n
                        ∧ m = member_of rel n) members →
  ∃ fs', extract_members root' members fs = Returns () fs'
         ∧ extracting fs' ∧ fs ⊆ fs'
         ∧ ∀ rel n, rel ≠ [] → T !! (root ++ rel) = Some n →
             member_of rel n ∈ members → fs' !! (root' ++ rel) = Some n.
Proof.
  intros Hfs Hms. revert fs Hfs.
  induction Hms as [|m members (rel & n & Hrel & Hn & ->) _ IH]; intros fs Hfs.
  { exists fs. split_and!; [done..|]. intros ???? Hin. by apply elem_of_nil in Hin. }
  cbn [extract_members]. rewrite run_bind.
  destruct (extract_member_spec fs rel n Hfs Hrel Hn)
    as (fs1 & Hrun1 & Hfs1 & Hsub1 & Hput).
  rewrite Hrun1.
  destruct (IH fs1 Hfs1) as (fs' & Hrun & Hfs' & Hsub' & Hall).
  exists fs'. split_and!; [done..|by etrans|].
  intros rel2 n2 Hrel2 Hn2 [Heq|Hin]%elem_of_cons; [|by apply Hall].
  destruct (extract_member_spec fs rel2 n2 Hfs Hrel2 Hn2)
    as (fs2 & Hrun2 & _ & _ & Hput2).
  rewrite Heq, Hrun1 in Hrun2. injection Hrun2 as <-.
  by eapply lookup_weaken.
Qed.

Lemma archive_members_sound :
  Forall (λ m, ∃ rel n, rel ≠ [] ∧ T !! (root ++ rel) = Some n
                        ∧ m = member_of rel n) (archive_members T root).
Proof.
  apply Forall_forall. intros m Hm. unfold archive_members in Hm.
  apply list_elem_of_omap in Hm as ([k n] & Hkn & Hf).
  apply elem_of_map_to_list in Hkn. cbn [fst snd] in Hf.
  destruct (bool_decide (root `prefix_of` k) && negb (bool_decide (k = root))) eqn:E;
    [|done].
  apply andb_true_iff in E as [[rel ->]%bool_decide_eq_true Hne%negb_true_iff].
  apply bool_decide_eq_false in Hne. injection Hf as <-.
  exists rel, n. rewrite drop_app_length. split_and!; [|done..].
  intros ->. by rewrite app_nil_r in Hne.
Qed.

Lemma archive_members_complete (rel : list string) (n : node) :
  rel ≠ [] → T !! (root ++ rel) = Some n → member_of rel n ∈ archive_members T root.
Proof.
  intros Hrel Hn. unfold archive_members. apply list_elem_of_omap.
  exists (root ++ rel, n). split; [by apply elem_of_map_to_list|]. cbn [fst snd].
  rewrite bool_decide_eq_true_2 by (by apply prefix_app_r).
  rewrite bool_decide_eq_false_2, drop_app_length; [done|].
  intros E. apply Hrel. apply (app_inv_head root). by rewrite app_nil_r.
Qed.

(** Extracting the archive of [T], its members in any order, rebuilds below
    [root'] what [T] has below [root]. *)
Lemma extract_archive (members : list member) (fs : gmap (list string) node) :
  members ≡ₚ archive_members T root → extracting fs →
  ∃ fs', extract_members root' members fs = Returns () fs'
         ∧ fs ⊆ fs'
         ∧ ∀ rel, rel ≠ [] → fs' !! (root' ++ rel) = T !! (root ++ rel).
Proof.
  intros Hperm Hfs.
  destruct (extract_members_spec members fs Hfs) as (fs' & Hrun & [_ Hsub] & ? & Hall).
  { rewrite Hperm. apply archive_members_sound. }
  exists fs'. split; [done|]. split; [done|]. intros rel Hrel.
  destruct (T !! (root ++ rel)) as [n|] eqn:E.
  - apply Hall; [done..|]. rewrite Hperm. by apply archive_members_complete.
  - destruct (fs' !! (root' ++ rel)) as [x|] eqn:E'; [|done].
    apply Hsub in E'; [congruence|done].
Qed.

End extraction.

Section namei_stable.
Import PyStr HostFs.

Lemma walk_none (fs : gmap (list string) node) (comps : list string) :
  foldl (namei_step fs) None comps = None.
Proof. by induction comps. Qed.

(** Path names keep their meaning when directories stay directories. *)
Lemma walk_mono (fs fs' : gmap (list string) node) (comps : list string)
    (cur : option (list string)) (l : list string) :
  (∀ x, stat fs x = Some Dir → stat fs' x = Some Dir) →
  foldl (namei_step fs) cur comps = Some l →
  foldl (namei_step fs') cur comps = Some l.
Proof.
  intros Hmono. revert cur. induction comps as [|c comps IH]; intros cur; [done|].
  cbn [foldl]. intros H.
  destruct (namei_step fs cur c) as [l1|] eqn:E; [|by rewrite walk_none in H].
  destruct (namei_step_inv _ _ _ _ E) as (l0 & -> & Hdir).
  assert (namei_step fs' (Some l0) c = Some l1) as ->; [|by apply IH].
  cbn in E |- *. by rewrite Hdir in E; rewrite (Hmono _ Hdir).
Qed.

Lemma stat_insert_fresh (fs : gmap (list string) node) (k x : list string) (n : node) :
  fs !! k = None → stat fs x = Some Dir → stat (<[k := n]> fs) x = Some Dir.
Proof.
  intros Hk. destruct x as [|c x]; [done|]. cbn. intros Hx.
  rewrite lookup_insert_ne; [done|]. congruence.
Qed.

Lemma namei_insert_fresh (fs : gmap (list string) node) (k l : list string)
    (n : node) (p : string) :
  fs !! k = None → namei fs p = Some l → namei (<[k := n]> fs) p = Some l.
Proof.
  intros Hk. unfold namei. case_bool_decide; [done|].
  apply walk_mono. intros x. by apply stat_insert_fresh.
Qed.

Lemma wf_prefix_dir (fs : gmap (list string) node) (l : list string) (k : nat) :
  wf fs → stat fs l = Some Dir → stat fs (take k l) = Some Dir.
Proof.
  intros Hwf Hl. destruct (decide (length l ≤ k)) as [?|Hlt]; [by rewrite take_ge|].
  destruct (take k l) as [|c t] eqn:E; [done|]. rewrite <- E.
  rewrite stat_lookup in Hl by (intros ->; cbn in Hlt; lia).
  rewrite <- (take_drop k l) in Hl. eapply wf_ancestor; [done| |done].
  intros E'. apply (f_equal length) in E'. rewrite length_drop in E'. cbn in E'. lia.
Qed.

End namei_stable.

Section round_trip.
Import PyStr HostFs Zip Shell.

Global Instance same_host_preorder : PreOrder same_host.
Proof.
  split; [by intros s|].
  intros s1 s2 s3 [? ?] [? ?]. unfold same_host. split; congruence.
Qed.

Lemma for_returns {A} (l : list A) (body : A → M State unit) :
  (∀ x st, ∃ st', body x st = Returns () st' ∧ same_host st st') →
  ∀ st, ∃ st', for_ l body st = Returns () st' ∧ same_host st st'.
Proof.
  intros Hbody. induction l as [|x l IH]; intros st; cbn [for_].
  { by exists st. }
  rewrite run_bind. destruct (Hbody x st) as (s1 & -> & H1).
  destruct (IH s1) as (s2 & -> & H2). exists s2. split; [done|by etrans].
Qed.

(** [read_vfs] on a live session returns, and touches the index only. *)
Lemma read_vfs_returns (st : State) (base : string) :
  vfs_path_extracted st = Some base →
  ∃ st', read_vfs st = Returns () st' ∧ same_host st st'.
Proof.
  intros Hbase. unfold read_vfs. rewrite run_bind. cbn [modify]. rewrite run_bind.
  cbn [gets id vfs_path_extracted set_files host]. rewrite Hbase.
  edestruct (for_returns (walk (host st) base)) as (st' & -> & Hst'); [|by exists st'].
  intros [[root dirs] fls] s. rewrite run_bind.
  edestruct (for_returns dirs) as (s1 & -> & H1).
  { intros dir s0. by eexists. }
  edestruct (for_returns fls) as (s2 & -> & H2).
  { intros file s0. by eexists. }
  exists s2. split; [done|by etrans].
Qed.

Lemma cleanup_run (st : State) (dir : string) (root : list string) :
  vfs_path_extracted st = Some dir →
  namei (host st) dir = Some root → stat (host st) root = Some Dir →
  cleanup st
  = Returns () (set_vfs_path_extracted None
      (set_host (filter (λ kn : list string * node, ¬ root `prefix_of` kn.1) (host st))
         (set_archive (Some (archive_members (host st) root)) st))).
Proof.
  intros Hlive Hroot Hdir. unfold cleanup. rewrite run_bind. cbn [gets id].
  rewrite Hlive. unfold exists_, os_stat, make_archive. rewrite Hroot. cbn [mbind option_bind].
  rewrite Hdir, !bool_decide_eq_true_2 by done.
  rewrite run_bind. cbn [modify]. rewrite run_bind. unfold on_host, rmtree.
  cbn [host set_archive]. by rewrite Hroot, Hdir.
Qed.

(** C9.  On a well-formed host, with the working area an existing
    directory: [cleanup] returns, having packed the working area; [load_vfs]
    on the result, into a directory [tmp] that [mkdir] can make, returns;
    and below [tmp]
    there is then exactly what there was below the working area, files with
    the same contents and directories. *)
Theorem archive_round_trip (st : State) (dir tmp : string) (root : list string)
    (Hwf : wf (host st))
    (Hlive : vfs_path_extracted st = Some dir)
    (Hroot : namei (host st) dir = Some root)
    (Hdir : stat (host st) root = Some Dir)
    (Htmp : endswith tmp "/" = false)
    (Hfresh : returned (mkdir tmp (host (final (cleanup st)))) = true) :
  ∃ st1 st2 root',
    cleanup st = Returns () st1
    ∧ archive st1 = Some (archive_members (host st) root)
    ∧ load_vfs tmp st1 = Returns () st2
    ∧ vfs_path_extracted st2 = Some tmp
    ∧ namei (host st2) tmp = Some root'
    ∧ ∀ rel, rel ≠ [] → host st2 !! (root' ++ rel) = host st !! (root ++ rel).
Proof.
  rewrite (cleanup_run st dir root Hlive Hroot Hdir) in *.
  cbn [final host set_vfs_path_extracted set_host] in Hfresh.
  set (host1 := filter _ (host st)) in *.
  set (st1 := set_vfs_path_extracted None _).
  assert (Hwf1 : wf host1) by (by apply wf_rmtree).
  destruct (mkdir tmp host1) as [[] fs1|?|?] eqn:Hmk; [clear Hfresh|done..].
  assert (Hmk' := Hmk). unfold mkdir in Hmk'.
  assert ((if PosixPath.all_slashes tmp then tmp else rstrip "/" tmp) = tmp) as Hsame.
  { destruct (PosixPath.all_slashes tmp); [done|]. by apply rstrip_slash_id. }
  rewrite Hsame in Hmk'.
  destruct (namei host1 tmp) as [root'|] eqn:Hroot'; [|done].
  unfold mkdir_at in Hmk'.
  destruct (stat host1 root') eqn:Hnew; [done|].
  case_bool_decide as Hparent; [|done]. injection Hmk' as <-.
  assert (Hne : root' ≠ []) by (by intros ->).
  rewrite stat_lookup in Hnew by done.
  assert (Hroot1 : namei (<[root' := Dir]> host1) tmp = Some root').
  { by apply namei_insert_fresh. }
  assert (Hext : extracting (host st) root root' (<[root' := Dir]> host1)).
  { split.
    - intros k. destruct (decide (length root' ≤ k)) as [?|Hlt].
      { rewrite take_ge, stat_lookup by done. apply lookup_insert_eq. }
      apply stat_insert_fresh; [done|].
      assert (take k root' = take k (removelast root')) as ->.
      { rewrite removelast_firstn_len. unfold firstn. fold (@take string).
        rewrite take_take. f_equal. lia. }
      by apply wf_prefix_dir.
    - intros rel n Hrel. rewrite lookup_insert_ne.
      2:{ intros E. apply Hrel. apply (app_inv_head root'). by rewrite app_nil_r. }
      intros E. apply wf_ancestor in E; [|done..].
      rewrite stat_lookup in E by done. congruence. }
  destruct (extract_archive (host st) root root' Hwf
              (archive_members (host st) root) _ (reflexivity _) Hext)
    as (fs2 & Hrun & Hsub2 & Hsame2).
  set (st2 := set_vfs_path_extracted (Some tmp) (set_host fs2 (set_host (<[root' := Dir]> host1) st1))).
  destruct (read_vfs_returns st2 tmp eq_refl) as (st3 & Hread & Hh & Hv).
  exists st1, st3, root'. split_and!; [done|done| | | |].
  - unfold load_vfs. rewrite run_bind. cbn [gets id]. cbn [archive st1 set_vfs_path_extracted set_host set_archive].
    rewrite run_bind. unfold on_host at 1. cbn [host st1 set_vfs_path_extracted set_host].
    fold host1. rewrite Hmk. rewrite run_bind. unfold on_host, extractall.
    cbn [host set_host]. rewrite Hroot1, Hrun. rewrite run_bind. cbn [modify].
    exact Hread.
  - by rewrite Hv.
  - rewrite Hh. cbn [host st2 set_vfs_path_extracted set_host].
    unfold namei in *. case_bool_decide; [done|].
    eapply walk_mono; [|exact Hroot1].
    intros x Hx. destruct x as [|c x]; [done|]. cbn in Hx |- *.
    by eapply lookup_weaken.
  - intros rel Hrel. rewrite Hh. by apply Hsame2.
Qed.

Lemma archive_round_trip_witness :
  wf (host Sample.session)
  ∧ vfs_path_extracted Sample.session = Some "/tmp/vfs"
  ∧ namei (host Sample.session) "/tmp/vfs" = Some ["tmp"; "vfs"]
  ∧ stat (host Sample.session) ["tmp"; "vfs"] = Some Dir
  ∧ endswith "/tmp/w" "/" = false
  ∧ returned (mkdir "/tmp/w" (host (final (cleanup Sample.session)))) = true
  ∧ ∃ st1 st2 root',
      cleanup Sample.session = Returns () st1
      ∧ load_vfs "/tmp/w" st1 = Returns () st2
      ∧ namei (host st2) "/tmp/w" = Some root'
      ∧ host st2 !! (root' ++ ["file1.txt"]) = Some (File Sample.file1)
      ∧ host st2 !! (root' ++ ["home"; "user"]) = Some Dir.
Proof.
  assert (H1 : wf (host Sample.session)).
  { unfold wf. apply map_Forall_to_list. vm_compute. repeat constructor; discriminate. }
  assert (H2 : vfs_path_extracted Sample.session = Some "/tmp/vfs") by reflexivity.
  assert (H3 : namei (host Sample.session) "/tmp/vfs" = Some ["tmp"; "vfs"])
    by (vm_compute; reflexivity).
  assert (H4 : stat (host Sample.session) ["tmp"; "vfs"] = Some Dir)
    by (vm_compute; reflexivity).
  assert (H5 : endswith "/tmp/w" "/" = false) by reflexivity.
  assert (H6 : returned (mkdir "/tmp/w" (host (final (cleanup Sample.session))))
               = true) by (vm_compute; reflexivity).
  split_and!; [exact H1|exact H2|exact H3|exact H4|exact H5|exact H6|].
  destruct (archive_round_trip Sample.session "/tmp/vfs" "/tmp/w" ["tmp"; "vfs"]
              H1 H2 H3 H4 H5 H6)
    as (st1 & st2 & root' & Hc & _ & Hl & _ & Hn & Hsame).
  exists st1, st2, root'. split_and!; [exact Hc|exact Hl|exact Hn|..].
  - rewrite Hsame by done. vm_compute. reflexivity.
  - rewrite Hsame by done. vm_compute. reflexivity.
Defined.

End round_trip.

(** ** Containment of paths *)

Section containment.
Import PyStr HostFs Shell.

(** A place reached on names that are neither empty, [.] nor [..] lies at
    or below the place the walk started from. *)
Lemma walk_below (fs : gmap (list string) node) (comps : list string)
    (l0 l : list string) :
  Forall (λ c, c ∉ [""; "."; ".."]) comps →
  foldl (namei_step fs) (Some l0) comps = Some l → l0 `prefix_of` l.
Proof.
  intros Hc. revert l0. induction Hc as [|c comps Hc _ IH]; intros l0; cbn [foldl].
  { by intros [= <-]. }
  intros H. destruct (namei_step fs (Some l0) c) as [l1|] eqn:E;
    [|by rewrite walk_none in H].
  apply IH in H. etrans; [|done]. cbn in E.
  destruct (stat fs l0) as [[]|]; [done| |done].
  rewrite !bool_decide_eq_false_2 in E.
  - injection E as <-. by apply prefix_app_r.
  - intros ->. apply Hc. set_solver.
  - intros ->. apply Hc. set_solver.
  - intros ->. apply Hc. set_solver.
Qed.

Lemma split_no_slash_parts (s : string) :
  Forall (λ c, has_char slash c = false) (split slash s).
Proof.
  induction s as [|c s IH]; [by repeat constructor|]. rewrite split_cons.
  case_bool_decide as Hc; [by constructor|].
  destruct (split slash s) as [|w ws]; inversion IH; subst; constructor; try done.
  - unfold has_char. cbn. rewrite bool_decide_eq_false_2; [done|congruence].
  - unfold has_char in *. cbn. rewrite bool_decide_eq_false_2; [done|congruence].
Qed.

Lemma normpath_step_clean (i : nat) (acc : list string) (c : string) :
  i ≠ 0 → has_char slash c = false → clean acc → clean (PosixPath.normpath_step i acc c).
Proof.
  intros Hi Hc Hacc. unfold PosixPath.normpath_step.
  destruct (bool_decide (c = "") || bool_decide (c = ".")) eqn:E1; [done|].
  apply orb_false_iff in E1 as [E1 E2].
  apply bool_decide_eq_false in E1. apply bool_decide_eq_false in E2.
  rewrite (bool_decide_eq_false_2 (i = 0)) by done. cbn [andb orb].
  assert (last acc ≠ Some "..") as Hlast.
  { intros Hl. apply last_Some in Hl as [acc' ->].
    apply Forall_app in Hacc as [_ Hl]. inversion Hl as [|?? [Hx _] _]; subst.
    apply Hx. set_solver. }
  rewrite (bool_decide_eq_false_2 (last acc = Some "..")) by done.
  rewrite orb_false_r. case_bool_decide as E3; cbn [negb].
  - subst c. destruct acc as [|a acc _] using rev_ind; [done|].
    rewrite removelast_last. by apply Forall_app in Hacc as [? _].
  - apply Forall_app. split; [done|]. constructor; [|done]. split; [|done].
    rewrite !elem_of_cons, elem_of_nil. intros [?|[?|[?|[]]]]; done.
Qed.

Lemma normpath_comps_clean (i : nat) (comps acc : list string) :
  i ≠ 0 → Forall (λ c, has_char slash c = false) comps → clean acc →
  clean (foldl (PosixPath.normpath_step i) acc comps).
Proof.
  intros Hi Hc. revert acc. induction Hc as [|c comps Hc _ IH]; intros acc Hacc; [done|].
  cbn [foldl]. apply IH. by apply normpath_step_clean.
Qed.

(** [normpath] of an absolute path: one or two slashes, then clean
    components. *)
Lemma normpath_absolute (p : string) :
  startswith p "/" = true →
  ∃ i comps, (i = 1 ∨ i = 2) ∧ clean comps
    ∧ comps = foldl (PosixPath.normpath_step i) [] (split slash p)
    ∧ PosixPath.normpath p = repeat_char slash i +:+ PyStr.join "/" comps.
Proof.
  intros Hp. unfold PosixPath.normpath.
  rewrite bool_decide_eq_false_2 by (by intros ->). rewrite Hp.
  set (i := if startswith p "//" && negb (startswith p "///") then 2 else 1).
  assert (Hi : i = 1 ∨ i = 2) by (subst i; destruct (_ && _); auto).
  exists i, (foldl (PosixPath.normpath_step i) [] (split slash p)).
  split_and!; [done| |done|].
  - apply normpath_comps_clean; [lia|apply split_no_slash_parts|constructor].
  - unfold or_else. by destruct Hi as [-> | ->].
Qed.

Lemma replace_id (a b : ascii) (s : string) :
  has_char a s = false → replace a b s = s.
Proof.
  unfold has_char. induction s as [|c s IH]; [done|]. cbn [contains replace].
  intros [Hc Hs]%orb_false_iff. apply bool_decide_eq_false in Hc.
  rewrite bool_decide_eq_false_2 by done. by rewrite IH.
Qed.

Lemma has_char_split (a : ascii) (s : string) :
  has_char a s = false → Forall (λ c, has_char a c = false) (split slash s).
Proof.
  unfold has_char. induction s as [|c s IH]; [by repeat constructor|].
  cbn [contains]. intros [Hc Hs]%orb_false_iff. apply bool_decide_eq_false in Hc.
  rewrite split_cons. specialize (IH Hs).
  assert (Hca : ∀ t, contains t a = false → contains (String c t) a = false).
  { intros t Ht. cbn. by rewrite Ht, bool_decide_eq_false_2. }
  destruct (bool_decide (c = slash)); [by constructor|].
  destruct (split slash s) as [|w ws]; inversion IH; subst; constructor; auto.
Qed.

Lemma has_char_join (a : ascii) (comps : list string) :
  a ≠ slash → Forall (λ c, has_char a c = false) comps →
  has_char a (PyStr.join "/" comps) = false.
Proof.
  intros Ha. induction 1 as [|c [|d comps] Hc Hcs IH]; [done|done|].
  rewrite join_cons2, has_char_app, Hc. unfold has_char in *. cbn [contains orb].
  rewrite IH. rewrite bool_decide_eq_false_2; [done|]. unfold slash in *. congruence.
Qed.

Lemma normpath_step_keeps (a : ascii) (i : nat) (acc : list string) (c : string) :
  has_char a c = false → Forall (λ c, has_char a c = false) acc →
  Forall (λ c, has_char a c = false) (PosixPath.normpath_step i acc c).
Proof.
  intros Hc Hacc. unfold PosixPath.normpath_step.
  repeat case_match; try done.
  - apply Forall_app. split; [done|]. by constructor.
  - destruct acc as [|x acc _] using rev_ind; [done|].
    rewrite removelast_last. by apply Forall_app in Hacc as [? _].
Qed.

Lemma normpath_comps_keep (a : ascii) (i : nat) (comps acc : list string) :
  Forall (λ c, has_char a c = false) comps → Forall (λ c, has_char a c = false) acc →
  Forall (λ c, has_char a c = false) (foldl (PosixPath.normpath_step i) acc comps).
Proof.
  intros Hc. revert acc. induction Hc as [|c comps Hc _ IH]; intros acc Hacc; [done|].
  cbn [foldl]. apply IH. by apply normpath_step_keeps.
Qed.

Lemma has_char_repeat (a c : ascii) (i : nat) :
  a ≠ c → has_char a (repeat_char c i) = false.
Proof.
  intros Ha. unfold has_char. induction i as [|i IH]; [done|]. cbn.
  rewrite IH, bool_decide_eq_false_2; [done|congruence].
Qed.

Lemma lstrip_repeat_slash (i : nat) (s : string) :
  lstrip "/" (repeat_char slash i +:+ s) = lstrip "/" s.
Proof.
  unfold lstrip. induction i as [|i IH]; [done|]. cbn [repeat_char].
  rewrite app_cons. cbn [lstrip_with]. by rewrite contains_slash, bool_decide_eq_true_2.
Qed.

Lemma join_clean_start (comps : list string) :
  clean comps → startswith (PyStr.join "/" comps) "/" = false.
Proof.
  intros Hc. destruct Hc as [|c comps [Hc Hs] _]; [done|].
  assert (c ≠ "") by (intros ->; apply Hc; set_solver).
  destruct c as [|a c]; [done|].
  assert (a ≠ slash).
  { intros ->. unfold has_char in Hs. cbn in Hs. by rewrite bool_decide_eq_true_2 in Hs. }
  assert (∀ t, startswith (String a t) "/" = false) as Hst.
  { intros t. cbn [startswith]. rewrite bool_decide_eq_false_2; [done|].
    unfold slash in *. congruence. }
  destruct comps as [|d comps]; [apply Hst|]. rewrite join_cons2, app_cons. apply Hst.
Qed.

Lemma join_keeps (a : ascii) (x y : string) :
  a ≠ slash → has_char a x = false → has_char a y = false →
  has_char a (PosixPath.join x y) = false.
Proof.
  intros Ha Hx Hy. unfold PosixPath.join. repeat case_match; try done.
  - by rewrite has_char_app, Hx, Hy.
  - rewrite !has_char_app, Hx, Hy. unfold has_char. cbn.
    rewrite bool_decide_eq_false_2; [done|]. unfold slash in *. congruence.
Qed.

(** X1.  Where the code does contain paths: an argument without
    backslashes, in an absolute current directory without backslashes,
    denotes a place at or below the working area, whatever [..] segments it
    has. *)
Theorem no_escape_without_backslash (st : State) (path root full : string)
    (rootloc l : list string)
    (Hlive : vfs_path_extracted st = Some root)
    (Hcwd : startswith (current_path st) "/" = true)
    (Hcwd_bs : has_char backslash (current_path st) = false)
    (Hpath_bs : has_char backslash path = false)
    (Hfull : get_full_path (normalize_path st path) st = Returns full st)
    (Hroot : namei (host st) root = Some rootloc)
    (Hl : namei (host st) full = Some l) :
  rootloc `prefix_of` l.
Proof.
  assert (Hbs : backslash ≠ slash) by done.
  unfold normalize_path in Hfull.
  set (p0 := if negb (startswith path "/")
             then PosixPath.join (current_path st) path else path) in *.
  assert (Hp0 : startswith p0 "/" = true).
  { subst p0. destruct (startswith path "/") eqn:E; [done|]. by apply join_absolute. }
  assert (Hp0_bs : has_char backslash p0 = false).
  { subst p0. destruct (startswith path "/"); [done|]. by apply join_keeps. }
  destruct (normpath_absolute p0 Hp0) as (i & comps & Hi & Hclean & Hcomps & Hnorm).
  rewrite Hnorm in Hfull.
  assert (Hcomps_bs : Forall (λ c, has_char backslash c = false) comps).
  { rewrite Hcomps. apply normpath_comps_keep; [|constructor]. by apply has_char_split. }
  rewrite replace_id in Hfull.
  2:{ rewrite has_char_app, has_char_repeat, has_char_join by done. done. }
  unfold get_full_path in Hfull. rewrite run_bind in Hfull. cbn [gets id] in Hfull.
  rewrite Hlive in Hfull.
  assert (startswith (repeat_char slash i +:+ PyStr.join "/" comps) "/" = true) as Hst.
  { apply startswith_slash_app. by destruct Hi as [-> | ->]. }
  rewrite Hst, lstrip_repeat_slash in Hfull.
  pose proof (join_clean_start comps Hclean) as Hj.
  rewrite (lstrip_slash_id _ Hj) in Hfull. injection Hfull as <-.
  assert (Hwalk : foldl (namei_step (host st)) (Some rootloc)
                    (split slash (PyStr.join "/" comps)) = Some l).
  { unfold namei in Hroot. case_bool_decide as Hne; [done|].
    unfold PosixPath.join in Hl. rewrite Hj, (bool_decide_eq_false_2 (root = "")) in Hl
      by done. cbn [orb] in Hl.
    destruct (endswith root "/") eqn:Hend.
    - destruct (endswith_inv _ Hend) as [r0 ->].
      change (r0 +:+ "/") with (r0 +:+ String slash "") in Hroot.
      rewrite split_app, foldl_app in Hroot. cbn [split foldl] in Hroot.
      destruct (namei_step_inv _ _ _ _ Hroot) as (l0 & Hr0 & _).
      rewrite Hr0 in Hroot. apply namei_step_empty in Hroot as ->.
      unfold namei in Hl. case_bool_decide; [done|].
      rewrite app_assoc_str in Hl.
      change ("/" +:+ PyStr.join "/" comps) with (String slash (PyStr.join "/" comps)) in Hl.
      by rewrite split_app, foldl_app, Hr0 in Hl.
    - unfold namei in Hl. case_bool_decide; [done|].
      change ("/" +:+ PyStr.join "/" comps) with (String slash (PyStr.join "/" comps)) in Hl.
      by rewrite split_app, foldl_app, Hroot in Hl. }
  destruct comps as [|c comps'].
  - cbn in Hwalk. destruct (stat (host st) rootloc) as [[]|]; [done| |done].
    by injection Hwalk as <-.
  - rewrite split_join in Hwalk; [|done|].
    + eapply walk_below; [|done]. eapply Forall_impl; [exact Hclean|].
      by intros ? [? _].
    + eapply Forall_impl; [exact Hclean|]. by intros ? [_ ?].
Qed.

Lemma no_escape_without_backslash_witness :
  vfs_path_extracted Sample.session = Some "/tmp/vfs"
  ∧ startswith (current_path Sample.session) "/" = true
  ∧ has_char backslash (current_path Sample.session) = false
  ∧ has_char backslash "../../home/user" = false
  ∧ get_full_path (normalize_path Sample.session "../../home/user") Sample.session
    = Returns "/tmp/vfs/home/user" Sample.session
  ∧ namei (host Sample.session) "/tmp/vfs" = Some ["tmp"; "vfs"]
  ∧ namei (host Sample.session) "/tmp/vfs/home/user" = Some ["tmp"; "vfs"; "home"; "user"]
  ∧ ["tmp"; "vfs"] `prefix_of` ["tmp"; "vfs"; "home"; "user"].
Proof.
  assert (H1 : vfs_path_extracted Sample.session = Some "/tmp/vfs") by reflexivity.
  assert (H2 : startswith (current_path Sample.session) "/" = true) by reflexivity.
  assert (H3 : has_char backslash (current_path Sample.session) = false) by reflexivity.
  assert (H4 : has_char backslash "../../home/user" = false) by reflexivity.
  assert (H5 : get_full_path (normalize_path Sample.session "../../home/user")
                 Sample.session
               = Returns "/tmp/vfs/home/user" Sample.session) by reflexivity.
  assert (H6 : namei (host Sample.session) "/tmp/vfs" = Some ["tmp"; "vfs"])
    by (vm_compute; reflexivity).
  assert (H7 : namei (host Sample.session) "/tmp/vfs/home/user"
               = Some ["tmp"; "vfs"; "home"; "user"]) by (vm_compute; reflexivity).
  split_and!; [exact H1|exact H2|exact H3|exact H4|exact H5|exact H6|exact H7|].
  exact (no_escape_without_backslash Sample.session _ _ _ _ _ H1 H2 H3 H4 H5 H6 H7).
Defined.

(** C1 fails on the code.  [normpath] sees one component in
    [/\..\..\etc\passwd] and keeps it; the replacement of the
    backslashes, which comes after, turns it into [//../../etc/passwd];
    [get_full_path] then maps it to [/tmp/vfs/../../etc/passwd], which
    denotes [/etc/passwd], outside the working area [/tmp/vfs]; and
    [head] prints that file. *)
Theorem backslash_escapes_working_area :
  normalize_path Sample.session crafted = "//../../etc/passwd"
  ∧ get_full_path (normalize_path Sample.session crafted) Sample.session
    = Returns "/tmp/vfs/../../etc/passwd" Sample.session
  ∧ namei (host Sample.session) "/tmp/vfs" = Some ["tmp"; "vfs"]
  ∧ namei (host Sample.session) "/tmp/vfs/../../etc/passwd" = Some ["etc"; "passwd"]
  ∧ ¬ ["tmp"; "vfs"] `prefix_of` ["etc"; "passwd"]
  ∧ stdout (final (head_file [crafted] Sample.session)) = ["root:x:0:0"].
Proof.
  split_and!; try (vm_compute; reflexivity).
  intros [k Hk]. discriminate Hk.
Qed.

End containment.

(** ** Invariants of a computation *)

Section preserves.
Import Shell.
Context (I : State → Prop).

Lemma preserves_ret {A} (a : A) : preserves I (mret a).
Proof. by intros st. Qed.

Lemma preserves_gets {A} (f : State → A) : preserves I (gets f).
Proof. by intros st. Qed.

Lemma preserves_raise {A} (e : exn) : preserves I (raise e : M State A).
Proof. by intros st. Qed.

Lemma preserves_sys_exit {A} (c : nat) : preserves I (sys_exit c : M State A).
Proof. by intros st. Qed.

Lemma preserves_modify (f : State → State) :
  (∀ st, I st → I (f st)) → preserves I (modify f).
Proof. intros H st. apply H. Qed.

Lemma preserves_bind {A B} (m : M State A) (k : A → M State B) :
  preserves I m → (∀ a, preserves I (k a)) → preserves I (m ≫= k).
Proof.
  intros Hm Hk st Hst. rewrite run_bind. specialize (Hm st Hst).
  destruct (m st) as [a s'|e s'|c s']; cbn [final] in *; [by apply Hk|done..].
Qed.

Lemma preserves_try {A} (m : M State A) (h : exn → M State A) :
  preserves I m → (∀ e, preserves I (h e)) → preserves I (try_except m h).
Proof.
  intros Hm Hh st Hst. unfold try_except. specialize (Hm st Hst).
  destruct (m st) as [a s'|e s'|c s']; cbn [final] in *; [done|by apply Hh|done].
Qed.

Lemma preserves_on_host {A} (m : M (gmap (list string) HostFs.node) A) :
  (∀ st fs, I st → I (set_host fs st)) → preserves I (on_host m).
Proof.
  intros H st Hst. unfold on_host. destruct (m (host st)); by apply H.
Qed.

Lemma preserves_for {A} (l : list A) (body : A → M State unit) :
  (∀ x, preserves I (body x)) → preserves I (for_ l body).
Proof.
  intros H. induction l as [|x l IH]; cbn [for_].
  - apply preserves_ret.
  - apply preserves_bind; [apply H|]. intros _. apply IH.
Qed.

End preserves.

Ltac preserves_step :=
  lazymatch goal with
  | |- preserves _ (mret _) => apply preserves_ret
  | |- preserves _ (gets _) => apply preserves_gets
  | |- preserves _ (raise _) => apply preserves_raise
  | |- preserves _ (sys_exit _) => apply preserves_sys_exit
  | |- preserves _ (_ ≫= _) => apply preserves_bind; [|intros ?]
  | |- preserves _ (try_except _ _) => apply preserves_try; [|intros ?]
  | |- preserves _ (Shell.for_ _ _) => apply preserves_for; intros ?
  | |- preserves _ (Shell.on_host _) => apply preserves_on_host; intros ? ?
  | |- preserves _ (modify _) => apply preserves_modify; intros ?
  | |- preserves _ (Shell.print _) => apply preserves_modify; intros ?
  | |- preserves _ (if ?b then _ else _) => destruct b
  | |- preserves _ (match ?x with _ => _ end) => destruct x
  end.

(** What the handlers keep: an invariant kept by the assignments a
    handler makes is kept by the handler. *)

Section frame.
Import PyStr HostFs Shell.
Context (I : State → Prop).
Context (Hstdout : ∀ st v, I st → I (set_stdout v st)).
Context (Hfiles : ∀ st v, I st → I (set_files v st)).
Context (Hhost : ∀ st v, I st → I (set_host v st)).
Context (Harchive : ∀ st v, I st → I (set_archive v st)).
Context (Hcwd : ∀ st v, I st → I (set_current_path v st)).
Context (Harea : ∀ st v, I st → I (set_vfs_path_extracted v st)).
Context (Hlog : ∀ st v w, I st → I (set_log_file w (set_log v st))).

Lemma read_vfs_keeps : preserves I read_vfs.
Proof. unfold read_vfs. repeat preserves_step; auto. Qed.

Lemma get_full_path_keeps (p : string) : preserves I (get_full_path p).
Proof. unfold get_full_path. repeat preserves_step; auto. Qed.

Lemma list_dir_keeps (args : list string) : preserves I (list_dir args).
Proof. unfold list_dir. repeat preserves_step; auto. Qed.

Lemma change_dir_keeps (args : list string) : preserves I (change_dir args).
Proof. unfold change_dir. repeat preserves_step; auto. Qed.

Lemma copy_file_keeps (args : list string) : preserves I (copy_file args).
Proof.
  unfold copy_file.
  repeat first [apply get_full_path_keeps | apply read_vfs_keeps | preserves_step]; auto.
Qed.

Lemma head_loop_keeps (n : nat) (text : string) : preserves I (head_loop n text).
Proof.
  revert text. induction n as [|n IH]; intros text; cbn [head_loop].
  - preserves_step.
  - repeat first [apply IH | preserves_step]; auto.
Qed.

Lemma open_read_keeps (path : string) : preserves I (on_host (open_read path)).
Proof.
  intros st Hst. unfold on_host, open_read.
  destruct (os_stat _ _) as [[]|]; cbn [final]; by rewrite set_host_id.
Qed.

Lemma open_text_keeps (path : string) : preserves I (on_host (open_text path)).
Proof.
  intros st Hst. unfold on_host, open_text. rewrite run_bind. unfold open_read.
  destruct (os_stat _ _) as [[data|]|]; [destruct (utf8_decode data)|..];
    cbn [final raise mret M_ret]; by rewrite set_host_id.
Qed.

Lemma head_file_keeps (args : list string) : preserves I (head_file args).
Proof.
  unfold head_file.
  repeat first [apply get_full_path_keeps | apply head_loop_keeps | apply open_text_keeps
               |preserves_step]; auto.
Qed.

Lemma cleanup_keeps : preserves I cleanup.
Proof. unfold cleanup. repeat preserves_step; auto. Qed.

Lemma log_action_keeps (now act : string) : preserves I (log_action now act).
Proof. intros st Hst. rewrite log_action_run. by apply Hlog. Qed.

End frame.

Section absolute.
Import PyStr HostFs Shell.

Lemma startswith_slash_prefix (a b : string) :
  startswith (a +:+ b) "/" = true → a ≠ "" → startswith a "/" = true.
Proof.
  destruct a as [|c a]; [done|]. rewrite app_cons. cbn [startswith].
  by rewrite !startswith_empty.
Qed.

Lemma has_char_prefix (c : ascii) (a b : string) :
  has_char c (a +:+ b) = false → has_char c a = false.
Proof. rewrite has_char_app. by intros [? _]%orb_false_iff. Qed.

Lemma has_char_replaced (a b : ascii) (s : string) :
  a ≠ b → has_char a (replace a b s) = false.
Proof.
  intros Hab. unfold has_char. induction s as [|c s IH]; [done|].
  cbn [replace contains]. rewrite IH, orb_false_r.
  apply bool_decide_eq_false. case_bool_decide; congruence.
Qed.

Lemma startswith_replace (a b : ascii) (s : string) :
  a ≠ slash → startswith s "/" = true → startswith (replace a b s) "/" = true.
Proof.
  intros Ha. destruct s as [|c s]; [done|]. cbn [startswith replace].
  rewrite !startswith_empty, !andb_true_r. intros <-%bool_decide_eq_true.
  rewrite (bool_decide_eq_false_2 (_ = a)) by (unfold slash in Ha; congruence).
  by apply bool_decide_eq_true_2.
Qed.

(** [dirname p] is a prefix of [p]. *)
Lemma dirname_prefix (p : string) : ∃ rest, p = PosixPath.dirname p +:+ rest.
Proof.
  unfold PosixPath.dirname, PosixPath.split.
  destruct (rsplit_slash_decomp p) as (Hp & _ & _).
  destruct (PosixPath.rsplit_slash p) as [h t]. cbn [fst snd] in *.
  destruct (negb _ && negb _); cbn [fst]; [|by exists t].
  destruct (rstrip_decomp h) as [j Hj]. exists (repeat_char slash j +:+ t).
  by rewrite <- app_assoc_str, <- Hj.
Qed.

(** In a session whose current directory is absolute, every argument
    normalizes to an absolute path without backslashes. *)
Lemma normalize_path_absolute (st : State) (path : string) :
  startswith (current_path st) "/" = true →
  startswith (normalize_path st path) "/" = true
  ∧ has_char backslash (normalize_path st path) = false.
Proof.
  intros Hcwd. unfold normalize_path. split; [|by apply has_char_replaced].
  apply startswith_replace; [done|].
  set (p0 := if negb (startswith path "/") then _ else _).
  assert (Hp0 : startswith p0 "/" = true).
  { subst p0. destruct (startswith path "/") eqn:E; [done|]. by apply join_absolute. }
  destruct (normpath_absolute p0 Hp0) as (i & comps & Hi & _ & _ & ->).
  apply startswith_slash_app. by destruct Hi as [-> | ->].
Qed.

Lemma rstrip_absolute (s : string) :
  startswith s "/" = true → has_char backslash s = false →
  startswith (or_else (rstrip "/" s) "/") "/" = true
  ∧ has_char backslash (or_else (rstrip "/" s) "/") = false.
Proof.
  intros Hs Hb. destruct (rstrip_decomp s) as [j Hj].
  destruct (rstrip "/" s) as [|c r] eqn:E; [done|]. cbn [or_else].
  rewrite Hj in Hs, Hb. split.
  - by eapply startswith_slash_prefix.
  - by eapply has_char_prefix.
Qed.

Lemma change_dir_absolute (args : list string) : preserves absolute_cwd (change_dir args).
Proof.
  intros st [Hs Hb]. unfold change_dir. destruct args as [|new_path more]; [done|].
  rewrite run_bind. cbn [gets id]. case_bool_decide as Hup.
  - destruct (negb _); [|done]. cbn [modify final current_path set_current_path].
    destruct (rstrip_absolute _ Hs Hb) as [Hs' Hb'].
    destruct (rstrip "/" (current_path st)) as [|c r] eqn:E; [done|].
    cbn [or_else] in Hs', Hb'.
    destruct (dirname_prefix (String c r)) as [rest Hrest].
    destruct (PosixPath.dirname (String c r)) as [|d x] eqn:Ed; [done|].
    cbn [or_else]. rewrite Hrest in Hs', Hb'. split.
    + by eapply startswith_slash_prefix.
    + by eapply has_char_prefix.
  - destruct (normalize_path_absolute st new_path Hs) as [Hn Hnb].
    set (pp := if negb (endswith (normalize_path st new_path) "/") then _ else _).
    assert (Hpp : rstrip "/" pp = rstrip "/" (normalize_path st new_path)).
    { subst pp. destruct (endswith _ _); [done|]. apply rstrip_slash_snoc. }
    destruct (existsb _ _); [|done].
    rewrite run_bind. cbn [modify]. rewrite run_bind. cbn [gets id current_path set_current_path].
    rewrite Hpp. destruct (rstrip_absolute _ Hn Hnb) as [Hs' Hb'].
    destruct (rstrip "/" (normalize_path st new_path)) as [|c r] eqn:E; [done|].
    rewrite bool_decide_eq_false_2 by done. done.
Qed.

Lemma execute_command_absolute (now line : string) :
  preserves absolute_cwd (execute_command now line).
Proof.
  unfold execute_command, clear_screen.
  repeat first
    [apply change_dir_absolute | apply list_dir_keeps | apply copy_file_keeps
    |apply head_file_keeps | apply cleanup_keeps | apply log_action_keeps
    |preserves_step]; done.
Qed.

(** X2.  Whatever the command line and however it ends, a current
    directory that is an absolute path without backslashes stays one: [cd]
    is the one command that assigns it, from a normalized path or from the
    directory of the old one.  So every argument normalizes to an absolute
    path afterwards, and [get_full_path] joins it onto the working area:
    its branch for relative paths is never taken. *)
Theorem cwd_stays_absolute (now line : string) (st : State)
    (Habs : absolute_cwd st) :
  absolute_cwd (final (execute_command now line st))
  ∧ ∀ path root,
      vfs_path_extracted (final (execute_command now line st)) = Some root →
      get_full_path (normalize_path (final (execute_command now line st)) path)
        (final (execute_command now line st))
      = Returns (PosixPath.join root
                   (lstrip "/" (normalize_path (final (execute_command now line st)) path)))
          (final (execute_command now line st)).
Proof.
  pose proof (execute_command_absolute now line st Habs) as Habs'.
  split; [done|]. intros path root Hlive.
  destruct Habs' as [Hs _].
  destruct (normalize_path_absolute _ path Hs) as [Hn _].
  unfold get_full_path. rewrite run_bind. cbn [gets id]. by rewrite Hlive, Hn.
Qed.

Lemma cwd_stays_absolute_witness :
  absolute_cwd Sample.session
  ∧ current_path (final (execute_command "2024-01-01T00:00:00" "cd home/../home/user"
                           Sample.session)) = "/home/user"
  ∧ absolute_cwd (final (execute_command "2024-01-01T00:00:00" "cd home/../home/user"
                           Sample.session)).
Proof.
  assert (H1 : absolute_cwd Sample.session) by (split; reflexivity).
  split; [exact H1|]. split; [vm_compute; reflexivity|].
  exact (proj1 (cwd_stays_absolute "2024-01-01T00:00:00" "cd home/../home/user"
                  Sample.session H1)).
Defined.

End absolute.

(** ** Commands that only read *)

Section read_only.
Import PyStr HostFs Shell.

Global Instance same_area_preorder : PreOrder same_area.
Proof.
  split; [by intros s|].
  intros s1 s2 s3 (?&?&?&?) (?&?&?&?). unfold same_area. split_and!; congruence.
Qed.

Lemma other_commands_area (now line : string) (st : State) :
  first_word line ≠ "cp" → first_word line ≠ "exit" →
  same_area st (final (execute_command now line st)).
Proof.
  unfold first_word. intros Hcp Hexit. unfold execute_command.
  case_bool_decide as Hblank; [done|].
  destruct (split_ws (strip_ws line)) as [|cmd args] eqn:Hs; [done|].
  cbn [hd] in *.
  rewrite (bool_decide_eq_false_2 (cmd = "exit")), (bool_decide_eq_false_2 (cmd = "cp"))
    by done.
  assert (Hpre : preserves (same_area st)
    ((if bool_decide (cmd = "ls") then list_dir args
      else if bool_decide (cmd = "cd") then change_dir args
      else if bool_decide (cmd = "head") then head_file args
      else if bool_decide (cmd = "clear") then clear_screen
      else print (cmd +:+ ": command not found"));; log_action now line)).
  { unfold clear_screen.
    repeat first [apply list_dir_keeps | apply change_dir_keeps | apply head_file_keeps
                 |apply log_action_keeps | preserves_step]; done. }
  by apply Hpre.
Qed.



End read_only.

(** ** [head] never fails *)

Section head_total.
Import PyStr HostFs Shell.

(** X4.  In a session with a working area, [head] returns for every
    argument list: it prints at most ten lines and changes nothing else.
    On a directory, [open] raises [IsADirectoryError]; the handler prints
    the text of the exception, which shows the path on the host, as
    [repr] writes it. *)
Theorem head_never_raises (st : State) (args : list string) (root : string)
    (Hlive : vfs_path_extracted st = Some root) :
  ∃ printed,
    head_file args st = Returns () (set_stdout (stdout st ++ printed) st)
    ∧ length printed ≤ 10
    ∧ ∀ arg0 more full,
        args = arg0 :: more →
        get_full_path (normalize_path st arg0) st = Returns full st →
        os_stat (host st) full = Some Dir →
        printed = ["head: error reading '" +:+ arg0
                   +:+ "': [Errno 21] Is a directory: " +:+ repr full].
Proof.
  destruct args as [|arg0 more].
  { exists ["head: missing file operand."]. split; [done|]. split; [cbn; lia|done]. }
  destruct (get_full_path_live (normalize_path st arg0) root st Hlive) as [full Hfull].
  unfold head_file. rewrite run_bind. cbn [gets id]. rewrite run_bind, Hfull.
  rewrite run_bind. cbn [gets id]. unfold exists_.
  destruct (os_stat (host st) full) as [[data|]|] eqn:Hstat.
  - rewrite bool_decide_eq_true_2 by done. cbn [negb].
    unfold try_except. rewrite run_bind. unfold on_host, open_text.
    rewrite run_bind. unfold open_read. rewrite Hstat.
    destruct (utf8_decode data) as [e|text]; cbn [mret M_ret raise];
      rewrite set_host_id.
    + cbn [print modify].
      eexists. split; [done|]. split; [cbn; lia|].
      intros ??? [= <- <-] Hf. rewrite Hf in Hfull. injection Hfull as <-. congruence.
    + rewrite head_loop_run.
      eexists. split; [done|]. split.
      * rewrite length_fmap, length_take. lia.
      * intros ??? [= <- <-] Hf. rewrite Hf in Hfull. injection Hfull as <-.
        congruence.
  - rewrite bool_decide_eq_true_2 by done. cbn [negb].
    unfold try_except. rewrite run_bind. unfold on_host, open_text.
    rewrite run_bind. unfold open_read. rewrite Hstat.
    rewrite set_host_id. cbn [print modify str_exn].
    eexists. split; [done|]. split; [cbn; lia|].
    intros ??? [= <- <-] Hf. rewrite Hf in Hfull. by injection Hfull as <-.
  - rewrite bool_decide_eq_false_2 by (by intros [? ?]). cbn [negb print modify].
    eexists. split; [done|]. split; [cbn; lia|].
    intros ??? [= <- <-] Hf. rewrite Hf in Hfull. injection Hfull as <-. congruence.
Qed.

Lemma head_never_raises_witness :
  vfs_path_extracted Sample.session = Some "/tmp/vfs"
  ∧ head_file ["/home"] Sample.session
    = Returns () (set_stdout
        ["head: error reading '/home': [Errno 21] Is a directory: '/tmp/vfs/home'"]
        Sample.session).
Proof.
  assert (H1 : vfs_path_extracted Sample.session = Some "/tmp/vfs") by reflexivity.
  split; [exact H1|].
  destruct (head_never_raises Sample.session ["/home"] "/tmp/vfs" H1)
    as (printed & -> & _ & Hdir).
  rewrite (Hdir "/home" [] "/tmp/vfs/home" eq_refl); [reflexivity|reflexivity|].
  vm_compute. reflexivity.
Defined.

End head_total.

(** ** [cp] of a file onto itself *)

Section cp_same.
Import PyStr HostFs Shell.

(** X5.  The working area being at an absolute path: when source and
    destination denote the same regular file, [cp] raises
    [SameFileError] from [shutil.copyfile], and so does
    [execute_command]; the state is as before: the file is untouched,
    nothing was printed, the index was not rebuilt, nothing was logged. *)
Theorem cp_onto_itself_raises (st : State)
    (src dest root full_src full_dest text now line : string)
    (Hlive : vfs_path_extracted st = Some root)
    (Habs : startswith root "/" = true)
    (Hsrc : get_full_path (normalize_path st src) st = Returns full_src st)
    (Hdest : get_full_path (normalize_path st dest) st = Returns full_dest st)
    (Hfile : os_stat (host st) full_src = Some (File text))
    (Hsame : namei (host st) full_dest = namei (host st) full_src)
    (Hline : split_ws (strip_ws line) = ["cp"; src; dest]) :
  copy_file [src; dest] st = Raises SameFileError st
  ∧ execute_command now line st = Raises SameFileError st.
Proof.
  assert (Hfile' : os_stat (host st) full_dest = Some (File text)).
  { unfold os_stat in *. by rewrite Hsame. }
  assert (Hcp : copy_file [src; dest] st = Raises SameFileError st).
  { unfold copy_file. rewrite run_bind. cbn [gets id].
    rewrite run_bind, Hsrc, run_bind, Hdest, run_bind. cbn [gets id].
    unfold exists_, isdir. rewrite Hfile.
    rewrite bool_decide_eq_true_2, bool_decide_eq_false_2 by done. cbn [negb].
    rewrite run_bind. unfold on_host at 1.
    rewrite makedirs_existing, set_host_id.
    2:{ eapply os_stat_dirname; [done|]. apply dirname_absolute.
        by eapply get_full_path_absolute. }
    rewrite run_bind. unfold on_host, copyfile.
    rewrite run_bind. cbn [gets id].
    assert (samefile (host st) full_src full_dest = true) as ->.
    { unfold samefile, exists_. rewrite Hfile, Hfile', Hsame.
      by rewrite !bool_decide_eq_true_2. }
    unfold raise. by rewrite set_host_id. }
  split; [done|].
  unfold execute_command. rewrite Hline.
  rewrite bool_decide_eq_false_2.
  2:{ intros E. rewrite E in Hline. done. }
  rewrite run_bind.
  rewrite (bool_decide_eq_false_2 ("cp" = "ls")) by done.
  rewrite (bool_decide_eq_false_2 ("cp" = "cd")) by done.
  rewrite (bool_decide_eq_false_2 ("cp" = "exit")) by done.
  rewrite (bool_decide_eq_true_2 ("cp" = "cp")) by done.
  by rewrite Hcp.
Qed.

Lemma cp_onto_itself_raises_witness :
  vfs_path_extracted Sample.session = Some "/tmp/vfs"
  ∧ startswith "/tmp/vfs" "/" = true
  ∧ get_full_path (normalize_path Sample.session "/file1.txt") Sample.session
    = Returns "/tmp/vfs/file1.txt" Sample.session
  ∧ get_full_path (normalize_path Sample.session "home/../file1.txt") Sample.session
    = Returns "/tmp/vfs/file1.txt" Sample.session
  ∧ os_stat (host Sample.session) "/tmp/vfs/file1.txt" = Some (File Sample.file1)
  ∧ split_ws (strip_ws "cp /file1.txt home/../file1.txt")
    = ["cp"; "/file1.txt"; "home/../file1.txt"]
  ∧ execute_command "2024-01-01T00:00:00" "cp /file1.txt home/../file1.txt" Sample.session
    = Raises SameFileError Sample.session.
Proof.
  assert (H1 : vfs_path_extracted Sample.session = Some "/tmp/vfs") by reflexivity.
  assert (H2 : startswith "/tmp/vfs" "/" = true) by reflexivity.
  assert (H3 : get_full_path (normalize_path Sample.session "/file1.txt")
                 Sample.session
               = Returns "/tmp/vfs/file1.txt" Sample.session) by reflexivity.
  assert (H4 : get_full_path (normalize_path Sample.session "home/../file1.txt")
                 Sample.session
               = Returns "/tmp/vfs/file1.txt" Sample.session) by reflexivity.
  assert (H5 : os_stat (host Sample.session) "/tmp/vfs/file1.txt"
               = Some (File Sample.file1)) by (vm_compute; reflexivity).
  assert (H6 : namei (host Sample.session) "/tmp/vfs/file1.txt"
               = namei (host Sample.session) "/tmp/vfs/file1.txt") by reflexivity.
  assert (H7 : split_ws (strip_ws "cp /file1.txt home/../file1.txt")
               = ["cp"; "/file1.txt"; "home/../file1.txt"]) by reflexivity.
  split_and!; [exact H1|exact H2|exact H3|exact H4|exact H5|exact H7|].
  exact (proj2 (cp_onto_itself_raises Sample.session _ _ _ _ _ _
                  "2024-01-01T00:00:00" _ H1 H2 H3 H4 H5 H6 H7)).
Defined.

End cp_same.

(** ** [tearDown] of the tests *)

Section fixtures.
Import PyStr HostFs Shell.

Lemma cleanup_then_tearDown (st st1 : State) :
  cleanup st = Returns () st1 → Tests.tearDown st1 = Returns () st1.
Proof.
  unfold cleanup. rewrite run_bind. cbn [gets id].
  destruct (vfs_path_extracted st) as [dir|] eqn:Hlive; [|done].
  destruct (exists_ (host st) dir) eqn:Hex.
  - destruct (Zip.make_archive (host st) dir) as [members|]; [|done].
    rewrite !run_bind. cbn [modify]. rewrite run_bind. unfold on_host.
    destruct (rmtree dir _) as [[] fs|e fs|c fs]; [|done..].
    cbn [modify]. by intros [= <-].
  - intros [= <-]. unfold Tests.tearDown. rewrite run_bind. cbn [gets id].
    rewrite Hlive. case_bool_decide; [done|].
    unfold cleanup. rewrite run_bind. cbn [gets id]. by rewrite Hlive, Hex.
Qed.

(** X6.  [tearDown] of the test class looks at [vfs_path_extracted]
    before it calls [cleanup], so it can run any number of times: running
    it twice is running it once, and after a [cleanup] that returned it
    returns and changes nothing (where a second [cleanup] raises). *)
Theorem tearDown_idempotent (st : State) :
  (Tests.tearDown;; Tests.tearDown) st = Tests.tearDown st
  ∧ ∀ st1, cleanup st = Returns () st1 → Tests.tearDown st1 = Returns () st1.
Proof.
  split; [|apply cleanup_then_tearDown].
  rewrite run_bind. unfold Tests.tearDown at 1 3. rewrite run_bind. cbn [gets id].
  destruct (vfs_path_extracted st) as [dir|] eqn:Hlive.
  - case_bool_decide as Hdir.
    + cbn. unfold Tests.tearDown. rewrite run_bind. cbn [gets id].
      by rewrite Hlive, bool_decide_eq_true_2.
    + destruct (cleanup st) as [[] st1|e st1|c st1] eqn:Hc; [|done..].
      by apply cleanup_then_tearDown in Hc.
  - cbn. unfold Tests.tearDown. rewrite run_bind. cbn [gets id]. by rewrite Hlive.
Qed.

Lemma tearDown_idempotent_witness :
  cleanup Sample.session = Returns () Sample.closed
  ∧ Tests.tearDown Sample.closed = Returns () Sample.closed.
Proof.
  assert (H1 : cleanup Sample.session = Returns () Sample.closed) by (vm_compute; reflexivity).
  split; [exact H1|].
  exact (proj2 (tearDown_idempotent Sample.session) Sample.closed H1).
Defined.

End fixtures.

(** ** The loop of [run] *)

Section run_loop.
Import PyStr HostFs Shell.

Lemma for_app {A} (l1 l2 : list A) (body : A → M State unit) (st : State) :
  for_ (l1 ++ l2) body st = (for_ l1 body;; for_ l2 body) st.
Proof.
  revert st. induction l1 as [|x l1 IH]; intros st; cbn [app for_]; [done|].
  rewrite !run_bind. destruct (body x st) as [[] s|e s|c s]; [|done..].
  by rewrite IH, run_bind.
Qed.

Lemma leave_never_returns (now : string) (st : State) : returned (leave now st) = false.
Proof.
  unfold leave. rewrite run_bind, log_action_run, run_bind.
  by destruct (cleanup _) as [[] s|e s|c s].
Qed.

Lemma leave_stdout (now : string) (out : list string) (st : State) :
  leave now (set_stdout out st) = map_final (set_stdout out) (leave now st)
  ∧ stdout (final (leave now st)) = stdout st.
Proof.
  unfold leave. rewrite !run_bind, !log_action_run, !run_bind.
  unfold cleanup. rewrite !run_bind. cbn [gets id vfs_path_extracted set_log_file set_log set_stdout host].
  destruct (vfs_path_extracted st) as [dir|]; [|done].
  destruct (exists_ (host st) dir); [|done].
  destruct (Zip.make_archive (host st) dir) as [members|]; [|done].
  rewrite !run_bind. cbn [modify]. rewrite !run_bind. unfold on_host.
  cbn [host set_archive set_log_file set_log set_stdout].
  by destruct (rmtree dir (host st)) as [[] fs|e fs|c fs].
Qed.

Lemma execute_command_exit (now line : string) (args : list string) (st : State) :
  split_ws (strip_ws line) = "exit" :: args →
  execute_command now line st = leave now st.
Proof.
  intros Hline. unfold execute_command. rewrite Hline.
  rewrite bool_decide_eq_false_2.
  2:{ intros E. by rewrite E in Hline. }
  rewrite (bool_decide_eq_false_2 ("exit" = "ls")) by done.
  rewrite (bool_decide_eq_false_2 ("exit" = "cd")) by done.
  rewrite (bool_decide_eq_true_2 ("exit" = "exit")) by done.
  rewrite run_bind. fold (leave now).
  pose proof (leave_never_returns now st). by destruct (leave now st) as [[] s|e s|c s].
Qed.

(** X7.  [run] never returns: it ends by [sys.exit] or by an exception.
    The end of the input is handled like the command [exit]: a session
    that types [exit] (with whatever arguments, and whatever would have
    been typed next) ends as the session whose input ends at that point,
    in the same way and in the same state, but for the farewell line that
    the latter prints first.  When a command before that point raises or
    exits, the two sessions end alike. *)
Theorem exit_like_end_of_input (clock : nat → string) (typed more : list string)
    (line : string) (args : list string) (st : State)
    (Hline : split_ws (strip_ws line) = "exit" :: args) :
  returned (run clock (typed ++ line :: more) st) = false
  ∧ returned (run clock typed st) = false
  ∧ run clock typed st
    = if returned (for_ typed (execute_command_at clock) st)
      then map_final (λ s, set_stdout (stdout s ++ [farewell]) s)
             (run clock (typed ++ line :: more) st)
      else run clock (typed ++ line :: more) st.
Proof.
  assert (Hexit : ∀ s, execute_command_at clock line s
                       = leave (clock (length (log s))) s).
  { intros s. unfold execute_command_at. rewrite run_bind. cbn [gets id].
    by apply execute_command_exit with args. }
  unfold run. rewrite !run_bind, for_app, run_bind.
  destruct (for_ typed (execute_command_at clock) st) as [[] s1|e s1|c s1];
    cbn [returned]; [|done..].
  cbn [for_]. rewrite !run_bind, !Hexit.
  cbn [print modify]. rewrite !run_bind. cbn [gets id log set_stdout].
  fold (leave (clock (length (log s1)))). unfold farewell.
  destruct (leave_stdout (clock (length (log s1)))
              (stdout s1 ++ [String LF "Exiting shell."]) s1) as [-> Hout].
  pose proof (leave_never_returns (clock (length (log s1))) s1) as Hnr.
  destruct (leave _ s1) as [[] s|e s|c s]; cbn [returned map_final final] in *;
    [done|by rewrite Hout..].
Qed.

Lemma exit_like_end_of_input_witness :
  split_ws (strip_ws "exit now") = ["exit"; "now"]
  ∧ run sample_clock ["cd home"] Sample.session
    = map_final (λ s, set_stdout (stdout s ++ [farewell]) s)
        (run sample_clock ["cd home"; "exit now"; "ls"] Sample.session).
Proof.
  assert (H1 : split_ws (strip_ws "exit now") = ["exit"; "now"]) by reflexivity.
  split; [exact H1|].
  pose proof (proj2 (proj2 (exit_like_end_of_input sample_clock ["cd home"] ["ls"]
                              "exit now" ["now"] Sample.session H1))) as H.
  assert (Hret : returned (for_ ["cd home"] (execute_command_at sample_clock)
                             Sample.session) = true) by (vm_compute; reflexivity).
  rewrite Hret in H. exact H.
Defined.

End run_loop.

(** ** The start-up script *)

Section startup.
Import PyStr HostFs Shell.






(** A start-up script that is not UTF-8: [f.read()] raises, no line runs,
    and [__init__] does not return. *)
Example startup_script_undecodable :
  run_startup_script sample_clock with_binary_script
  = Raises (UnicodeDecodeError (String "160" "") 0 1 "invalid start byte")
      with_binary_script.
Proof. vm_compute. reflexivity. Qed.

End startup.

(** ** What holds all along a session *)

Section session.
Import PyStr HostFs Shell.




Section commands.
Context (I : State → Prop).
Context (Hexec : ∀ now line, preserves I (execute_command now line)).




End commands.









End session.

(** ** Paths made of proper names *)

Section clean_paths.
Import PyStr HostFs Shell.

Lemma valid_clean (l : list string) :
  Forall (λ c, valid_name c = true) l → clean l.
Proof.
  intros H. eapply Forall_impl; [exact H|].
  intros c (? & ? & _)%valid_name_inv. by split.
Qed.

Lemma valid_no_slash (l : list string) :
  Forall (λ c, valid_name c = true) l → Forall (λ c, has_char slash c = false) l.
Proof.
  intros H. eapply Forall_impl; [exact H|]. by intros c (_ & ? & _)%valid_name_inv.
Qed.

Lemma valid_start (c : string) : valid_name c = true → startswith c "/" = false.
Proof.
  intros Hc. apply (join_clean_start [c]). apply valid_clean. by constructor.
Qed.

Lemma startswith_slash_cons (s : string) : startswith (String slash s) "/" = true.
Proof. cbn [startswith]. by rewrite startswith_empty, bool_decide_eq_true_2. Qed.

Lemma join_snoc (l : list string) (c : string) :
  l ≠ [] → PyStr.join "/" (l ++ [c]) = PyStr.join "/" l +:+ String slash c.
Proof.
  induction l as [|x [|y l] IH]; [done|done|]. intros _.
  change ((x :: y :: l) ++ [c]) with (x :: (y :: l) ++ [c]).
  change ((y :: l) ++ [c]) with (y :: l ++ [c]) at 1.
  rewrite join_cons2. change (y :: l ++ [c]) with ((y :: l) ++ [c]).
  rewrite IH by done. rewrite join_cons2.
  rewrite app_assoc_str. by rewrite app_cons.
Qed.

(** Joining a name onto an absolute path of names. *)
Lemma join_clean_name (l : list string) (c : string) :
  Forall (λ c, valid_name c = true) l → valid_name c = true →
  PosixPath.join (String slash (PyStr.join "/" l)) c
  = String slash (PyStr.join "/" (l ++ [c])).
Proof.
  intros Hl Hc. unfold PosixPath.join. rewrite (valid_start c Hc).
  rewrite (bool_decide_eq_false_2 (String slash _ = "")) by done. cbn [orb].
  destruct l as [|x l].
  - done.
  - rewrite endswith_cons by (apply join_nonempty; inversion Hl; subst;
      by apply valid_name_inv).
    rewrite endswith_join by done.
    rewrite join_snoc by done. rewrite app_cons. by f_equal.
Qed.

Lemma foldl_join_clean (rel l : list string) :
  Forall (λ c, valid_name c = true) (l ++ rel) →
  foldl PosixPath.join (String slash (PyStr.join "/" l)) rel
  = String slash (PyStr.join "/" (l ++ rel)).
Proof.
  revert l. induction rel as [|c rel IH]; intros l Hv; cbn [foldl].
  { by rewrite app_nil_r. }
  apply Forall_app in Hv as [Hl Hrel]. inversion Hrel as [|?? Hc Hrel']; subst.
  rewrite join_clean_name by done.
  rewrite IH, <- app_assoc; [done|].
  rewrite <- app_assoc. apply Forall_app. split; [done|]. by constructor.
Qed.

(** Joining names. *)
Lemma join_names (pre : list string) (c : string) :
  pre ≠ [] → Forall (λ c, valid_name c = true) pre → valid_name c = true →
  PosixPath.join (PyStr.join "/" pre) c = PyStr.join "/" (pre ++ [c]).
Proof.
  intros Hne Hpre Hc. unfold PosixPath.join. rewrite (valid_start c Hc).
  destruct pre as [|x pre]; [done|].
  rewrite bool_decide_eq_false_2.
  2:{ apply join_nonempty. inversion Hpre; subst. by apply valid_name_inv. }
  rewrite endswith_join by done. cbn [orb].
  rewrite join_snoc by done. done.
Qed.

Lemma foldl_join_names (l pre : list string) :
  pre ≠ [] → Forall (λ c, valid_name c = true) (pre ++ l) →
  foldl PosixPath.join (PyStr.join "/" pre) l = PyStr.join "/" (pre ++ l).
Proof.
  revert pre. induction l as [|c l IH]; intros pre Hne Hv; cbn [foldl].
  { by rewrite app_nil_r. }
  apply Forall_app in Hv as [Hpre Hl]. inversion Hl as [|?? Hc Hl']; subst.
  rewrite join_names by done.
  rewrite IH, <- app_assoc; [done|by destruct pre|].
  rewrite <- app_assoc. apply Forall_app. split; [done|]. by constructor.
Qed.

Lemma normpath_step_valid (i : nat) (acc : list string) (c : string) :
  valid_name c = true → PosixPath.normpath_step i acc c = acc ++ [c].
Proof.
  intros (Hc & _)%valid_name_inv. unfold PosixPath.normpath_step.
  rewrite (bool_decide_eq_false_2 (c = "")) by (intros ->; apply Hc; set_solver).
  rewrite (bool_decide_eq_false_2 (c = ".")) by (intros ->; apply Hc; set_solver).
  by rewrite (bool_decide_eq_false_2 (c = "..")) by (intros ->; apply Hc; set_solver).
Qed.

Lemma normpath_comps_valid (i : nat) (l acc : list string) :
  Forall (λ c, valid_name c = true) l →
  foldl (PosixPath.normpath_step i) acc l = acc ++ l.
Proof.
  intros Hl. revert acc. induction Hl as [|c l Hc _ IH]; intros acc; cbn [foldl].
  { by rewrite app_nil_r. }
  by rewrite normpath_step_valid, IH, <- app_assoc.
Qed.

Lemma split_abs (l : list string) :
  Forall (λ c, valid_name c = true) l →
  split slash (String slash (PyStr.join "/" l))
  = "" :: match l with [] => [""] | _ => l end.
Proof.
  intros Hl. rewrite split_cons, bool_decide_eq_true_2 by done. f_equal.
  destruct l as [|x l]; [done|]. apply split_join; [done|by apply valid_no_slash].
Qed.

(** An absolute path of names is normalized. *)
Lemma normpath_clean_fixed (l : list string) :
  Forall (λ c, valid_name c = true) l →
  PosixPath.normpath (String slash (PyStr.join "/" l)) = String slash (PyStr.join "/" l).
Proof.
  intros Hl. unfold PosixPath.normpath.
  rewrite bool_decide_eq_false_2 by done.
  rewrite startswith_slash_cons.
  assert (startswith (String slash (PyStr.join "/" l)) "//" = false) as ->.
  { cbn [startswith]. rewrite bool_decide_eq_true_2 by done. cbn [andb].
    apply join_clean_start. by apply valid_clean. }
  cbn [andb]. rewrite split_abs by done. cbn [foldl].
  unfold PosixPath.normpath_step at 2. rewrite bool_decide_eq_true_2 by done. cbn [orb].
  destruct l as [|x l]; [done|].
  by rewrite normpath_comps_valid.
Qed.

Lemma filter_nonempty_valid (l : list string) :
  Forall (λ c, valid_name c = true) l → filter (λ x, x ≠ "") l = l.
Proof.
  induction 1 as [|c l Hc _ IH]; [done|].
  apply valid_name_inv in Hc as (_ & _ & Hc). by rewrite filter_cons_True, IH.
Qed.

Lemma abspath_parts (l : list string) :
  Forall (λ c, valid_name c = true) l →
  filter (λ x, x ≠ "") (split slash (abspath (String slash (PyStr.join "/" l)))) = l.
Proof.
  intros Hl. unfold abspath.
  unfold PosixPath.join at 1. rewrite startswith_slash_cons.
  rewrite normpath_clean_fixed, split_abs by done.
  rewrite filter_cons_False by (by intros H; apply H).
  destruct l as [|x l]; [done|]. by apply filter_nonempty_valid.
Qed.

Lemma max_prefix_app (d rel : list string) : max_prefix d (d ++ rel) = ([], rel, d).
Proof.
  induction d as [|x d IH]; [done|]. cbn.
  destruct (decide_rel eq x x); [|done]. by rewrite IH.
Qed.

(** The path of an entry relative to the working area that holds it. *)
Lemma relpath_clean (d rel : list string) :
  rel ≠ [] → Forall (λ c, valid_name c = true) (d ++ rel) →
  relpath (String slash (PyStr.join "/" (d ++ rel))) (String slash (PyStr.join "/" d))
  = PyStr.join "/" rel.
Proof.
  intros Hne Hv. assert (Hv' := Hv). apply Forall_app in Hv' as [Hd Hrel].
  unfold relpath. rewrite !abspath_parts by done.
  rewrite max_prefix_app. cbn [length replicate app].
  destruct rel as [|x rel]; [done|].
  change x with (PyStr.join "/" [x]) at 1.
  by rewrite foldl_join_names.
Qed.

Lemma replace_same (a : ascii) (s : string) : replace a a s = s.
Proof.
  induction s as [|c s IH]; [done|]. cbn [replace]. rewrite IH.
  by case_bool_decide; subst.
Qed.

End clean_paths.

(** ** The index [read_vfs] builds *)

Section index.
Import PyStr HostFs Shell.

Lemma set_files_id (st : State) : set_files (files st) st = st.
Proof. by destruct st. Qed.

Lemma for_collect {A} (l : list A) (g : A → string) (st : State) :
  for_ l (λ x, modify (λ st, set_files (files st ++ [g x]) st)) st
  = Returns () (set_files (files st ++ (g <$> l)) st).
Proof.
  revert st. induction l as [|x l IH]; intros st; cbn [for_].
  - cbn. by rewrite app_nil_r, set_files_id.
  - rewrite run_bind. cbn [modify]. rewrite IH.
    cbn [files set_files fmap list_fmap]. by rewrite <- app_assoc.
Qed.

Lemma for_walk (base : string) (triples : list (string * list string * list string))
    (s : State) :
  for_ triples (λ '(root, dirs, fls),
    for_ dirs (λ dir,
      let full_dir_path := PosixPath.join root dir in
      let relative_path := relpath full_dir_path base in
      modify (λ st, set_files
        (files st ++ ["/" +:+ replace slash slash relative_path +:+ "/"]) st));;
    for_ fls (λ file,
      let full_path := PosixPath.join root file in
      let relative_path := relpath full_path base in
      modify (λ st, set_files
        (files st ++ ["/" +:+ replace slash slash relative_path]) st))) s
  = Returns () (set_files (files s ++ (triples ≫= triple_entries base)) s).
Proof.
  revert s. induction triples as [|[[root dirs] fls] triples IH]; intros s; cbn [for_].
  - cbn. by rewrite app_nil_r, set_files_id.
  - rewrite !run_bind.
    rewrite (for_collect dirs (λ dir, "/" +:+ replace slash slash
               (relpath (PosixPath.join root dir) base) +:+ "/")).
    rewrite (for_collect fls (λ file, "/" +:+ replace slash slash
               (relpath (PosixPath.join root file) base))).
    rewrite IH. cbn [files set_files mbind list_bind triple_entries].
    by rewrite <- !app_assoc.
Qed.

Lemma read_vfs_run (st : State) (base : string) :
  vfs_path_extracted st = Some base →
  read_vfs st = Returns () (set_files (index_list (host st) base) st).
Proof.
  intros Hlive. unfold read_vfs. rewrite run_bind. cbn [modify]. rewrite run_bind.
  cbn [gets id vfs_path_extracted set_files host]. rewrite Hlive.
  by rewrite for_walk.
Qed.

Lemma walk_names (fs : gmap (list string) node) (comps p : list string) :
  Forall (λ c, valid_name c = true) comps →
  (∀ k, k < length comps → stat fs (p ++ take k comps) = Some Dir) →
  foldl (namei_step fs) (Some p) comps = Some (p ++ comps).
Proof.
  intros Hv. revert p. induction Hv as [|c comps Hc _ IH]; intros p Hdirs; cbn [foldl].
  { by rewrite app_nil_r. }
  assert (namei_step fs (Some p) c = Some (p ++ [c])) as ->.
  { cbn. specialize (Hdirs 0 ltac:(cbn; lia)). cbn in Hdirs. rewrite app_nil_r in Hdirs.
    rewrite Hdirs. apply valid_name_inv in Hc as (Hc & _).
    rewrite (bool_decide_eq_false_2 (c = "")) by (intros ->; apply Hc; set_solver).
    rewrite (bool_decide_eq_false_2 (c = ".")) by (intros ->; apply Hc; set_solver).
    by rewrite (bool_decide_eq_false_2 (c = "..")) by (intros ->; apply Hc; set_solver). }
  rewrite IH, <- app_assoc; [done|].
  intros k Hk. specialize (Hdirs (S k) ltac:(cbn; lia)). cbn in Hdirs.
  by rewrite <- app_assoc.
Qed.

(** An absolute path of names denotes the place of these names, when the
    places on the way are directories. *)
Lemma namei_clean (fs : gmap (list string) node) (d : list string) :
  wf fs → stat fs d = Some Dir → Forall (λ c, valid_name c = true) d →
  namei fs (String slash (PyStr.join "/" d)) = Some d.
Proof.
  intros Hwf Hd Hv. unfold namei. rewrite bool_decide_eq_false_2 by done.
  rewrite split_abs by done. cbn [foldl]. rewrite namei_step_empty_dir by done.
  destruct d as [|x d]; [done|].
  apply (walk_names fs (x :: d) []); [done|].
  intros k _. by apply wf_prefix_dir.
Qed.

Lemma child_name_spec (k key : list string) (c : string) :
  child_name k key = Some c ↔ key = k ++ [c].
Proof.
  unfold child_name. split.
  - case_bool_decide as Hk; [|done].
    destruct (drop (length k) key) as [|c' [|]] eqn:Hdrop; [done| |done].
    intros [= <-]. by rewrite <- (take_drop (length k) key), Hk, Hdrop.
  - intros ->. rewrite take_app_length, bool_decide_eq_true_2 by done.
    by rewrite drop_app_length.
Qed.

Lemma scandir_spec (fs : gmap (list string) node) (k : list string) (c : string)
    (n : node) :
  (c, n) ∈ scandir fs k ↔ fs !! (k ++ [c]) = Some n.
Proof.
  unfold scandir. rewrite list_elem_of_omap. split.
  - intros ([key n'] & Hin%elem_of_map_to_list & Hc). cbn in Hc.
    destruct (child_name k key) as [c'|] eqn:Hchild; [|done].
    injection Hc as <- <-. by apply child_name_spec in Hchild as ->.
  - intros Hk. exists (k ++ [c], n). split; [by apply elem_of_map_to_list|].
    cbn. by rewrite (proj2 (child_name_spec k (k ++ [c]) c) eq_refl).
Qed.

Lemma dirnames_spec (fs : gmap (list string) node) (k : list string) (c : string) :
  c ∈ dirnames fs k ↔ fs !! (k ++ [c]) = Some Dir.
Proof.
  unfold dirnames. rewrite list_elem_of_omap. split.
  - intros ([c' n] & Hin%scandir_spec & Hc). cbn in Hc.
    destruct n; [done|]. by injection Hc as <-.
  - intros Hk. exists (c, Dir). split; [by apply scandir_spec|done].
Qed.

Lemma filenames_spec (fs : gmap (list string) node) (k : list string) (c : string) :
  c ∈ filenames fs k ↔ ∃ data, fs !! (k ++ [c]) = Some (File data).
Proof.
  unfold filenames. rewrite list_elem_of_omap. split.
  - intros ([c' n] & Hin%scandir_spec & Hc). cbn in Hc.
    destruct n as [data|]; [|done]. injection Hc as <-. by exists data.
  - intros [data Hk]. exists (c, File data). split; [by apply scandir_spec|done].
Qed.

Lemma subdirs_spec (fs : gmap (list string) node) (d k : list string) :
  k ∈ subdirs fs d
  ↔ k = d ∨ (fs !! k = Some Dir ∧ d `prefix_of` k ∧ k ≠ d).
Proof.
  unfold subdirs. rewrite elem_of_cons, list_elem_of_omap. split.
  - intros [->|([key n] & Hin%elem_of_map_to_list & Hk)]; [by left|right].
    cbn in Hk. destruct n; [done|].
    destruct (bool_decide (d `prefix_of` key) && negb (bool_decide (key = d))) eqn:E;
      [|done].
    injection Hk as <-. apply andb_true_iff in E as [E1 E2].
    apply bool_decide_eq_true in E1. apply negb_true_iff, bool_decide_eq_false in E2.
    done.
  - intros [->|(Hk & Hpre & Hne)]; [by left|right].
    exists (k, Dir). split; [by apply elem_of_map_to_list|]. cbn.
    by rewrite bool_decide_eq_true_2, bool_decide_eq_false_2 by done.
Qed.

(** The entry [read_vfs] makes for the child [c] of the directory at
    [d ++ relk], read from the working area at [d]. *)
Lemma index_entry_child (d relk : list string) (c : string) :
  Forall (λ c, valid_name c = true) (d ++ relk ++ [c]) →
  replace slash slash
    (relpath (PosixPath.join
                (foldl PosixPath.join (String slash (PyStr.join "/" d)) relk) c)
             (String slash (PyStr.join "/" d)))
  = PyStr.join "/" (relk ++ [c]).
Proof.
  intros Hv. rewrite replace_same.
  assert (Hv' := Hv). rewrite app_assoc in Hv'. apply Forall_app in Hv' as [Hk Hc].
  inversion Hc as [|?? Hc' _]; subst.
  rewrite foldl_join_clean, join_clean_name by done.
  rewrite <- app_assoc. apply relpath_clean; [by destruct relk|done].
Qed.

(** On a well-formed host, with the working area a directory at an
    absolute path of names: the paths [read_vfs] collects are those of the
    entries below the working area. *)
Lemma index_list_spec (fs : gmap (list string) node) (d : list string) (f : string) :
  wf fs → stat fs d = Some Dir → Forall (λ c, valid_name c = true) d →
  f ∈ index_list fs (String slash (PyStr.join "/" d))
  ↔ ∃ rel n, rel ≠ [] ∧ fs !! (d ++ rel) = Some n ∧ f = index_entry rel n.
Proof.
  intros Hwf Hd Hv. unfold index_list, walk.
  rewrite (namei_clean fs d Hwf Hd Hv), bool_decide_eq_true_2 by done.
  rewrite list_elem_of_bind.
  assert (Hsub : ∀ k, k ∈ subdirs fs d →
            ∃ relk, k = d ++ relk ∧ Forall (λ c, valid_name c = true) (d ++ relk)).
  { intros k [->|(Hk & [relk ->] & Hne)]%subdirs_spec.
    - exists []. by rewrite app_nil_r.
    - exists relk. split; [done|]. by apply (wf_lookup _ _ _ Hwf) in Hk as (_ & _ & ?). }
  split.
  - intros ([[root dirs] fls] & Hf & Htriple).
    apply list_elem_of_fmap in Htriple as (k & [= -> -> ->] & Hk).
    cbn [triple_entries] in Hf.
    destruct (Hsub k Hk) as (relk & -> & Hvk).
    rewrite drop_app_length in Hf.
    apply elem_of_app in Hf as [Hf|Hf];
      apply list_elem_of_fmap in Hf as (c & -> & Hc).
    + apply dirnames_spec in Hc. exists (relk ++ [c]), Dir.
      split; [by destruct relk|]. split; [by rewrite app_assoc|].
      rewrite index_entry_child; [done|].
      rewrite app_assoc. apply (wf_lookup _ _ _ Hwf) in Hc as (_ & _ & ?). done.
    + apply filenames_spec in Hc as [data Hc]. exists (relk ++ [c]), (File data).
      split; [by destruct relk|]. split; [by rewrite app_assoc|].
      rewrite index_entry_child; [done|].
      rewrite app_assoc. apply (wf_lookup _ _ _ Hwf) in Hc as (_ & _ & ?). done.
  - intros (rel & n & Hne & Hrel & ->).
    destruct rel as [|c relk _] using rev_ind; [done|].
    rewrite app_assoc in Hrel.
    assert (Hk : stat fs (d ++ relk) = Some Dir).
    { eapply (wf_ancestor fs (d ++ relk) [c]); done. }
    exists (foldl PosixPath.join (String slash (PyStr.join "/" d)) relk,
            dirnames fs (d ++ relk), filenames fs (d ++ relk)).
    split.
    + cbn [triple_entries].
      assert (Hvc : Forall (λ c, valid_name c = true) (d ++ relk ++ [c])).
      { rewrite app_assoc. by apply (wf_lookup _ _ _ Hwf) in Hrel as (_ & _ & ?). }
      apply elem_of_app. destruct n as [data|]; [right|left];
        apply list_elem_of_fmap; exists c.
      * split; [by rewrite index_entry_child|]. apply filenames_spec. by exists data.
      * split; [by rewrite index_entry_child|]. by apply dirnames_spec.
    + apply list_elem_of_fmap. exists (d ++ relk).
      split; [by rewrite drop_app_length|].
      apply subdirs_spec. destruct relk as [|x relk]; [left; by rewrite app_nil_r|right].
      split_and!.
      * rewrite stat_lookup in Hk; [done|by destruct d].
      * by apply prefix_app_r.
      * intros E. apply (f_equal length) in E. rewrite length_app in E. cbn in E. lia.
Qed.

End index.

Section index_theorem.
Import PyStr HostFs Shell.

Lemma double_slash_skip (c t : string) :
  has_char slash c = false → double_slash (c +:+ t) = double_slash t.
Proof.
  unfold has_char. induction c as [|a c IH]; [done|]. cbn [contains].
  intros [Ha Hc]%orb_false_iff. apply bool_decide_eq_false in Ha.
  rewrite app_cons. specialize (IH Hc).
  destruct (c +:+ t) as [|b s] eqn:E.
  - apply app_eq_empty in E as [_ ->]. done.
  - cbn [double_slash]. rewrite <- IH.
    by rewrite (bool_decide_eq_false_2 (a = slash)) by done.
Qed.

Lemma double_slash_name (c t : string) :
  valid_name c = true →
  double_slash (String slash (c +:+ t)) = double_slash t.
Proof.
  intros (_ & Hs & Hne)%valid_name_inv. rewrite <- (double_slash_skip c t Hs).
  destruct c as [|a c]; [done|]. rewrite app_cons. cbn [double_slash].
  unfold has_char in Hs. cbn [contains] in Hs. apply orb_false_iff in Hs as [Ha _].
  apply bool_decide_eq_false in Ha.
  by rewrite (bool_decide_eq_false_2 (a = slash)), andb_false_r by done.
Qed.

Lemma double_slash_join (rel : list string) (t : string) :
  rel ≠ [] → Forall (λ c, valid_name c = true) rel → double_slash t = false →
  double_slash (String slash (PyStr.join "/" rel +:+ t)) = false.
Proof.
  intros Hne Hv Ht. induction Hv as [|c rel Hc Hv IH]; [done|].
  destruct rel as [|y rel].
  - by rewrite double_slash_name.
  - rewrite join_cons2, app_assoc_str, double_slash_name by done.
    rewrite app_cons. by apply IH.
Qed.

Lemma index_entry_no_double_slash (rel : list string) (n : node) :
  rel ≠ [] → Forall (λ c, valid_name c = true) rel →
  double_slash (index_entry rel n) = false.
Proof.
  intros Hne Hv. destruct n as [data|]; cbn [index_entry].
  - rewrite <- (app_empty_r (PyStr.join "/" rel)). by apply double_slash_join.
  - by apply double_slash_join.
Qed.



End index_theorem.

(** ** [cd] and then [ls] *)

Section cd_ls.
Import PyStr HostFs Shell.

Lemma clean_valid (l : list string) :
  clean l → Forall (λ c, valid_name c = true) l.
Proof.
  intros H. eapply Forall_impl; [exact H|]. intros c [Hc Hs]. unfold valid_name.
  rewrite Hs. rewrite !bool_decide_eq_false_2; [done|..]; intros ->; apply Hc; set_solver.
Qed.

(** The normalized form of an argument without backslashes, in an
    absolute current directory without backslashes: one or two slashes,
    then names. *)
Lemma normalize_path_clean (st : State) (path : string) :
  absolute_cwd st → has_char backslash path = false →
  ∃ i comps, (i = 1 ∨ i = 2) ∧ Forall (λ c, valid_name c = true) comps
    ∧ normalize_path st path = repeat_char slash i +:+ PyStr.join "/" comps.
Proof.
  intros [Hcwd Hcwd_bs] Hpath_bs.
  assert (Hbs : backslash ≠ slash) by done.
  unfold normalize_path.
  set (p0 := if negb (startswith path "/")
             then PosixPath.join (current_path st) path else path) in *.
  assert (Hp0 : startswith p0 "/" = true).
  { subst p0. destruct (startswith path "/") eqn:E; [done|]. by apply join_absolute. }
  assert (Hp0_bs : has_char backslash p0 = false).
  { subst p0. destruct (startswith path "/"); [done|]. by apply join_keeps. }
  destruct (normpath_absolute p0 Hp0) as (i & comps & Hi & Hclean & Hcomps & Hnorm).
  exists i, comps. split; [done|]. split; [by apply clean_valid|].
  assert (Hcomps_bs : Forall (λ c, has_char backslash c = false) comps).
  { rewrite Hcomps. apply normpath_comps_keep; [|constructor]. by apply has_char_split. }
  rewrite Hnorm. apply replace_id.
  by rewrite has_char_app, has_char_repeat, has_char_join by done.
Qed.

Lemma double_slash_cons2 (x y : ascii) (s : string) :
  double_slash (String x (String y s))
  = (bool_decide (x = slash) && bool_decide (y = slash)) || double_slash (String y s).
Proof. reflexivity. Qed.

Lemma double_slash_prefix (a b : string) :
  double_slash a = true → double_slash (a +:+ b) = true.
Proof.
  induction a as [|x a IH]; [done|]. destruct a as [|y a]; [done|].
  rewrite !app_cons, !double_slash_cons2.
  intros [H|H]%orb_true_iff; [by rewrite H|].
  rewrite orb_true_iff. right. rewrite <- app_cons. by apply IH.
Qed.

Lemma list_dir_run (st : State) (args : list string) :
  list_dir args st
  = Returns () (set_stdout
      (stdout st ++ sorted (foldl (λ contents f, list_dir_add (ls_target st args) f contents)
                              ∅ (files st))) st).
Proof.
  unfold list_dir. rewrite run_bind. cbn [gets id]. rewrite for_print_run.
  do 3 f_equal. unfold ls_target. by destruct (endswith (normalize_path _ _) "/").
Qed.

Lemma change_dir_run (st : State) (new_path : string) (more : list string) :
  new_path ≠ ".." →
  change_dir (new_path :: more) st
  = if existsb (λ f, bool_decide (f = cd_target st new_path)
                     || startswith f (cd_target st new_path)) (files st)
    then Returns () (set_current_path
           (or_else (rstrip "/" (normalize_path st new_path)) "/") st)
    else Returns () (set_stdout
           (stdout st ++ ["cd: no such file or directory: " +:+ new_path]) st).
Proof.
  intros Hother. unfold change_dir. rewrite run_bind. cbn [gets id].
  rewrite bool_decide_eq_false_2 by done. unfold cd_target.
  destruct (endswith (normalize_path st new_path) "/") eqn:E; cbn [negb];
    (destruct (existsb _ _); [|done]);
    rewrite run_bind; unfold modify; rewrite run_bind;
    cbn [gets id current_path set_current_path]; rewrite ?rstrip_slash_snoc;
    (match goal with |- context [rstrip ?a ?b] => destruct (rstrip a b) end; done).
Qed.

(** X11.  Listing a directory by name and going there first give the
    same listing.  With the current directory an absolute path without
    backslashes, an index without empty segments, and an argument without
    backslashes (other than [..]) for which [cd] succeeds: [cd d] followed
    by [ls] prints what [ls d] prints, and ends in the same state but
    for the current directory, which is then the normalized argument. *)
Theorem ls_after_cd (st : State) (d : string)
    (Habs : absolute_cwd st)
    (Hd : has_char backslash d = false)
    (Hother : d ≠ "..")
    (Hindex : Forall (λ f, double_slash f = false) (files st))
    (Hcd : index_exists (files st) (cd_target st d)) :
  ∃ listing,
    list_dir [d] st = Returns () (set_stdout (stdout st ++ listing) st)
    ∧ (change_dir [d];; list_dir []) st
      = Returns () (set_stdout (stdout st ++ listing)
                      (set_current_path (normalize_path st d) st)).
Proof.
  eexists. split; [apply list_dir_run|].
  destruct (normalize_path_clean st d Habs Hd) as (i & comps & Hi & Hv & HN).
  assert (Hone : normalize_path st d = String slash (PyStr.join "/" comps)).
  { destruct Hi as [->| ->]; [by rewrite HN|]. exfalso.
    destruct Hcd as (f & Hf & Hpre).
    assert (double_slash f = true) as Hds.
    { assert (∃ rest, f = String slash (String slash rest)) as [rest ->];
        [|by rewrite double_slash_cons2, !bool_decide_eq_true_2].
      unfold cd_target in Hpre. rewrite HN in Hpre. cbn [repeat_char] in Hpre.
      rewrite !app_cons, app_empty_l in Hpre.
      destruct (endswith _ _); destruct Hpre as [->|[rest ->]];
        rewrite ?app_cons; eauto. }
    eapply Forall_forall in Hindex; [|done]. congruence. }
  assert (Hcwd : or_else (rstrip "/" (normalize_path st d)) "/" = normalize_path st d).
  { rewrite Hone. destruct comps as [|x comps]; [done|].
    rewrite rstrip_slash_id; [done|].
    rewrite endswith_cons by (apply join_nonempty; inversion Hv; subst;
      by apply valid_name_inv).
    by apply endswith_join. }
  rewrite run_bind, change_dir_run by done.
  apply index_exists_existsb in Hcd. rewrite Hcd, Hcwd.
  rewrite list_dir_run. cbn [stdout files set_current_path].
  do 3 f_equal.
  assert (ls_target (set_current_path (normalize_path st d) st) []
          = ls_target st [d]) as ->; [|done].
  unfold ls_target. cbn [current_path set_current_path].
  assert (normalize_path (set_current_path (normalize_path st d) st) (normalize_path st d)
          = normalize_path st d) as ->; [|done].
  unfold normalize_path at 1. cbn [current_path set_current_path].
  rewrite Hone, startswith_slash_cons. cbn [negb].
  rewrite normpath_clean_fixed by done. rewrite <- Hone.
  apply replace_id. apply normalize_path_absolute. by destruct Habs.
Qed.

Lemma ls_after_cd_witness :
  absolute_cwd Sample.session
  ∧ has_char backslash "home/../home" = false
  ∧ "home/../home" ≠ ".."
  ∧ Forall (λ f, double_slash f = false) (files Sample.session)
  ∧ index_exists (files Sample.session) (cd_target Sample.session "home/../home")
  ∧ list_dir ["home/../home"] Sample.session
    = Returns () (set_stdout ["user/"] Sample.session)
  ∧ (change_dir ["home/../home"];; list_dir []) Sample.session
    = Returns () (set_stdout ["user/"] (set_current_path "/home" Sample.session)).
Proof.
  assert (H1 : absolute_cwd Sample.session) by (split; reflexivity).
  assert (H2 : has_char backslash "home/../home" = false) by reflexivity.
  assert (H3 : "home/../home" ≠ "..") by discriminate.
  assert (H4 : Forall (λ f, double_slash f = false) (files Sample.session))
    by (vm_compute; repeat constructor).
  assert (H5 : index_exists (files Sample.session)
                 (cd_target Sample.session "home/../home")).
  { apply index_exists_existsb. by vm_compute. }
  destruct (ls_after_cd Sample.session "home/../home" H1 H2 H3 H4 H5)
    as (listing & Hls & Hcdls).
  assert (Hout : stdout (final (list_dir ["home/../home"] Sample.session)) = ["user/"])
    by (vm_compute; reflexivity).
  rewrite Hls in Hout. cbn [final stdout set_stdout] in Hout.
  change (stdout Sample.session) with (@nil string) in *. cbn [app] in *. subst listing.
  split_and!; [exact H1|exact H2|exact H3|exact H4|exact H5|exact Hls|exact Hcdls].
Defined.

End cd_ls.

(** ** The index is kept up to date *)

Section up_to_date.
Import PyStr HostFs Shell.

Lemma bind_returns {S A B} (m : M S A) (k : A → M S B) (s s' : S) (b : B) :
  (m ≫= k) s = Returns b s' → ∃ a s1, m s = Returns a s1 ∧ k a s1 = Returns b s'.
Proof. rewrite run_bind. destruct (m s) as [a s1|?|?]; [eauto|done..]. Qed.

Lemma read_vfs_current (st : State) :
  read_vfs st = Returns () st
  ↔ ∃ base, vfs_path_extracted st = Some base ∧ files st = index_list (host st) base.
Proof.
  split.
  - intros Hrun. destruct (vfs_path_extracted st) as [base|] eqn:Hlive.
    + exists base. split; [done|]. rewrite (read_vfs_run st base Hlive) in Hrun.
      injection Hrun as Hrun. by rewrite <- Hrun at 1.
    + unfold read_vfs in Hrun. rewrite run_bind in Hrun. cbn [modify] in Hrun.
      rewrite run_bind in Hrun. cbn [gets id vfs_path_extracted set_files] in Hrun.
      by rewrite Hlive in Hrun.
  - intros (base & Hlive & Hfiles). by rewrite (read_vfs_run st base Hlive), <- Hfiles, set_files_id.
Qed.

(** The state [read_vfs] returns is one that [read_vfs] leaves as it is. *)
Lemma read_vfs_made_current (s s' : State) :
  read_vfs s = Returns () s' → read_vfs s' = Returns () s'.
Proof.
  intros Hrun. apply read_vfs_current.
  destruct (vfs_path_extracted s) as [base|] eqn:Hlive.
  - rewrite (read_vfs_run s base Hlive) in Hrun. injection Hrun as <-. by exists base.
  - unfold read_vfs in Hrun. rewrite run_bind in Hrun. cbn [modify] in Hrun.
    rewrite run_bind in Hrun. cbn [gets id vfs_path_extracted set_files] in Hrun.
    by rewrite Hlive in Hrun.
Qed.

Lemma same_area_current (s s' : State) :
  same_area s s' → read_vfs s = Returns () s → read_vfs s' = Returns () s'.
Proof.
  intros (Hh & _ & Hf & Hv) (base & Hlive & Hfiles)%read_vfs_current.
  apply read_vfs_current. exists base. by rewrite Hh, Hf, Hv.
Qed.

Lemma copy_file_current (args : list string) (st st' : State) :
  read_vfs st = Returns () st → copy_file args st = Returns () st' →
  read_vfs st' = Returns () st'.
Proof.
  intros Hcur. unfold copy_file.
  assert (Hprint : ∀ x s, print x st = Returns () s → read_vfs s = Returns () s).
  { intros x s [= <-]. by apply (same_area_current st). }
  destruct args as [|src [|dest [|]]]; [by apply Hprint..| |by apply Hprint].
  rewrite run_bind. cbn [gets id].
  intros (full_src & s1 & H1 & Hrun)%bind_returns.
  apply get_full_path_inv in H1 as [-> _].
  apply bind_returns in Hrun as (full_dest & s2 & H2 & Hrun).
  apply get_full_path_inv in H2 as [-> _].
  rewrite run_bind in Hrun. cbn [gets id] in Hrun.
  destruct (negb _); [by apply (Hprint _ _ Hrun)|].
  destruct (isdir _ _); [by apply (Hprint _ _ Hrun)|].
  apply bind_returns in Hrun as ([] & s3 & _ & Hrun).
  apply bind_returns in Hrun as ([] & s4 & _ & Hrun).
  by apply read_vfs_made_current in Hrun.
Qed.

(** X12.  The index is always the one [read_vfs] would build: [load_vfs]
    ends with it so, and every command line that returns keeps it so ([cp]
    rebuilds it after copying, and no other command that returns touches
    the files).  Said with the code: once [load_vfs] has returned, and
    after each command, a call of [read_vfs] would leave the state as it
    is. *)
Theorem index_stays_current (now line : string) (st st' : State)
    (Hcurrent : read_vfs st = Returns () st)
    (Hrun : execute_command now line st = Returns () st') :
  read_vfs st' = Returns () st'
  ∧ ∀ tmp s0 s, load_vfs tmp s0 = Returns () s → read_vfs s = Returns () s.
Proof.
  split.
  - pose proof (other_commands_area now line st) as Hother.
    unfold first_word in Hother. unfold execute_command in Hrun.
    case_bool_decide as Hblank; [by injection Hrun as <-|].
    destruct (split_ws (strip_ws line)) as [|cmd args] eqn:Hs; [done|].
    cbn [hd] in Hother.
    destruct (decide (cmd = "exit")) as [->|Hexit].
    { rewrite (bool_decide_eq_false_2 ("exit" = "ls")) in Hrun by done.
      rewrite (bool_decide_eq_false_2 ("exit" = "cd")) in Hrun by done.
      rewrite (bool_decide_eq_true_2 ("exit" = "exit")) in Hrun by done.
      rewrite !run_bind, log_action_run, run_bind in Hrun.
      by destruct (cleanup _) as [[] s|?|?]. }
    destruct (decide (cmd = "cp")) as [->|Hcp].
    + rewrite (bool_decide_eq_false_2 ("cp" = "ls")) in Hrun by done.
      rewrite (bool_decide_eq_false_2 ("cp" = "cd")) in Hrun by done.
      rewrite (bool_decide_eq_false_2 ("cp" = "exit")) in Hrun by done.
      rewrite (bool_decide_eq_true_2 ("cp" = "cp")) in Hrun by done.
      apply bind_returns in Hrun as ([] & s1 & Hcopy & Hlog).
      apply (copy_file_current _ _ _ Hcurrent) in Hcopy.
      rewrite log_action_run in Hlog. injection Hlog as <-.
      by apply (same_area_current s1).
    + apply (same_area_current st); [|done].
      assert (st' = final (execute_command now line st)) as ->.
      { unfold execute_command. rewrite bool_decide_eq_false_2, Hs by done.
        by rewrite Hrun. }
      by apply Hother.
  - intros tmp s0 s. unfold load_vfs. rewrite run_bind. cbn [gets id].
    destruct (archive s0) as [members|]; [|done].
    intros ([] & s1 & _ & Hload)%bind_returns.
    apply bind_returns in Hload as ([] & s2 & _ & Hload).
    apply bind_returns in Hload as ([] & s3 & _ & Hload).
    by apply read_vfs_made_current in Hload.
Qed.

Lemma index_stays_current_witness :
  read_vfs Sample.session = Returns () Sample.session
  ∧ execute_command "2024-01-01T00:00:00" "cp /file1.txt /home/user/copy.txt"
      Sample.session = Returns () copied
  ∧ "/home/user/copy.txt" ∈ files copied
  ∧ read_vfs copied = Returns () copied.
Proof.
  assert (H1 : read_vfs Sample.session = Returns () Sample.session)
    by (vm_compute; reflexivity).
  assert (H2 : execute_command "2024-01-01T00:00:00" "cp /file1.txt /home/user/copy.txt"
                 Sample.session = Returns () copied) by (vm_compute; reflexivity).
  split; [exact H1|]. split; [exact H2|]. split.
  - apply (bool_decide_unpack _). vm_compute. exact I.
  - exact (proj1 (index_stays_current _ _ _ _ H1 H2)).
Defined.

End up_to_date.

(** ** [cd] and the directories of the working area *)

Section cd_directories.
Import PyStr HostFs Shell.

Lemma slash_app (x : string) : "/" +:+ x = String slash x.
Proof. reflexivity. Qed.

(** An entry of the index under the directory at the names [comps]: the
    directory itself, or something below it. *)
Lemma entry_under (rel comps : list string) (n : node) (rest : string) :
  rel ≠ [] → comps ≠ [] →
  Forall (λ c, valid_name c = true) rel → Forall (λ c, valid_name c = true) comps →
  index_entry rel n = "/" +:+ PyStr.join "/" comps +:+ "/" +:+ rest →
  (rel = comps ∧ n = Dir) ∨ (∃ more, more ≠ [] ∧ rel = comps ++ more).
Proof.
  intros Hrel Hcomps Hvr Hvc Heq.
  assert (Hsplit : split slash (PyStr.join "/" comps +:+ String slash rest)
                   = comps ++ split slash rest).
  { by rewrite split_app, split_join by (done || by apply valid_no_slash). }
  destruct n as [data|]; cbn [index_entry] in Heq; rewrite !slash_app in Heq.
  - right. exists (split slash rest). split; [apply split_nonempty|].
    injection Heq as Heq. apply (f_equal (split slash)) in Heq.
    by rewrite Hsplit, split_join in Heq by (done || by apply valid_no_slash).
  - injection Heq as Heq.
    change (PyStr.join "/" rel +:+ "/") with (PyStr.join "/" rel +:+ String slash "")
      in Heq.
    apply (f_equal (split slash)) in Heq.
    rewrite split_app, split_join, Hsplit in Heq by (done || by apply valid_no_slash).
    cbn [split] in Heq.
    pose proof (split_nonempty rest) as Hne.
    destruct (split slash rest) as [|x s' _] using rev_ind; [done|].
    rewrite app_assoc in Heq. apply app_inj_tail in Heq as [-> _].
    destruct s' as [|y s']; [left; by rewrite app_nil_r|right].
    by exists (y :: s').
Qed.

Lemma index_entry_start (rel : list string) (n : node) :
  ∃ rest, index_entry rel n = "/" +:+ rest.
Proof. destruct n; cbn [index_entry]; eauto. Qed.

(** X13.  On a well-formed host, with the working area a directory at an
    absolute path of names and the index up to date: for an argument
    (other than [..]) that normalizes to [/] and the names [comps] joined
    by [/], [cd] succeeds exactly when the host has a directory at these
    names below the working area, and the current directory is then the
    normalized path; otherwise it prints its message and the state is as
    before.  For the working area itself (no names) [cd] succeeds exactly
    when the working area holds something: in an empty one, [cd /]
    fails. *)
Theorem cd_finds_directories (st : State) (d comps : list string) (arg : string)
    (more : list string)
    (Hwf : wf (host st))
    (Hlive : vfs_path_extracted st = Some ("/" +:+ PyStr.join "/" d))
    (Hd : stat (host st) d = Some Dir)
    (Hcurrent : read_vfs st = Returns () st)
    (Hother : arg ≠ "..")
    (Hcomps : Forall (λ c, valid_name c = true) comps)
    (Hnorm : normalize_path st arg = "/" +:+ PyStr.join "/" comps) :
  (listed_directory (host st) d comps →
   change_dir (arg :: more) st
   = Returns () (set_current_path ("/" +:+ PyStr.join "/" comps) st))
  ∧ (¬ listed_directory (host st) d comps →
     change_dir (arg :: more) st
     = Returns () (set_stdout
         (stdout st ++ ["cd: no such file or directory: " +:+ arg]) st)).
Proof.
  assert (Hv : Forall (λ c, valid_name c = true) d).
  { destruct d as [|x d]; [done|]. by apply (wf_lookup _ _ _ Hwf) in Hd as (_ & _ & ?). }
  assert (Hfiles : ∀ f, f ∈ files st
            ↔ ∃ rel n, rel ≠ [] ∧ host st !! (d ++ rel) = Some n ∧ f = index_entry rel n).
  { intros f. apply read_vfs_current in Hcurrent as (base & Hbase & ->).
    rewrite Hlive in Hbase. injection Hbase as <-.
    by apply (index_list_spec (host st) d f). }
  assert (Hiff : index_exists (files st) (cd_target st arg)
                 ↔ listed_directory (host st) d comps).
  { unfold index_exists, cd_target. rewrite Hnorm.
    destruct comps as [|c comps]; cbn [listed_directory].
    - change (endswith ("/" +:+ PyStr.join "/" []) "/") with true. cbv iota. split.
      + intros (f & (rel & n & ? & ? & _)%Hfiles & _). eauto.
      + intros (rel & n & Hrel & Hn). exists (index_entry rel n).
        split; [apply Hfiles; eauto|]. right. apply index_entry_start.
    - assert (endswith ("/" +:+ PyStr.join "/" (c :: comps)) "/" = false) as ->.
      { change ("/" +:+ ?x) with (String slash x).
        rewrite endswith_cons by (apply join_nonempty; inversion Hcomps; subst;
          by apply valid_name_inv).
        by apply endswith_join. }
      split.
      + intros (f & (rel & n & Hrel & Hn & ->)%Hfiles & Hpre).
        assert (∃ rest, index_entry rel n
                  = "/" +:+ PyStr.join "/" (c :: comps) +:+ "/" +:+ rest) as [rest Heq].
        { destruct Hpre as [->|[rest ->]].
          - exists "". by rewrite !app_assoc_str.
          - exists rest. by rewrite !app_assoc_str. }
        apply entry_under in Heq as [[-> ->]|(more' & Hmore & ->)];
          [done| |done|done|by eapply wf_valid_names|done].
        rewrite app_assoc in Hn. apply wf_ancestor in Hn; [|done..].
        rewrite stat_lookup in Hn; [done|by destruct d].
      + intros Hdir. exists (index_entry (c :: comps) Dir).
        split; [apply Hfiles; by exists (c :: comps), Dir|].
        left. cbn [index_entry]. by rewrite !app_assoc_str. }
  assert (Hcwd : or_else (rstrip "/" (normalize_path st arg)) "/"
                 = "/" +:+ PyStr.join "/" comps).
  { rewrite Hnorm. destruct comps as [|x comps]; [done|].
    change ("/" +:+ ?x) with (String slash x).
    rewrite rstrip_slash_id; [done|].
    rewrite endswith_cons by (apply join_nonempty; inversion Hcomps; subst;
      by apply valid_name_inv).
    by apply endswith_join. }
  rewrite (change_dir_run st arg more Hother), Hcwd.
  rewrite index_exists_existsb in Hiff. split; intros H.
  - apply Hiff in H. by rewrite H.
  - destruct (existsb _ _); [|done]. destruct H. by apply Hiff.
Qed.

Lemma cd_finds_directories_witness :
  wf (host Sample.session)
  ∧ vfs_path_extracted Sample.session = Some ("/" +:+ PyStr.join "/" ["tmp"; "vfs"])
  ∧ stat (host Sample.session) ["tmp"; "vfs"] = Some Dir
  ∧ read_vfs Sample.session = Returns () Sample.session
  ∧ "home/./user/" ≠ ".."
  ∧ Forall (λ c, valid_name c = true) ["home"; "user"]
  ∧ normalize_path Sample.session "home/./user/" = "/" +:+ PyStr.join "/" ["home"; "user"]
  ∧ listed_directory (host Sample.session) ["tmp"; "vfs"] ["home"; "user"]
  ∧ change_dir ["home/./user/"] Sample.session
    = Returns () (set_current_path "/home/user" Sample.session).
Proof.
  assert (H1 : wf (host Sample.session)).
  { unfold wf. apply map_Forall_to_list. vm_compute. repeat constructor; discriminate. }
  assert (H2 : vfs_path_extracted Sample.session
               = Some ("/" +:+ PyStr.join "/" ["tmp"; "vfs"])) by reflexivity.
  assert (H3 : stat (host Sample.session) ["tmp"; "vfs"] = Some Dir)
    by (vm_compute; reflexivity).
  assert (H4 : read_vfs Sample.session = Returns () Sample.session)
    by (vm_compute; reflexivity).
  assert (H5 : "home/./user/" ≠ "..") by discriminate.
  assert (H6 : Forall (λ c, valid_name c = true) ["home"; "user"])
    by (repeat constructor).
  assert (H7 : normalize_path Sample.session "home/./user/"
               = "/" +:+ PyStr.join "/" ["home"; "user"]) by reflexivity.
  assert (H8 : listed_directory (host Sample.session) ["tmp"; "vfs"] ["home"; "user"])
    by (vm_compute; reflexivity).
  split_and!; [exact H1|exact H2|exact H3|exact H4|exact H5|exact H6|exact H7|exact H8|].
  exact (proj1 (cd_finds_directories Sample.session ["tmp"; "vfs"] ["home"; "user"]
                  "home/./user/" [] H1 H2 H3 H4 H5 H6 H7) H8).
Defined.

End cd_directories.

(** ** Paths of names on the host *)

Section names_on_host.
Import PyStr HostFs Shell.
Context (fs : gmap (list string) node).

Lemma endswith_abs (l : list string) :
  l ≠ [] → Forall (λ c, valid_name c = true) l →
  endswith (String slash (PyStr.join "/" l)) "/" = false.
Proof.
  intros Hne Hv. destruct l as [|x l]; [done|].
  rewrite endswith_cons by (apply join_nonempty; inversion Hv; subst;
    by apply valid_name_inv).
  by apply endswith_join.
Qed.








End names_on_host.

(** ** [os.makedirs] on a path of names *)

Section makedirs.
Import PyStr HostFs Shell.







End makedirs.

(** ** [cp] of a file *)

Section cp_regular_file.
Import PyStr HostFs Shell.

Lemma join_app (a b : list string) :
  a ≠ [] → b ≠ [] →
  PyStr.join "/" (a ++ b) = PyStr.join "/" a +:+ String slash (PyStr.join "/" b).
Proof.
  intros Ha Hb. induction a as [|x [|y a] IH]; [done| |].
  - destruct b as [|z b]; [done|]. apply join_cons2.
  - change ((x :: y :: a) ++ b) with (x :: y :: (a ++ b)).
    rewrite !join_cons2. change (y :: a ++ b) with ((y :: a) ++ b).
    rewrite IH by done. by rewrite app_assoc_str, app_cons.
Qed.








End cp_regular_file.

(** ** What [cleanup] packs and removes *)

Section cleanup_packs.
Import PyStr HostFs Zip Shell.

Lemma index_entry_member (rel : list string) (n : node) :
  index_entry rel n = "/" +:+ filename (member_of rel n).
Proof. by destruct n. Qed.



End cleanup_packs.

(** ** What [ls] lists *)

Section ls_directory.
Import PyStr HostFs Zip Shell.

(** The path of an entry below the directory at [comps]: the path of the
    directory, then that of the entry from there. *)
Lemma index_entry_below (comps rel : list string) (n : node) :
  rel ≠ [] →
  index_entry (comps ++ rel) n = dir_path comps +:+ filename (member_of rel n).
Proof.
  intros Hrel. destruct comps as [|x comps].
  - cbn [app dir_path]. by destruct n.
  - cbn [dir_path]. rewrite index_entry_member, !slash_app.
    destruct n as [data|]; cbn [member_of filename];
      rewrite join_app by done; rewrite !app_cons, ?app_assoc_str; done.
Qed.

Lemma ls_target_dir (st : State) (args comps : list string) :
  Forall (λ c, valid_name c = true) comps →
  normalize_path st (hd (current_path st) args) = "/" +:+ PyStr.join "/" comps →
  ls_target st args = dir_path comps.
Proof.
  intros Hv Hnorm. unfold ls_target.
  assert ((match args with [] => current_path st | a :: _ => a end)
          = hd (current_path st) args) as -> by (by destruct args).
  rewrite Hnorm. destruct comps as [|x comps]; [done|].
  by rewrite slash_app, endswith_abs by done.
Qed.

(** What [ls] makes of the path of an entry below the directory it
    lists: the name of the child on the way to the entry. *)
Lemma child_of_entry (comps more : list string) (c : string) (n : node) :
  Forall (λ c, valid_name c = true) (c :: more) →
  child_entry (dir_path comps) (index_entry (comps ++ c :: more) n)
  = Some (match more with [] => listed_name c n | _ => c +:+ "/" end).
Proof.
  intros Hv. rewrite index_entry_below by done. unfold child_entry.
  rewrite startswith_app, slice_from_app.
  assert (Hc : has_char slash c = false ∧ c ≠ "").
  { inversion Hv as [|?? Hc _]; subst. by apply valid_name_inv in Hc as (_ & ? & ?). }
  destruct Hc as [Hslash Hne].
  assert (Hseg : ∀ t, first_segment (c +:+ String slash t) = c).
  { intros t. rewrite <- first_segment_hd_split, split_app, (split_no_slash c Hslash).
    done. }
  assert (Hhas : ∀ t, has_char slash (c +:+ String slash t) = true).
  { intros t. rewrite has_char_app. unfold has_char at 2. cbn [contains].
    by rewrite bool_decide_eq_true_2, orb_true_r. }
  destruct more as [|y more].
  - destruct n as [data|]; cbn [member_of filename PyStr.join listed_name].
    + rewrite bool_decide_eq_false_2 by done. by rewrite Hslash.
    + change (c +:+ "/") with (c +:+ String slash "").
      rewrite bool_decide_eq_false_2 by (by intros [? _]%app_eq_empty).
      by rewrite Hhas, Hseg.
  - assert (∃ t, filename (member_of (c :: y :: more) n) = c +:+ String slash t)
      as [t ->].
    { destruct n as [data|]; cbn [member_of filename]; rewrite join_cons2.
      - eauto.
      - rewrite app_assoc_str, app_cons. eauto. }
    rewrite bool_decide_eq_false_2 by (by intros [? _]%app_eq_empty).
    by rewrite Hhas, Hseg.
Qed.

Lemma child_entry_some (p f x : string) :
  child_entry p f = Some x → ∃ rest, rest ≠ "" ∧ f = p +:+ rest.
Proof.
  unfold child_entry. destruct (startswith f p) eqn:Hstart; [|done].
  apply startswith_inv in Hstart. case_bool_decide as Hrest; [done|]. eauto.
Qed.

(** X16.  What [ls] lists, on a well-formed host with the working area a
    directory at an absolute path of names and the index up to date.  For
    an argument (or, without one, the current directory) that normalizes
    to [/] and the names [comps] joined by [/], [ls] returns and prints,
    in increasing order and each once, the names of what the host has in
    the directory at these names below the working area, the name of a
    directory with a [/] after it.  At a regular file, or where there is
    nothing, it prints nothing, and no message. *)
Theorem ls_lists_directory (st : State) (d comps args : list string)
    (Hwf : wf (host st))
    (Hlive : vfs_path_extracted st = Some ("/" +:+ PyStr.join "/" d))
    (Hd : stat (host st) d = Some Dir)
    (Hcurrent : read_vfs st = Returns () st)
    (Hcomps : Forall (λ c, valid_name c = true) comps)
    (Hnorm : normalize_path st (hd (current_path st) args)
             = "/" +:+ PyStr.join "/" comps) :
  ∃ listing,
    list_dir args st = Returns () (set_stdout (stdout st ++ listing) st)
    ∧ (∀ x, x ∈ listing
         ↔ ∃ c n, host st !! (d ++ comps ++ [c]) = Some n ∧ x = listed_name c n)
    ∧ StronglySorted String.le listing ∧ NoDup listing
    ∧ (stat (host st) (d ++ comps) ≠ Some Dir → listing = []).
Proof.
  assert (Hv : Forall (λ c, valid_name c = true) d).
  { destruct d as [|x d]; [done|]. by apply (wf_lookup _ _ _ Hwf) in Hd as (_ & _ & ?). }
  assert (Hfiles : ∀ f, f ∈ files st
            ↔ ∃ rel n, rel ≠ [] ∧ host st !! (d ++ rel) = Some n ∧ f = index_entry rel n).
  { intros f. apply read_vfs_current in Hcurrent as (base & Hbase & ->).
    rewrite Hlive in Hbase. injection Hbase as <-.
    by apply (index_list_spec (host st) d f). }
  assert (Hindex : Forall (λ f, double_slash f = false) (files st)).
  { apply Forall_forall. intros f (rel & n & Hne & Hrel & ->)%Hfiles.
    apply index_entry_no_double_slash; [done|]. by eapply wf_valid_names. }
  pose proof (ls_target_dir st args comps Hcomps Hnorm) as Htarget.
  assert (Hend : endswith (dir_path comps) "/" = true).
  { rewrite <- Htarget. apply ls_target_endswith. }
  set (contents := foldl (λ contents f, list_dir_add (ls_target st args) f contents)
                     ∅ (files st)).
  assert (Hmem : ∀ x, x ∈ sorted contents
            ↔ ∃ c n, host st !! (d ++ comps ++ [c]) = Some n ∧ x = listed_name c n).
  { intros x. unfold sorted. rewrite merge_sort_Permutation, elem_of_elements.
    unfold contents. rewrite Htarget, (list_dir_contents _ _ _ _ Hend Hindex).
    split.
    - intros [?|(f & (rel & n & Hne & Hrel & ->)%Hfiles & Hchild)]; [set_solver|].
      assert (Hvrel : Forall (λ c, valid_name c = true) rel) by (by eapply wf_valid_names).
      assert (∃ c more, rel = comps ++ c :: more) as (c & more & ->).
      { apply child_entry_some in Hchild as (rest & Hrest & Hf).
        destruct comps as [|y comps].
        - destruct rel as [|c more]; [done|]. by exists c, more.
        - cbn [dir_path] in Hf. rewrite !app_assoc_str in Hf.
          assert (Hf' := Hf).
          apply entry_under in Hf' as [[-> ->]|(more & Hmore & ->)]; [| |done..].
          + exfalso. apply Hrest. cbn [index_entry] in Hf.
            apply (f_equal String.length) in Hf. rewrite !length_app_str in Hf.
            destruct rest; [done|]. cbn [String.length] in Hf. lia.
          + destruct more as [|c more]; [done|]. by exists c, more. }
      apply Forall_app in Hvrel as [_ Hvrel].
      rewrite child_of_entry in Hchild by done. injection Hchild as <-.
      destruct more as [|y more].
      + by exists c, n.
      + exists c, Dir. split; [|done].
        change (c :: y :: more) with ([c] ++ y :: more) in Hrel.
        rewrite !app_assoc in Hrel. apply wf_ancestor in Hrel; [|done..].
        rewrite <- app_assoc in Hrel.
        rewrite stat_lookup in Hrel; [done|by destruct d, comps].
    - intros (c & n & Hn & ->). right. exists (index_entry (comps ++ [c]) n).
      split; [apply Hfiles; exists (comps ++ [c]), n; by destruct comps|].
      rewrite child_of_entry; [done|].
      eapply (wf_valid_names _ (d ++ comps) [c]); [done|].
      by rewrite <- app_assoc. }
  exists (sorted contents). split_and!.
  - apply list_dir_run.
  - done.
  - apply StronglySorted_merge_sort; apply _.
  - unfold sorted. rewrite merge_sort_Permutation. apply NoDup_elements.
  - intros Hnodir. destruct (sorted contents) as [|x l] eqn:E; [done|].
    destruct (proj1 (Hmem x)) as (c & n & Hn & _); [by left|].
    rewrite app_assoc in Hn. apply wf_ancestor in Hn; done.
Qed.

Lemma ls_lists_directory_witness :
  wf (host Sample.session)
  ∧ vfs_path_extracted Sample.session = Some ("/" +:+ PyStr.join "/" ["tmp"; "vfs"])
  ∧ stat (host Sample.session) ["tmp"; "vfs"] = Some Dir
  ∧ read_vfs Sample.session = Returns () Sample.session
  ∧ Forall (λ c, valid_name c = true) ["home"]
  ∧ normalize_path Sample.session (hd (current_path Sample.session) ["home"; "more"])
    = "/" +:+ PyStr.join "/" ["home"]
  ∧ ∃ listing,
      list_dir ["home"; "more"] Sample.session
      = Returns () (set_stdout (stdout Sample.session ++ listing) Sample.session)
      ∧ "user/" ∈ listing.
Proof.
  assert (H1 : wf (host Sample.session)).
  { unfold wf. apply map_Forall_to_list. vm_compute. repeat constructor; discriminate. }
  assert (H2 : vfs_path_extracted Sample.session
               = Some ("/" +:+ PyStr.join "/" ["tmp"; "vfs"])) by reflexivity.
  assert (H3 : stat (host Sample.session) ["tmp"; "vfs"] = Some Dir)
    by (vm_compute; reflexivity).
  assert (H4 : read_vfs Sample.session = Returns () Sample.session)
    by (vm_compute; reflexivity).
  assert (H5 : Forall (λ c, valid_name c = true) ["home"]) by (repeat constructor).
  assert (H6 : normalize_path Sample.session
                 (hd (current_path Sample.session) ["home"; "more"])
               = "/" +:+ PyStr.join "/" ["home"]) by reflexivity.
  split_and!; [exact H1|exact H2|exact H3|exact H4|exact H5|exact H6|].
  destruct (ls_lists_directory Sample.session ["tmp"; "vfs"] ["home"] ["home"; "more"]
              H1 H2 H3 H4 H5 H6) as (listing & Hrun & Hmem & _).
  exists listing. split; [exact Hrun|].
  apply Hmem. exists "user", Dir. split; [vm_compute; reflexivity|reflexivity].
Defined.

End ls_directory.
